(** * DREAM / RobotBrunch Monte-Carlo driver: [run_simulator.py]

    A shallow embedding of the simulation driver: the input harvester
    ([folder_harvest]), the task builder ([_make_simulator_tasks]), the trial
    executor with its pool-construction retry loop ([multiple_simulations]),
    the aggregator ([_run_stage]) and the sweep controller ([across_paths]).

    Conventions of the embedding.
    - Python [int] is [Z]; Python [float] and the result of the true division
      [/] are exact rationals [Q] (the statements below compare them with
      [==]); a division by zero raises [ZeroDivisionError].
    - A [dict] whose iteration order is observable is an association list in
      insertion order; a [dict] with a fixed key set is a record.
    - Effects (clock, stdout, warnings, sleeping, the process pool, the file
      system) are threaded through a [World]; exceptions are an explicit
      outcome, and the world survives them, as in Python.
    - The execution engine, numpy's generator and the STN loaders are external
      collaborators and appear as interfaces ([Engine], [NumpyRandom],
      [Loader]). *)

From Stdlib Require Import ZArith QArith List String Ascii Bool Lia Permutation.
Import ListNotations.

Local Open Scope string_scope.
Local Open Scope list_scope.
Local Open Scope Z_scope.

(** ** Exceptions and outcomes *)

Inductive exn : Type :=
| ZeroDivisionError
| ValueError
| TypeError
| BlockingIOError
| OSError.

(** What running a piece of the program yields: a value, an uncaught
    exception, or (only for the bounded renderings of loops and recursion)
    exhaustion of the fuel. *)
Inductive outcome (A : Type) : Type :=
| Return (a : A)
| Raise (e : exn)
| OutOfFuel.
Arguments Return {A} a.
Arguments Raise {A} e.
Arguments OutOfFuel {A}.

(** ** The temporal network, as far as the driver reads it *)

Record Vertex : Type := { ownerID : option Z }.

(** [sigma] is a property that raises [ValueError] when the edge has no
    normal distribution: [None] stands for that raise. *)
Record Edge : Type := { sigma : option Q }.

Module STN.
Record t : Type := {
  name : string;
  verts : list (Z * Vertex);
  edges : list ((Z * Z) * Edge);
  contingent_edges : list ((Z * Z) * Edge);
  interagent_edges : list ((Z * Z) * Edge);
  agents : list Z
}.
End STN.

(** [dict.values()] *)
Definition values {K V : Type} (d : list (K * V)) : list V := map snd d.

(** [len(x)] as a Python int *)
Definition len {A : Type} (l : list A) : Z := Z.of_nat (List.length l).

(** ** Simulation options: the dict with keys ar_threshold, alp_threshold,
    si_threshold built by [main] *)
Module Options.
Record t : Type := {
  ar_threshold : Q;
  alp_threshold : Q;
  si_threshold : Q
}.
End Options.

(** ** The record produced per sweep cell ([results_dict]) *)
Record results_dict : Type := {
  execution : string;
  robustness : Q;
  threads : Z;
  random_seed : option Z;
  runtime : Q;
  samples : Z;
  timestamp : Q;
  stn_path : string;
  stn_name : string;
  ar_threshold : Q;
  si_threshold : Q;
  synchronous_density : Q;
  sd_avg : Q;
  vert_count : Z;
  agents : Z;
  mean_verts_agent : Q;
  max_verts_agent : Z;
  contingent_density : Q;
  reschedule_freq : Q;
  send_freq : Q
}.

(** The dictionary returned by [multiple_simulations]. *)
Record response_dict : Type := {
  sample_results : list bool;
  reschedules : list Z;
  sent_schedules : list Z
}.

(** ** The world *)

(** What one construction of [multiprocessing.Pool] does: it comes up, and its
    workers then complete the submitted tasks in an order fixed by [choices]
    (see [completion_order]), or the construction raises. *)
Inductive pool_behaviour : Type :=
| PoolUp (choices : list nat)
| PoolFails (e : exn).

Inductive event : Type :=
| Printed (fmt : string) (arg : option Z)      (* print(fmt.format(arg)) *)
| Warned (msg : string)                        (* pr.warning(msg) *)
| Slept (seconds : Q)                          (* time.sleep(seconds) *)
| PoolCreated (processes : Z)                  (* multiprocessing.Pool(processes) *)
| Seeded (seeds : option (list Z))             (* ghost: the seeds handed to the task builder *)
| Progress (r : results_dict) (i total : Z)    (* _print_results(r, i, total) *)
| CsvRow (r : results_dict) (path : string).   (* sim2csv.save_csv_row(r, path) *)

Record World : Type := {
  clock : nat -> Q;              (* the successive readings of time.time() *)
  clock_reads : nat;
  pools : nat -> pool_behaviour; (* the successive pool constructions *)
  pool_calls : nat;
  isfile : string -> bool;       (* os.path.isfile *)
  isdir : string -> bool;        (* os.path.isdir *)
  listdir : string -> option (list string);
                                 (* os.listdir: the entries, None where it raises OSError *)
  log : list event               (* everything emitted so far, oldest first *)
}.

(** ** The monad of the driver: state passing with exceptions *)

Definition M (A : Type) : Type := World -> outcome A * World.

Definition ret {A : Type} (a : A) : M A := fun w => (Return a, w).

Definition raise {A : Type} (e : exn) : M A := fun w => (Raise e, w).

Definition out_of_fuel {A : Type} : M A := fun w => (OutOfFuel, w).

Definition bind {A B : Type} (c : M A) (k : A -> M B) : M B :=
  fun w =>
    match c w with
    | (Return a, w') => k a w'
    | (Raise e, w') => (Raise e, w')
    | (OutOfFuel, w') => (OutOfFuel, w')
    end.

Declare Scope py_scope.
Delimit Scope py_scope with py.
Notation "x <- c ;; k" := (bind c (fun x => k))
  (at level 61, c at next level, right associativity) : py_scope.
Notation "c ;; k" := (bind c (fun _ => k))
  (at level 61, right associativity) : py_scope.
Local Open Scope py_scope.

(** A pure computation that may raise. *)
Definition lift {A : Type} (r : exn + A) : M A :=
  match r with
  | inl e => raise e
  | inr a => ret a
  end.

Definition emit (e : event) : M unit :=
  fun w => (Return tt,
            {| clock := clock w; clock_reads := clock_reads w;
               pools := pools w; pool_calls := pool_calls w;
               isfile := isfile w; isdir := isdir w; listdir := listdir w;
               log := log w ++ [e] |}).

(** [time.time()] *)
Definition time_time : M Q :=
  fun w => (Return (clock w (clock_reads w)),
            {| clock := clock w; clock_reads := S (clock_reads w);
               pools := pools w; pool_calls := pool_calls w;
               isfile := isfile w; isdir := isdir w; listdir := listdir w;
               log := log w |}).

(** [time.sleep(seconds)] *)
Definition time_sleep (seconds : Q) : M unit := emit (Slept seconds).

Definition print (fmt : string) (arg : option Z) : M unit := emit (Printed fmt arg).

Definition pr_warning (msg : string) : M unit := emit (Warned msg).

Definition os_path_isfile (p : string) : M bool :=
  fun w => (Return (isfile w p), w).

Definition os_path_isdir (p : string) : M bool :=
  fun w => (Return (isdir w p), w).

(** [os.listdir(p)]: it raises [OSError] (PermissionError, FileNotFoundError,
    NotADirectoryError) where the entries cannot be listed. *)
Definition os_listdir (p : string) : M (list string) :=
  fun w => match listdir w p with
           | Some contents => (Return contents, w)
           | None => (Raise OSError, w)
           end.

(** ** Python arithmetic *)

(** [a / b] *)
Definition truediv (a b : Q) : exn + Q :=
  if Qeq_bool b 0 then inl ZeroDivisionError else inr (a / b)%Q.

(** [sum(l)] on ints *)
Definition py_sum (l : list Z) : Z := fold_left Z.add l 0.

(** [max(l)] on ints; the empty list raises [ValueError]. *)
Definition py_max (l : list Z) : exn + Z :=
  match l with
  | [] => inl ValueError
  | x :: rest => inr (fold_left Z.max rest x)
  end.

(** [l.count(True)] *)
Definition count_True (l : list bool) : Z :=
  fold_left (fun (n : Z) (b : bool) => if b then n + 1 else n) l 0.

(** [range(n)] *)
Definition range (n : Z) : list Z := map Z.of_nat (seq 0 (Z.to_nat n)).

(** ** External collaborators *)

(** The execution engine ([libheat.montsim.Simulator] and
    [libheat.dmontsim.DecoupledSimulator]): constructible from an optional
    seed; [simulate] updates the engine's state and reports success; the two
    counters are read afterwards.  The engine is deterministic: what a trial
    does is a function of the engine's state and the arguments. *)
Class Engine : Type := {
  simulator : Type;
  Simulator : option Z -> simulator;
  DecoupledSimulator : option Z -> simulator;
  simulate : simulator -> STN.t -> string -> Options.t -> bool * simulator;
  simulate_decoupled : simulator -> STN.t -> Options.t -> string -> bool * simulator;
  num_reschedules : simulator -> Z;
  num_sent_schedules : simulator -> Z
}.

(** [numpy.random.RandomState]: seeding (which numpy refuses for some seeds
    with [ValueError]) and [randint(high)]. *)
Class NumpyRandom : Type := {
  RandomState : Type;
  RandomState_init : Z -> exn + RandomState;
  randint : RandomState -> Z -> Z * RandomState
}.

(** [libheat.stntools.load_stn_from_json_file(path)["stn"]] and
    [mitparser.mit2stn(path, add_z=True, connect_origin=True)]. *)
Class Loader : Type := {
  load_stn_from_json_file : string -> STN.t;
  mit2stn : string -> list STN.t
}.

(** ** [multiprocessing.Pool.map] *)

(** The order in which the workers finish: at each step one of the pending
    tasks completes, the one selected by the next entry of [choices] (taken
    modulo the number of pending tasks; 0 once [choices] is used up).  Every
    [choices] describes a run of the pool and every completion order is
    described by some [choices]. *)
Fixpoint completion_order {A : Type} (n : nat) (choices : list nat)
    (pending : list A) : list A :=
  match n with
  | O => []
  | S n' =>
      match pending with
      | [] => []
      | x :: _ =>
          let k := Nat.modulo (hd O choices) (List.length pending) in
          nth k pending x
            :: completion_order n' (tl choices)
                 (firstn k pending ++ skipn (S k) pending)
      end
  end.

(** The result slot of task [i], once the workers are done. *)
Definition slot {B : Type} (completed : list (nat * B)) (i : nat) : option B :=
  match find (fun r => Nat.eqb (fst r) i) completed with
  | Some r => Some (snd r)
  | None => None
  end.

(** Reading the slots out in submission order; [None] when a slot was never
    filled (map would not return). *)
Fixpoint read_slots {B : Type} (completed : list (nat * B)) (indices : list nat)
    : option (list B) :=
  match indices with
  | [] => Some []
  | i :: rest =>
      match slot completed i, read_slots completed rest with
      | Some r, Some rs => Some (r :: rs)
      | _, _ => None
      end
  end.

(** [pool.map(f, tasks)]: the tasks are numbered in submission order, run by
    the workers, finish in the pool's completion order, and each result is
    stored under the number of its task. *)
Definition pool_map {A B : Type} (f : A -> B) (tasks : list A)
    (choices : list nat) : option (list B) :=
  let numbered := combine (seq 0 (List.length tasks)) tasks in
  let finished := completion_order (List.length numbered) choices numbered in
  let completed := map (fun it => (fst it, f (snd it))) finished in
  read_slots completed (seq 0 (List.length tasks)).

(** [with multiprocessing.Pool(threads) as pool: pool.map(f, tasks)].  The
    construction is recorded and consumes one entry of [pools]; a map whose
    slots are not all filled would block for ever. *)
Definition with_pool_map {A B : Type} (threads : Z) (f : A -> B)
    (tasks : list A) : M (list B) :=
  fun w =>
    let w' := {| clock := clock w; clock_reads := clock_reads w;
                 pools := pools w; pool_calls := S (pool_calls w);
                 isfile := isfile w; isdir := isdir w; listdir := listdir w;
                 log := log w ++ [PoolCreated threads] |} in
    match pools w (pool_calls w) with
    | PoolFails e => (Raise e, w')
    | PoolUp choices =>
        match pool_map f tasks choices with
        | Some response => (Return response, w')
        | None => (OutOfFuel, w')
        end
    end.

(** ** [os.path.splitext] (posixpath) *)

(** [s.rfind(c)], counting from [i]; [last] is the answer so far. *)
Fixpoint rfind_from (c : ascii) (s : string) (i last : Z) : Z :=
  match s with
  | EmptyString => last
  | String x s' => rfind_from c s' (i + 1) (if Ascii.eqb x c then i else last)
  end.

Definition rfind (c : ascii) (s : string) : Z := rfind_from c s 0 (-1).

(** Some character of [s] differs from [c]. *)
Fixpoint some_other (c : ascii) (s : string) : bool :=
  match s with
  | EmptyString => false
  | String x s' => negb (Ascii.eqb x c) || some_other c s'
  end.

(** The extension starts at the last dot, provided that dot comes after the
    last separator and is not one of the leading dots of the file name. *)
Definition splitext (p : string) : string * string :=
  let sepIndex := rfind "/" p in
  let dotIndex := rfind "." p in
  if dotIndex >? sepIndex then
    let filenameIndex := sepIndex + 1 in
    if some_other "."
         (substring (Z.to_nat filenameIndex) (Z.to_nat (dotIndex - filenameIndex)) p)
    then (substring 0 (Z.to_nat dotIndex) p,
          substring (Z.to_nat dotIndex) (String.length p - Z.to_nat dotIndex) p)
    else (p, "")
  else (p, "").

(** ** The driver *)

Section Driver.

Context {engine : Engine} {numpy : NumpyRandom} {loader : Loader}.

(** The maximum number a random seed can be. *)
Definition MAX_SEED : Z := 2 ^ 31 - 1.

(** The default decoupling type for DecoupledSimulator *)
Definition DEFAULT_DECOUPLE : string := "srea".

(** A task of the pool: (simulator, stn, execution_strat, sim_options, i). *)
Definition task : Type := simulator * STN.t * string * Options.t * Z.

(** [vert.ownerID == agent] *)
Definition owner_is (agent : Z) (vert : Vertex) : bool :=
  match ownerID vert with
  | Some o => o =? agent
  | None => false
  end.

Definition get_agent_verts (stn : STN.t) (agent : Z) : Z :=
  fold_left (fun count vert => if owner_is agent vert then count + 1 else count)
            (values (STN.verts stn)) 0.

Definition max_agent_verts (stn : STN.t) : exn + Z :=
  py_max (map (get_agent_verts stn) (STN.agents stn)).

Definition mean_agent_verts (stn : STN.t) : exn + Q :=
  let counts := map (get_agent_verts stn) (STN.agents stn) in
  truediv (inject_Z (py_sum counts)) (inject_Z (len counts)).

(** [[seed_gen.randint(MAX_SEED) for i in range(count)]] *)
Fixpoint draw_seeds (n : nat) (seed_gen : RandomState) : list Z :=
  match n with
  | O => []
  | S n' =>
      let (seed, seed_gen') := randint seed_gen MAX_SEED in
      seed :: draw_seeds n' seed_gen'
  end.

(** [seeds[i]] is read for [i] in [range(count)] only, and [seeds] has [count]
    entries when it is a list, so that the lookup is always in range. *)
Definition _make_simulator_tasks (seeds : option (list Z)) (stn : STN.t)
    (execution_strat : string) (sim_options : Options.t) (count : Z)
    : list task :=
  match seeds with
  | Some seeds =>
      if (execution_strat =? "da")%string then
        map (fun i => (DecoupledSimulator (nth_error seeds (Z.to_nat i)), stn,
                       execution_strat, sim_options, i))
            (range count)
      else
        map (fun i => (Simulator (nth_error seeds (Z.to_nat i)), stn,
                       execution_strat, sim_options, i))
            (range count)
  | None =>
      if (execution_strat =? "da")%string then
        map (fun i => (DecoupledSimulator None, stn,
                       execution_strat, sim_options, i))
            (range count)
      else
        map (fun i => (Simulator None, stn, execution_strat, sim_options, i))
            (range count)
  end.

(** The verbose diagnostics of the helper are left out. *)
Definition _multisim_thread_helper (tup : task) : bool * Z * Z :=
  let '(simulator0, stn, strat, opts, _) := tup in
  let (ans, simulator1) :=
    if (strat =? "da")%string
    then simulate_decoupled simulator0 stn opts DEFAULT_DECOUPLE
    else simulate simulator0 stn strat opts in
  (ans, num_reschedules simulator1, num_sent_schedules simulator1).

(** The loop [while try_count <= 3] around the construction of the pool.
    [None] is the value of [response] when the loop ends without a [break].
    The loop is entered with [try_count = 0] and so goes round at most 4
    times: the fuel 5 that [multiple_simulations] gives it never runs out
    ([pool_retry_loop_run]). *)
Fixpoint pool_retry_loop (fuel : nat) (try_count : Z) (threads : Z)
    (tasks : list task) : M (option (list (bool * Z * Z))) :=
  match fuel with
  | O => out_of_fuel
  | S fuel' =>
      if try_count <=? 3 then
        let try_count := try_count + 1 in
        fun w =>
          match with_pool_map threads _multisim_thread_helper tasks w with
          | (Return response, w') => (Return (Some response), w')   (* break *)
          | (Raise BlockingIOError, w') =>
              (pr_warning "Got BlockingIOError; attempting to remake threads" ;;
               pr_warning "Retrying in 3 seconds..." ;;
               time_sleep 3 ;;
               pr_warning "Retrying now" ;;
               pool_retry_loop fuel' try_count threads tasks) w'
          | (Raise e, w') => (Raise e, w')
          | (OutOfFuel, w') => (OutOfFuel, w')
          end
      else ret None
  end.

(** The [Seeded] event is a ghost: it records the [seeds] handed to the task
    builder and has no counterpart in the output of the program. *)
Definition multiple_simulations (starting_stn : STN.t) (execution_strat : string)
    (count : Z) (threads : Z) (random_seed : option Z)
    (sim_options : Options.t) : M response_dict :=
  print "Random seed is: {}" random_seed ;;
  tasks <-
    match random_seed with
    | Some s =>
        seed_gen <- lift (RandomState_init s) ;;
        let seeds := draw_seeds (Z.to_nat count) seed_gen in
        emit (Seeded (Some seeds)) ;;
        ret (_make_simulator_tasks (Some seeds) starting_stn execution_strat
                                   sim_options count)
    | None =>
        emit (Seeded None) ;;
        ret (_make_simulator_tasks None starting_stn execution_strat
                                   sim_options count)
    end ;;
  response <-
    (if threads >? 1 then
       print "Using multithreading; threads = {}" (Some threads) ;;
       pool_retry_loop 5 0 threads tasks
     else
       print "Using single thread; threads = {}" (Some threads) ;;
       ret (Some (map _multisim_thread_helper tasks))) ;;
  match response with
  | None => raise TypeError      (* iterating over None *)
  | Some response =>
      ret {| sample_results := map (fun r => fst (fst r)) response;
             reschedules := map (fun r => snd (fst r)) response;
             sent_schedules := map snd response |}
  end.

(** The loop over the contingent edges: an edge whose [sigma] raises
    [ValueError] leaves [total_sd] as it is. *)
Definition total_sigma (stn : STN.t) : Q :=
  fold_left (fun total_sd e =>
               match sigma e with
               | Some s => (total_sd + s)%Q
               | None => total_sd
               end)
            (values (STN.contingent_edges stn)) 0%Q.

Definition _run_stage (pair : string * STN.t) (execution : string)
    (sim_count threads : Z) (random_seed : option Z)
    (sim_options : Options.t) : M results_dict :=
  let (path, stn) := pair in
  start_time <- time_time ;;
  response_dict <- multiple_simulations stn execution sim_count threads
                                        random_seed sim_options ;;
  end_time <- time_time ;;
  let runtime := (end_time - start_time)%Q in
  let results := sample_results response_dict in
  let reschedules := reschedules response_dict in
  let sent_schedules := sent_schedules response_dict in
  robustness <- lift (truediv (inject_Z (count_True results))
                              (inject_Z (len results))) ;;
  let vert_count := len (STN.verts stn) in
  max_verts_on_agent <- lift (max_agent_verts stn) ;;
  mean_verts_on_agent <- lift (truediv (inject_Z (len (STN.verts stn) - 1))
                                       (inject_Z (len (STN.agents stn)))) ;;
  cont_dens <- lift (truediv (inject_Z (len (STN.contingent_edges stn)))
                             (inject_Z (len (STN.edges stn)))) ;;
  synchrony <- lift (truediv (inject_Z (len (STN.interagent_edges stn)))
                             (inject_Z (len (STN.edges stn)))) ;;
  let total_sd := total_sigma stn in
  sd_avg <- lift (truediv total_sd
                          (inject_Z (len (STN.contingent_edges stn)))) ;;
  now <- time_time ;;
  reschedule_freq <- lift (truediv (inject_Z (py_sum reschedules))
                                   (inject_Z (len reschedules))) ;;
  send_freq <- lift (truediv (inject_Z (py_sum sent_schedules))
                             (inject_Z (len sent_schedules))) ;;
  ret {| execution := execution;
         robustness := robustness;
         threads := threads;
         random_seed := random_seed;
         runtime := runtime;
         samples := sim_count;
         timestamp := now;
         stn_path := path;
         stn_name := STN.name stn;
         ar_threshold := Options.ar_threshold sim_options;
         si_threshold := Options.si_threshold sim_options;
         synchronous_density := synchrony;
         sd_avg := sd_avg;
         vert_count := vert_count;
         agents := len (STN.agents stn);
         mean_verts_agent := mean_verts_on_agent;
         max_verts_agent := max_verts_on_agent;
         contingent_density := cont_dens;
         reschedule_freq := reschedule_freq;
         send_freq := send_freq |}.

Definition _print_results (results_dict : results_dict) (i stn_count : Z)
    : M unit :=
  emit (Progress results_dict i stn_count).

Definition save_csv_row (results_dict : results_dict) (output : string)
    : M unit :=
  emit (CsvRow results_dict output).

(** [sim_options.copy()] with the two thresholds of the grid point written
    over. *)
Definition option_instance (sim_options : Options.t) (execution_setting : Q * Q)
    : Options.t :=
  {| Options.ar_threshold := fst execution_setting;
     Options.alp_threshold := Options.alp_threshold sim_options;
     Options.si_threshold := snd execution_setting |}.

(** The first loop of [across_paths]: the (path, STN) pairs, an MIT file
    contributing one pair per instance it holds. *)
Definition collect_stn_pairs (stn_paths : list string) (mitparse : bool)
    : list (string * STN.t) :=
  fold_left (fun stn_pairs path =>
               if mitparse
               then stn_pairs ++ map (fun k => (path, k)) (mit2stn path)
               else stn_pairs ++ [(path, load_stn_from_json_file path)])
            stn_paths [].

Section Sweep.

Variables (execution : string) (threads sim_count : Z)
          (sim_options : Options.t) (output : option string)
          (live_updates : bool) (random_seed : option Z)
          (start_index : Z) (stop_index : option Z).

(** [for j, execution_setting in enumerate(ordering_pairs)], from [j] on. *)
Fixpoint grid_loop (stn_pairs : list (string * STN.t))
    (ordering_pairs : list (Q * Q)) (i : Z) (pair : string * STN.t)
    (j : Z) (rest : list (Q * Q)) : M unit :=
  match rest with
  | [] => ret tt
  | execution_setting :: rest' =>
      let sim_option_instance := option_instance sim_options execution_setting in
      results_dict <- _run_stage pair execution sim_count threads
                                 random_seed sim_option_instance ;;
      (if live_updates
       then _print_results results_dict
                           (j + len ordering_pairs * i + 1)
                           (len stn_pairs * len ordering_pairs)
       else ret tt) ;;
      match output with
      | Some o => save_csv_row results_dict o
      | None => ret tt
      end ;;
      grid_loop stn_pairs ordering_pairs i pair (j + 1) rest'
  end.

(** The body of the loop over the pairs, after the two index tests. *)
Definition stage (stn_pairs : list (string * STN.t))
    (ordering_pairs : option (list (Q * Q))) (i : Z) (pair : string * STN.t)
    : M unit :=
  match ordering_pairs with
  | Some ordering_pairs =>
      grid_loop stn_pairs ordering_pairs i pair 0 ordering_pairs
  | None =>
      results_dict <- _run_stage pair execution sim_count threads
                                 random_seed sim_options ;;
      (if live_updates
       then _print_results results_dict (i + 1) (len stn_pairs)
       else ret tt) ;;
      match output with
      | Some o => save_csv_row results_dict o
      | None => ret tt
      end
  end.

(** [for i, pair in enumerate(stn_pairs)], from [i] on, with its [continue]
    and its [break]. *)
Fixpoint pairs_loop (stn_pairs : list (string * STN.t))
    (ordering_pairs : option (list (Q * Q))) (i : Z)
    (rest : list (string * STN.t)) : M unit :=
  match rest with
  | [] => ret tt
  | stn_pair :: rest' =>
      if i <? start_index then
        pairs_loop stn_pairs ordering_pairs (i + 1) rest'      (* continue *)
      else if match stop_index with
              | Some stop => i >=? stop
              | None => false
              end
      then ret tt                                               (* break *)
      else
        stage stn_pairs ordering_pairs i stn_pair ;;
        pairs_loop stn_pairs ordering_pairs (i + 1) rest'
  end.

End Sweep.

Definition across_paths (stn_paths : list string) (execution : string)
    (threads sim_count : Z) (sim_options : Options.t)
    (output : option string) (live_updates : bool) (random_seed : option Z)
    (mitparse : bool) (start_index : Z) (stop_index : option Z)
    (ordering_pairs : option (list (Q * Q))) : M unit :=
  let stn_pairs := collect_stn_pairs stn_paths mitparse in
  pairs_loop execution threads sim_count sim_options output live_updates
             random_seed start_index stop_index
             stn_pairs ordering_pairs 0 stn_pairs.

(** [folder_harvest].  The recursion into sub-directories is bounded by
    [fuel]; the call made there passes [recurse=True] and leaves [only_json]
    at its default.  The two loops are written first, over the function
    [harvest] that the inner one calls on a sub-directory. *)

Section HarvestLoops.

Variable harvest : list string -> bool -> bool -> M (list string).
Variables recurse only_json : bool.

(** [for c in contents], [stn_files] being the list built so far. *)
Fixpoint over_contents (folder_path : string) (contents : list string)
    (stn_files : list string) : M (list string) :=
  match contents with
  | [] => ret stn_files
  | c :: contents' =>
      (* Make sure to include the folder path *)
      let long_path := (folder_path ++ "/" ++ c)%string in
      is_file <- os_path_isfile long_path ;;
      if is_file : bool then
        if only_json then
          let (_, ext) := splitext long_path in
          if (ext =? ".json")%string
          then over_contents folder_path contents' (stn_files ++ [long_path])
          else over_contents folder_path contents' stn_files
        else over_contents folder_path contents' (stn_files ++ [long_path])
      else
        is_dir <- os_path_isdir long_path ;;
        if (is_dir && recurse)%bool then
          found <- harvest [long_path] true true ;;
          over_contents folder_path contents' (stn_files ++ found)
        else
          pr_warning ("STN path was not file or directory: " ++ folder_path)%string ;;
          pr_warning "Skipping..." ;;
          over_contents folder_path contents' stn_files
  end.

(** [for folder_path in folder_paths] *)
Fixpoint over_paths (folder_paths : list string) (stn_files : list string)
    : M (list string) :=
  match folder_paths with
  | [] => ret stn_files
  | folder_path :: folder_paths' =>
      is_file <- os_path_isfile folder_path ;;
      if is_file : bool then
        (* Folder was actually a stn file. Just append it. *)
        if only_json then
          let (_, ext) := splitext folder_path in
          if (ext =? ".json")%string
          then over_paths folder_paths' (stn_files ++ [folder_path])
          else over_paths folder_paths' stn_files
        else over_paths folder_paths' (stn_files ++ [folder_path])
      else
        is_dir <- os_path_isdir folder_path ;;
        if is_dir : bool then
          contents <- os_listdir folder_path ;;
          stn_files' <- over_contents folder_path contents stn_files ;;
          over_paths folder_paths' stn_files'
        else
          pr_warning ("STN path was not file or directory: " ++ folder_path)%string ;;
          pr_warning "Skipping..." ;;
          over_paths folder_paths' stn_files
  end.

End HarvestLoops.

Fixpoint folder_harvest (fuel : nat) (folder_paths : list string)
    (recurse only_json : bool) : M (list string) :=
  match fuel with
  | O => out_of_fuel
  | S fuel' =>
      over_paths (folder_harvest fuel') recurse only_json folder_paths []
  end.

End Driver.

(** ** Vocabulary of the statements *)

(** The seconds slept, the seed lists handed to the task builder and the rows
    appended to the CSV file, as a log shows them. *)
Definition slept (l : list event) : list Q :=
  flat_map (fun e => match e with Slept s => [s] | _ => [] end) l.

Definition seed_lists (l : list event) : list (option (list Z)) :=
  flat_map (fun e => match e with Seeded s => [s] | _ => [] end) l.

Definition csv_rows (l : list event) : list results_dict :=
  flat_map (fun e => match e with CsvRow r _ => [r] | _ => [] end) l.

(** A record with its two clock readings blanked. *)
Definition untimed (r : results_dict) : results_dict :=
  {| execution := execution r;
     robustness := robustness r;
     threads := threads r;
     random_seed := random_seed r;
     runtime := 0%Q;
     samples := samples r;
     timestamp := 0%Q;
     stn_path := stn_path r;
     stn_name := stn_name r;
     ar_threshold := ar_threshold r;
     si_threshold := si_threshold r;
     synchronous_density := synchronous_density r;
     sd_avg := sd_avg r;
     vert_count := vert_count r;
     agents := agents r;
     mean_verts_agent := mean_verts_agent r;
     max_verts_agent := max_verts_agent r;
     contingent_density := contingent_density r;
     reschedule_freq := reschedule_freq r;
     send_freq := send_freq r |}.

(** The spreads that are defined, in edge order. *)
Definition defined_sigmas (stn : STN.t) : list Q :=
  flat_map (fun e => match sigma e with Some s => [s] | None => [] end)
           (values (STN.contingent_edges stn)).

Definition Qsum (l : list Q) : Q := fold_right Qplus 0%Q l.

(** A vertex owned by one of the listed agents. *)
Definition owned_by_some (agents : list Z) (vert : Vertex) : bool :=
  existsb (fun a => match ownerID vert with
                    | Some o => o =? a
                    | None => false
                    end) agents.

(** The number of the first consecutive pool constructions, out of [n] and
    starting with construction number [from], that fail with
    [BlockingIOError]. *)
Fixpoint blocked (pools : nat -> pool_behaviour) (from n : nat) : nat :=
  match n with
  | O => O
  | S n' =>
      match pools from with
      | PoolFails BlockingIOError => S (blocked pools (S from) n')
      | _ => O
      end
  end.

(** The path of an entry of a directory, and the test on its extension. *)
Definition long_path (folder_path c : string) : string :=
  (folder_path ++ "/" ++ c)%string.

Definition is_json (p : string) : bool := (snd (splitext p) =? ".json")%string.

(** What one failed construction leaves in the log: the pool, the three
    warnings and the sleep. *)
Definition retry_round (threads : Z) : list event :=
  [ PoolCreated threads;
    Warned "Got BlockingIOError; attempting to remake threads";
    Warned "Retrying in 3 seconds...";
    Slept 3%Q;
    Warned "Retrying now" ].

Section Cells.

Context {engine : Engine} {numpy : NumpyRandom} {loader : Loader}.

(** A sweep cell: the pair, the options it runs with, and the progress index
    and total shown with it. *)
Record cell : Type := {
  cell_pair : string * STN.t;
  cell_options : Options.t;
  cell_progress : Z;
  cell_total : Z
}.

(** The cells of network number [i], in grid order. *)
Definition cells_of_pair (n_pairs : Z) (sim_options : Options.t)
    (ordering_pairs : option (list (Q * Q))) (i : Z) (pair : string * STN.t)
    : list cell :=
  match ordering_pairs with
  | Some grid =>
      map (fun jes =>
             {| cell_pair := pair;
                cell_options := option_instance sim_options (snd jes);
                cell_progress := Z.of_nat (fst jes) + len grid * i + 1;
                cell_total := n_pairs * len grid |})
          (combine (seq 0 (List.length grid)) grid)
  | None =>
      [ {| cell_pair := pair;
           cell_options := sim_options;
           cell_progress := i + 1;
           cell_total := n_pairs |} ]
  end.

(** The grid size: 1 when there is no grid. *)
Definition grid_size (ordering_pairs : option (list (Q * Q))) : nat :=
  match ordering_pairs with
  | Some grid => List.length grid
  | None => 1%nat
  end.

(** All the cells of a sweep in the order of the combined index
    network_index * grid_size + grid_index. *)
Definition all_cells (stn_pairs : list (string * STN.t))
    (sim_options : Options.t) (ordering_pairs : option (list (Q * Q)))
    : list cell :=
  flat_map (fun ip => cells_of_pair (len stn_pairs) sim_options ordering_pairs
                                    (Z.of_nat (fst ip)) (snd ip))
           (combine (seq 0 (List.length stn_pairs)) stn_pairs).

(** The cells of network [ip] when the start and stop indices select it, that
    is when [start_index <= i] and, if there is a stop index,
    [i < stop_index]; none otherwise. *)
Definition pick (stn_pairs : list (string * STN.t))
    (sim_options : Options.t) (ordering_pairs : option (list (Q * Q)))
    (start_index : Z) (stop_index : option Z)
    (ip : nat * (string * STN.t)) : list cell :=
  if (start_index <=? Z.of_nat (fst ip))
     && match stop_index with
        | Some stop => Z.of_nat (fst ip) <? stop
        | None => true
        end
  then cells_of_pair (len stn_pairs) sim_options ordering_pairs
                     (Z.of_nat (fst ip)) (snd ip)
  else [].

(** The cells a sweep with the given start and stop indices goes through. *)
Definition selected_cells (stn_pairs : list (string * STN.t))
    (sim_options : Options.t) (ordering_pairs : option (list (Q * Q)))
    (start_index : Z) (stop_index : option Z) : list cell :=
  flat_map (pick stn_pairs sim_options ordering_pairs start_index stop_index)
           (combine (seq 0 (List.length stn_pairs)) stn_pairs).

(** The [seeds] of a batch: raised when numpy refuses the root seed, absent
    when there is no root seed. *)
Definition drawn_seeds (random_seed : option Z) (count : Z)
    : exn + option (list Z) :=
  match random_seed with
  | None => inr None
  | Some s =>
      match RandomState_init s with
      | inl e => inl e
      | inr seed_gen => inr (Some (draw_seeds (Z.to_nat count) seed_gen))
      end
  end.

(** The response dictionary that running the tasks of a batch one after the
    other, in submission order, gives. *)
Definition in_order_response (stn : STN.t) (execution_strat : string)
    (count : Z) (seeds : option (list Z)) (sim_options : Options.t)
    : response_dict :=
  let response :=
    map _multisim_thread_helper
        (_make_simulator_tasks seeds stn execution_strat sim_options count) in
  {| sample_results := map (fun r => fst (fst r)) response;
     reschedules := map (fun r => snd (fst r)) response;
     sent_schedules := map snd response |}.

(** The seed lists one batch hands to the task builder, as a function of the
    root seed and the trial count: none when numpy refuses the seed. *)
Definition batch_seed_lists (random_seed : option Z) (count : Z)
    : list (option (list Z)) :=
  match random_seed with
  | None => [None]
  | Some s =>
      match RandomState_init s with
      | inr seed_gen => [Some (draw_seeds (Z.to_nat count) seed_gen)]
      | inl _ => []
      end
  end.

(** Running one cell: the batch, then the two sinks. *)
Definition run_cell (execution : string) (threads sim_count : Z)
    (output : option string) (live_updates : bool) (random_seed : option Z)
    (c : cell) : M unit :=
  results_dict <- _run_stage (cell_pair c) execution sim_count threads
                             random_seed (cell_options c) ;;
  (if live_updates
   then _print_results results_dict (cell_progress c) (cell_total c)
   else ret tt) ;;
  match output with
  | Some o => save_csv_row results_dict o
  | None => ret tt
  end.

Fixpoint run_cells (execution : string) (threads sim_count : Z)
    (output : option string) (live_updates : bool) (random_seed : option Z)
    (cs : list cell) : M unit :=
  match cs with
  | [] => ret tt
  | c :: cs' =>
      run_cell execution threads sim_count output live_updates random_seed c ;;
      run_cells execution threads sim_count output live_updates random_seed cs'
  end.

End Cells.

(** ** Stub collaborators, for running the driver on concrete inputs *)

(** An engine whose trial succeeds exactly when its seed is below [limit]
    (an unseeded trial succeeds), and which reports [resched] reschedules and
    one sent schedule per trial. *)
Definition stub_engine (limit resched : Z) : Engine :=
  {| simulator := option Z * Z * Z;
     Simulator := fun seed => (seed, 0, 0);
     DecoupledSimulator := fun seed => (seed, 0, 0);
     simulate := fun s _ _ _ =>
       (match fst (fst s) with Some x => x <? limit | None => true end,
        (fst (fst s), resched, 1));
     simulate_decoupled := fun s _ _ _ =>
       (match fst (fst s) with Some x => x <? limit | None => true end,
        (fst (fst s), resched, 1));
     num_reschedules := fun s => snd (fst s);
     num_sent_schedules := fun s => snd s |}.

(** A generator that counts up from its seed. *)
Definition counting_numpy : NumpyRandom :=
  {| RandomState := Z;
     RandomState_init := fun s =>
       if (0 <=? s) && (s <? 2 ^ 32) then inr s else inl ValueError;
     randint := fun g high => (g mod high, g + 1) |}.

Definition edge_with (s : option Q) : Edge := {| sigma := s |}.

(** Three time-points besides the zero time-point, two agents, three edges of
    which two are contingent and one of those has no normal distribution. *)
Definition small_stn : STN.t :=
  {| STN.name := "small";
     STN.verts := [ (0, {| ownerID := None |}); (1, {| ownerID := Some 0 |});
                    (2, {| ownerID := Some 0 |}); (3, {| ownerID := Some 1 |}) ];
     STN.edges := [ ((0, 1), edge_with None); ((1, 2), edge_with (Some 1%Q));
                    ((2, 3), edge_with None) ];
     STN.contingent_edges := [ ((1, 2), edge_with (Some 1%Q));
                               ((2, 3), edge_with None) ];
     STN.interagent_edges := [ ((2, 3), edge_with None) ];
     STN.agents := [0; 1] |}.

(** As [small_stn], but with a second time-point that no agent owns. *)
Definition stn_with_unowned : STN.t :=
  {| STN.name := "unowned";
     STN.verts := [ (0, {| ownerID := None |}); (1, {| ownerID := Some 0 |});
                    (2, {| ownerID := None |}) ];
     STN.edges := [ ((0, 1), edge_with (Some 1%Q)); ((1, 2), edge_with None) ];
     STN.contingent_edges := [ ((0, 1), edge_with (Some 1%Q)) ];
     STN.interagent_edges := [];
     STN.agents := [0] |}.

Definition stub_loader (stn : STN.t) : Loader :=
  {| load_stn_from_json_file := fun _ => stn;
     mit2stn := fun _ => [stn; stn] |}.

Definition zero_options : Options.t :=
  {| Options.ar_threshold := 0%Q;
     Options.alp_threshold := 0%Q;
     Options.si_threshold := 0%Q |}.

(** A world whose clock shows [t0], [t0 + 1], ..., whose first [failures] pool
    constructions fail with [BlockingIOError], whose later pools finish their
    tasks in the order given by [choices], and whose only directory is
    ["stns"], listed as [listing]. *)
Definition stub_world (t0 : Z) (failures : nat) (choices : list nat)
    (listing : list string) : World :=
  {| clock := fun n => inject_Z (t0 + Z.of_nat n);
     clock_reads := 0;
     pools := fun n => if Nat.ltb n failures
                       then PoolFails BlockingIOError
                       else PoolUp choices;
     pool_calls := 0;
     isfile := fun p => existsb (fun c => String.eqb p ("stns/" ++ c)%string) listing;
     isdir := fun p => String.eqb p "stns";
     listdir := fun p => if String.eqb p "stns" then Some listing else None;
     log := [] |}.

(** Two network files and a grid of two threshold pairs, swept in one worker
    with four trials per cell, root seed 42 and a CSV file as sink. *)
Definition demo_grid : list (Q * Q) := [ (0%Q, 0%Q); (1 # 2, 1 # 2)%Q ].

Definition demo_sweep (start_index : Z) (stop_index : option Z)
    : outcome unit * World :=
  across_paths (engine := stub_engine 79 2) (numpy := counting_numpy)
               (loader := stub_loader small_stn)
               ["a.json"; "b.json"] "early" 1 4 zero_options (Some "out.csv")
               false (Some 42) false start_index stop_index (Some demo_grid)
               (stub_world 0 0 [] []).

(** The file and the first threshold of each row written by a sweep. *)
Definition rows_written (run : outcome unit * World) : list (string * Q) :=
  map (fun r => (stn_path r, ar_threshold r)) (csv_rows (log (snd run))).

(** ** Vocabulary of the further statements *)

(** The world with more events in its log and nothing else changed. *)
Definition logged (w : World) (es : list event) : World :=
  {| clock := clock w; clock_reads := clock_reads w;
     pools := pools w; pool_calls := pool_calls w;
     isfile := isfile w; isdir := isdir w; listdir := listdir w;
     log := log w ++ es |}.

(** Two worlds that differ in their logs at most. *)
Definition same_but_log (w w' : World) : Prop :=
  clock w' = clock w /\ clock_reads w' = clock_reads w
  /\ pools w' = pools w /\ pool_calls w' = pool_calls w
  /\ isfile w' = isfile w /\ isdir w' = isdir w /\ listdir w' = listdir w.

Definition is_warning (e : event) : Prop :=
  match e with
  | Warned _ => True
  | _ => False
  end.

(** The two warnings about a path that is skipped. *)
Definition skip_warnings (folder_path : string) : list event :=
  [ Warned ("STN path was not file or directory: " ++ folder_path)%string;
    Warned "Skipping..." ].

(** What a harvest without recursion finds under one path: the path itself
    when it is a file, the entries that are files when it is a directory,
    nothing otherwise; with [only_json], only what has the extension. *)
Definition kept (only_json : bool) (p : string) : bool :=
  negb only_json || is_json p.

Definition flat_found (w : World) (only_json : bool) (p : string)
    : list string :=
  if isfile w p then (if kept only_json p then [p] else [])
  else if isdir w p then
    match listdir w p with
    | Some contents =>
        filter (fun q => isfile w q && kept only_json q)
               (map (long_path p) contents)
    | None => []
    end
  else [].

(** The warnings of that harvest: two for every entry of a directory that is
    not a file, two for a path that is neither a file nor a directory. *)
Definition flat_warnings (w : World) (p : string) : list event :=
  if isfile w p then []
  else if isdir w p then
    match listdir w p with
    | Some contents =>
        flat_map (fun c => if isfile w (long_path p c) then []
                           else skip_warnings p)
                 contents
    | None => []
    end
  else skip_warnings p.

(** A directory the harvester lists and whose entries cannot be listed:
    [os.listdir] raises [OSError] there. *)
Definition unreadable (w : World) (p : string) : bool :=
  negb (isfile w p) && isdir w p
  && match listdir w p with
     | Some _ => false
     | None => true
     end.

(** The paths that come before the first unreadable directory. *)
Fixpoint readable_prefix (w : World) (folder_paths : list string)
    : list string :=
  match folder_paths with
  | [] => []
  | p :: folder_paths' =>
      if unreadable w p then [] else p :: readable_prefix w folder_paths'
  end.

(** A result with a list put in front of what was found. *)
Definition prepend (stn_files : list string)
    (run : outcome (list string) * World) : outcome (list string) * World :=
  match run with
  | (Return found, w) => (Return (stn_files ++ found), w)
  | other => other
  end.

(** From [w] to [w'] nothing happened but warnings. *)
Definition warned_from (w w' : World) : Prop :=
  same_but_log w w'
  /\ exists warnings, log w' = log w ++ warnings /\ Forall is_warning warnings.

(** A harvest that only warned, raised nothing but the [OSError] of a
    directory that cannot be listed, and found paths that all satisfy [Q]. *)
Definition harvest_post (Q : string -> Prop) (w : World)
    (run : outcome (list string) * World) : Prop :=
  warned_from w (snd run)
  /\ match fst run with
     | Return found => Forall Q found
     | Raise e => e = OSError /\ exists p, unreadable w p = true
     | OutOfFuel => True
     end.

(** A path given to the harvester, or an entry of a directory given to it. *)
Definition direct (w : World) (folder_paths : list string) (p : string)
    : Prop :=
  In p folder_paths
  \/ exists folder_path c,
       In folder_path folder_paths
       /\ (exists contents,
             listdir w folder_path = Some contents /\ In c contents)
       /\ p = long_path folder_path c.

(** A world with the directory ["data"], holding a.json, notes.txt and the
    directory ["data/sub"], which holds b.json and c.txt. *)
Definition tree_world : World :=
  {| clock := fun n => inject_Z (Z.of_nat n);
     clock_reads := 0;
     pools := fun _ => PoolUp [];
     pool_calls := 0;
     isfile := fun p => existsb (String.eqb p)
                                ["data/a.json"; "data/notes.txt";
                                 "data/sub/b.json"; "data/sub/c.txt"];
     isdir := fun p => existsb (String.eqb p) ["data"; "data/sub"];
     listdir := fun p => if String.eqb p "data"
                         then Some ["a.json"; "notes.txt"; "sub"]
                         else if String.eqb p "data/sub"
                              then Some ["b.json"; "c.txt"]
                              else None;
     log := [] |}.

(** The same tree beside a directory ["locked"], which cannot be listed. *)
Definition locked_world : World :=
  {| clock := clock tree_world;
     clock_reads := 0;
     pools := pools tree_world;
     pool_calls := 0;
     isfile := isfile tree_world;
     isdir := fun p => String.eqb p "locked" || isdir tree_world p;
     listdir := listdir tree_world;
     log := [] |}.

(** What one trial reports when it is run on a fresh engine built from
    [seed]: the decoupled engine for the strategy ["da"], the plain one
    otherwise. *)
Definition trial_outcome {engine : Engine} (stn : STN.t) (execution_strat : string)
    (sim_options : Options.t) (seed : option Z) : bool * Z * Z :=
  _multisim_thread_helper
    (if (execution_strat =? "da")%string
     then (DecoupledSimulator seed, stn, execution_strat, sim_options, 0)
     else (Simulator seed, stn, execution_strat, sim_options, 0)).

(** The response dictionary made of a list of outcomes. *)
Definition response_of (outcomes : list (bool * Z * Z)) : response_dict :=
  {| sample_results := map (fun r => fst (fst r)) outcomes;
     reschedules := map (fun r => snd (fst r)) outcomes;
     sent_schedules := map snd outcomes |}.

(** The progress lines shown, as a log has them. *)
Definition progress_shown (l : list event) : list (results_dict * Z * Z) :=
  flat_map (fun e => match e with
                     | Progress r i total => [(r, i, total)]
                     | _ => []
                     end) l.

(** The record of a cell: what it echoes of the cell and of the arguments of
    the sweep. *)
Definition record_of_cell (ex : string) (th n : Z) (seed : option Z)
    (c : cell) (r : results_dict) : Prop :=
  stn_path r = fst (cell_pair c)
  /\ stn_name r = STN.name (snd (cell_pair c))
  /\ ar_threshold r = Options.ar_threshold (cell_options c)
  /\ si_threshold r = Options.si_threshold (cell_options c)
  /\ execution r = ex
  /\ threads r = th
  /\ samples r = n
  /\ random_seed r = seed.

(** A network without any agent: only the zero time-point. *)
Definition stn_without_agents : STN.t :=
  {| STN.name := "nobody";
     STN.verts := [ (0, {| ownerID := None |}) ];
     STN.edges := [];
     STN.contingent_edges := [];
     STN.interagent_edges := [];
     STN.agents := [] |}.

(** The response of five trials of which the first two succeed, each with two
    reschedules and one schedule sent. *)
Definition two_of_five : response_dict :=
  {| sample_results := [true; true; false; false; false];
     reschedules := [2; 2; 2; 2; 2];
     sent_schedules := [1; 1; 1; 1; 1] |}.

(** * Proofs *)

(** ** Arithmetic of the aggregates *)

Lemma count_True_shift (l : list bool) (n m : Z) :
  fold_left (fun (n : Z) (b : bool) => if b then n + 1 else n) l (n + m)
  = n + fold_left (fun (n : Z) (b : bool) => if b then n + 1 else n) l m.
Proof.
  revert m. induction l as [|b l IH]; intros m; simpl.
  - reflexivity.
  - destruct b; [|apply IH]. rewrite <- Z.add_assoc. apply IH.
Qed.

Lemma count_True_cons (b : bool) (l : list bool) :
  count_True (b :: l) = (if b then 1 else 0) + count_True l.
Proof.
  unfold count_True. simpl. destruct b; [|reflexivity].
  apply (count_True_shift l 1 0).
Qed.

Lemma count_True_bounds (l : list bool) : 0 <= count_True l <= len l.
Proof.
  unfold len. induction l as [|b l IH].
  - cbn. lia.
  - rewrite count_True_cons. cbn [List.length]. destruct b; lia.
Qed.

Lemma count_True_all (l : list bool) :
  Forall (fun b => b = true) l -> count_True l = len l.
Proof.
  unfold len. induction 1 as [|b l Hb _ IH].
  - reflexivity.
  - rewrite count_True_cons, Hb, IH. cbn [List.length]. lia.
Qed.

Lemma count_True_none (l : list bool) :
  Forall (fun b => b = false) l -> count_True l = 0.
Proof.
  induction 1 as [|b l Hb _ IH].
  - reflexivity.
  - rewrite count_True_cons, Hb, IH. reflexivity.
Qed.

Lemma py_sum_shift (l : list Z) (n m : Z) :
  fold_left Z.add l (n + m) = n + fold_left Z.add l m.
Proof.
  revert m. induction l as [|x l IH]; intros m; simpl.
  - reflexivity.
  - rewrite <- Z.add_assoc. apply IH.
Qed.

Lemma py_sum_cons (x : Z) (l : list Z) : py_sum (x :: l) = x + py_sum l.
Proof.
  unfold py_sum. simpl. rewrite <- (Z.add_0_r x) at 1. apply py_sum_shift.
Qed.

Lemma py_sum_constant (c : Z) (l : list Z) :
  Forall (fun x => x = c) l -> py_sum l = c * len l.
Proof.
  unfold len. induction 1 as [|x l Hx _ IH].
  - cbn. lia.
  - rewrite py_sum_cons, Hx, IH. cbn [List.length]. lia.
Qed.

Lemma len_nil_iff {A : Type} (l : list A) : len l = 0 <-> l = [].
Proof.
  unfold len. destruct l; cbn [List.length]; split; intros H;
    try reflexivity; try discriminate; lia.
Qed.

Lemma len_nonneg {A : Type} (l : list A) : 0 <= len l.
Proof. unfold len. lia. Qed.

(** [a / b] returns exactly when [b] is not zero, and then it is the
    quotient. *)
Lemma truediv_inr (a : Q) (n : Z) (q : Q) :
  truediv a (inject_Z n) = inr q -> n <> 0 /\ q = (a / inject_Z n)%Q.
Proof.
  unfold truediv. destruct (Qeq_bool (inject_Z n) 0) eqn:E; [discriminate|].
  intros H. injection H as <-. split; [|reflexivity].
  intros ->. discriminate.
Qed.

Lemma truediv_zero (a : Q) : truediv a (inject_Z 0) = inl ZeroDivisionError.
Proof. reflexivity. Qed.

Lemma truediv_nonzero (a : Q) (n : Z) :
  n <> 0 -> truediv a (inject_Z n) = inr (a / inject_Z n)%Q.
Proof.
  intros Hn. unfold truediv.
  destruct (Qeq_bool (inject_Z n) 0) eqn:E; [|reflexivity].
  apply Qeq_bool_eq in E. unfold Qeq in E. simpl in E. lia.
Qed.

(** A ratio of integers [c / n] with [0 <= c <= n] and [0 < n]. *)
Lemma ratio_bounds (c n : Z) :
  0 <= c <= n -> 0 < n -> (0 <= inject_Z c / inject_Z n <= 1)%Q.
Proof.
  intros Hc Hn. destruct n as [|p|p]; try lia.
  unfold Qdiv, Qinv, Qmult, Qle, inject_Z. simpl. split; lia.
Qed.

Lemma ratio_full (n : Z) : n <> 0 -> (inject_Z n / inject_Z n == 1)%Q.
Proof.
  intros Hn. apply Qmult_inv_r. unfold Qeq. simpl. lia.
Qed.

Lemma ratio_none (n : Z) : (inject_Z 0 / inject_Z n == 0)%Q.
Proof. unfold Qdiv. apply Qmult_0_l. Qed.

Lemma ratio_multiple (c n : Z) :
  n <> 0 -> (inject_Z (c * n) / inject_Z n == inject_Z c)%Q.
Proof.
  intros Hn. rewrite inject_Z_mult. apply Qdiv_mult_l.
  unfold Qeq. simpl. lia.
Qed.

(** ** The pool returns the results in submission order *)

Lemma pick_permutation {A : Type} (k : nat) (l : list A) (d : A) :
  (k < List.length l)%nat ->
  Permutation (nth k l d :: firstn k l ++ skipn (S k) l) l.
Proof.
  revert k. induction l as [|x l IH]; intros k Hk; simpl in Hk; [lia|].
  destruct k as [|k]; simpl.
  - apply Permutation_refl.
  - eapply perm_trans; [apply perm_swap|].
    apply perm_skip. apply IH. lia.
Qed.

Lemma pick_length {A : Type} (k : nat) (l : list A) :
  (k < List.length l)%nat ->
  List.length (firstn k l ++ skipn (S k) l) = pred (List.length l).
Proof.
  intros Hk. rewrite length_app, length_firstn, length_skipn. lia.
Qed.

(** Whatever the choices, the workers complete every pending task once. *)
Lemma completion_order_permutation {A : Type} (n : nat) (choices : list nat)
    (pending : list A) :
  n = List.length pending ->
  Permutation (completion_order n choices pending) pending.
Proof.
  revert choices pending.
  induction n as [|n IH]; intros choices pending Hn.
  - destruct pending; [apply perm_nil | discriminate].
  - destruct pending as [|x rest]; [discriminate|].
    cbn [completion_order].
    set (l := x :: rest) in *.
    assert (Hk : (Nat.modulo (hd O choices) (List.length l) < List.length l)%nat).
    { apply Nat.mod_upper_bound. subst l. simpl. lia. }
    eapply perm_trans; [|apply (pick_permutation _ l x Hk)].
    apply perm_skip. apply IH.
    rewrite pick_length by exact Hk. rewrite <- Hn. reflexivity.
Qed.

Lemma completion_order_step {A : Type} (n c : nat) (choices : list nat)
    (pending : list A) (d : A) :
  pending <> [] ->
  completion_order (S n) (c :: choices) pending
  = nth (Nat.modulo c (List.length pending)) pending d
      :: completion_order n choices
           (firstn (Nat.modulo c (List.length pending)) pending
            ++ skipn (S (Nat.modulo c (List.length pending))) pending).
Proof.
  destruct pending as [|x rest]; [contradiction|]. intros _.
  cbn [completion_order hd tl]. f_equal.
  apply nth_indep. apply Nat.mod_upper_bound. discriminate.
Qed.

(** Every order in which the pending tasks can complete is the completion
    order of some choices. *)
Lemma completion_order_any {A : Type} (pending order : list A) :
  Permutation pending order ->
  exists choices,
    completion_order (List.length pending) choices pending = order.
Proof.
  revert pending. induction order as [|y order IH]; intros pending Hperm.
  - apply Permutation_sym, Permutation_nil in Hperm. subst pending.
    exists []. reflexivity.
  - assert (Hin : In y pending)
      by (apply (Permutation_in y (Permutation_sym Hperm)); left; reflexivity).
    apply in_split in Hin. destruct Hin as (l1 & l2 & ->).
    apply Permutation_sym, Permutation_cons_app_inv, Permutation_sym in Hperm.
    destruct (IH (l1 ++ l2) Hperm) as (choices & Hrest).
    exists (List.length l1 :: choices).
    assert (Hlen : List.length (l1 ++ y :: l2) = S (List.length (l1 ++ l2)))
      by (rewrite !length_app; cbn [List.length]; lia).
    rewrite Hlen at 1.
    rewrite (completion_order_step _ _ _ _ y) by (destruct l1; discriminate).
    rewrite Nat.mod_small by (rewrite length_app; cbn [List.length]; lia).
    rewrite nth_middle, firstn_app, Nat.sub_diag, firstn_all, app_nil_r.
    replace (skipn (S (List.length l1)) (l1 ++ y :: l2)) with l2.
    + rewrite Hrest. reflexivity.
    + rewrite skipn_app, skipn_all2 by lia.
      replace (S (List.length l1) - List.length l1)%nat with 1%nat by lia.
      reflexivity.
Qed.

Lemma slot_found {B : Type} (completed : list (nat * B)) (i : nat) (b : B) :
  NoDup (map fst completed) -> In (i, b) completed ->
  slot completed i = Some b.
Proof.
  unfold slot.
  induction completed as [|[j c] completed IH]; intros Hnd Hin; [contradiction|].
  simpl in Hnd. apply NoDup_cons_iff in Hnd. destruct Hnd as [Hj Hnd].
  simpl. destruct (Nat.eqb_spec j i) as [->|Hne].
  - simpl. destruct Hin as [Heq|Hin]; [congruence|].
    exfalso. apply Hj. apply (in_map fst) in Hin. exact Hin.
  - destruct Hin as [Heq|Hin]; [congruence|]. apply IH; assumption.
Qed.

Lemma read_slots_numbered {A B : Type} (f : A -> B) (completed : list (nat * B))
    (tasks : list A) (a : nat) :
  NoDup (map fst completed) ->
  (forall it, In it (combine (seq a (List.length tasks)) tasks) ->
              In (fst it, f (snd it)) completed) ->
  read_slots completed (seq a (List.length tasks)) = Some (map f tasks).
Proof.
  intros Hnd. revert a.
  induction tasks as [|t tasks IH]; intros a Hin; [reflexivity|].
  cbn [List.length seq read_slots map].
  rewrite (slot_found completed a (f t) Hnd).
  - rewrite IH; [reflexivity|].
    intros it Hit. apply Hin. cbn [List.length seq combine]. right. exact Hit.
  - apply (Hin (a, t)). cbn [List.length seq combine]. left. reflexivity.
Qed.

Lemma map_fst_combine_seq {A : Type} (tasks : list A) (a : nat) :
  map fst (combine (seq a (List.length tasks)) tasks) = seq a (List.length tasks).
Proof.
  revert a. induction tasks as [|t tasks IH]; intros a; [reflexivity|].
  cbn [List.length seq combine map fst]. rewrite IH. reflexivity.
Qed.

(** [pool.map(f, tasks)] is [list(map(f, tasks))], whatever the order in which
    the workers finish. *)
Lemma pool_map_in_order {A B : Type} (f : A -> B) (tasks : list A)
    (choices : list nat) :
  pool_map f tasks choices = Some (map f tasks).
Proof.
  unfold pool_map.
  set (numbered := combine (seq 0 (List.length tasks)) tasks).
  assert (Hperm : Permutation
                    (completion_order (List.length numbered) choices numbered)
                    numbered)
    by (apply completion_order_permutation; reflexivity).
  apply read_slots_numbered.
  - rewrite map_map. cbn [fst].
    apply (Permutation_NoDup (l := map fst numbered)).
    + apply Permutation_map. apply Permutation_sym. exact Hperm.
    + subst numbered. rewrite map_fst_combine_seq. apply seq_NoDup.
  - intros it Hit.
    apply (in_map (fun it => (fst it, f (snd it)))).
    apply (Permutation_in it (Permutation_sym Hperm)). exact Hit.
Qed.

Section Executor.
Context {engine : Engine} {numpy : NumpyRandom} {loader : Loader}.

(** ** Laws of the monad, at a world *)

Lemma bind_ret {A B : Type} (a : A) (k : A -> M B) (w : World) :
  bind (ret a) k w = k a w.
Proof. reflexivity. Qed.

Lemma bind_raise {A B : Type} (e : exn) (k : A -> M B) (w : World) :
  bind (raise e) k w = (Raise e, w).
Proof. reflexivity. Qed.

Lemma bind_emit {B : Type} (e : event) (k : unit -> M B) (w : World) :
  bind (emit e) k w = k tt (snd (emit e w)).
Proof. reflexivity. Qed.

Lemma bind_bind {A B C : Type} (c : M A) (k1 : A -> M B) (k2 : B -> M C)
    (w : World) :
  bind (bind c k1) k2 w = bind c (fun a => bind (k1 a) k2) w.
Proof. unfold bind. destruct (c w) as [[a|e|] w']; reflexivity. Qed.

Lemma bind_lift {A B : Type} (r : exn + A) (k : A -> M B) (w : World) :
  bind (lift r) k w = match r with inl e => (Raise e, w) | inr a => k a w end.
Proof. destruct r; reflexivity. Qed.

Lemma log_emit (e : event) (w : World) : log (snd (emit e w)) = log w ++ [e].
Proof. reflexivity. Qed.

Ltac mstep :=
  repeat first [ rewrite bind_bind | rewrite bind_ret | rewrite bind_raise
               | rewrite bind_emit ];
  cbn beta.

(** ** The retry loop around the construction of the pool *)

Lemma with_pool_map_run {A B : Type} (threads : Z) (f : A -> B)
    (tasks : list A) (w : World) :
  let run := with_pool_map threads f tasks w in
  pools (snd run) = pools w
  /\ pool_calls (snd run) = S (pool_calls w)
  /\ log (snd run) = log w ++ [PoolCreated threads]
  /\ fst run = match pools w (pool_calls w) with
               | PoolUp _ => Return (map f tasks)
               | PoolFails e => Raise e
               end.
Proof.
  unfold with_pool_map.
  destruct (pools w (pool_calls w)) as [choices|e]; cbn.
  - rewrite pool_map_in_order. cbn. repeat split.
  - repeat split.
Qed.

Lemma pool_retry_loop_run (fuel : nat) (try_count threads : Z)
    (tasks : list task) (w : World) :
  (Z.to_nat (4 - try_count) < fuel)%nat ->
  let remaining := Z.to_nat (4 - try_count) in
  let k := blocked (pools w) (pool_calls w) remaining in
  let run := pool_retry_loop fuel try_count threads tasks w in
  pools (snd run) = pools w
  /\ pool_calls (snd run) = (pool_calls w + Nat.min (S k) remaining)%nat
  /\ log (snd run)
     = log w ++ List.concat (repeat (retry_round threads) k)
             ++ (if (k <? remaining)%nat then [PoolCreated threads] else [])
  /\ fst run
     = if (k <? remaining)%nat
       then match pools w (pool_calls w + k) with
            | PoolUp _ => Return (Some (map _multisim_thread_helper tasks))
            | PoolFails e => Raise e
            end
       else Return None.
Proof.
  revert try_count w.
  induction fuel as [|fuel IH]; intros try_count w Hfuel; [lia|].
  cbn zeta. cbn [pool_retry_loop].
  destruct (Z.leb_spec try_count 3) as [Hle|Hgt].
  - assert (Hrem : Z.to_nat (4 - try_count) = S (Z.to_nat (4 - (try_count + 1))))
      by lia.
    rewrite Hrem in *. cbn [blocked].
    destruct (with_pool_map_run threads _multisim_thread_helper tasks w)
      as (Hp & Hc & Hl & Hr).
    destruct (with_pool_map threads _multisim_thread_helper tasks w)
      as [res w1] eqn:Hrun.
    cbn [fst snd] in Hp, Hc, Hl, Hr.
    destruct (pools w (pool_calls w)) as [choices|e] eqn:Hpool.
    + subst res. cbn. rewrite Nat.add_0_r, Hpool, Hp, Hc, Hl.
      repeat split. lia.
    + subst res.
      destruct e;
        try (cbn; rewrite Nat.add_0_r, Hpool, Hp, Hc, Hl; repeat split; lia).
      assert (Hnext : (Z.to_nat (4 - (try_count + 1)) < fuel)%nat) by lia.
      unfold pr_warning, time_sleep. rewrite !bind_emit.
      set (w2 := snd (emit _ (snd (emit _ (snd (emit _ (snd (emit _ w1)))))))).
      assert (Hp2 : pools w2 = pools w) by (rewrite <- Hp; reflexivity).
      assert (Hc2 : pool_calls w2 = S (pool_calls w)) by (rewrite <- Hc; reflexivity).
      assert (Hl2 : log w2 = log w ++ retry_round threads).
      { subst w2. rewrite !log_emit, Hl. unfold retry_round.
        repeat rewrite <- app_assoc. reflexivity. }
      clearbody w2.
      specialize (IH (try_count + 1) w2 Hnext). cbv zeta in IH.
      destruct IH as (IHp & IHc & IHl & IHr).
      rewrite Hp2, Hc2, Hl2 in *.
      repeat split.
      * exact IHp.
      * rewrite IHc. lia.
      * rewrite IHl. cbn [repeat List.concat].
        repeat rewrite <- app_assoc. reflexivity.
      * rewrite IHr. rewrite Nat.add_succ_r. reflexivity.
  - assert (Hrem : Z.to_nat (4 - try_count) = O) by lia.
    rewrite Hrem. cbn. rewrite app_nil_r, Nat.add_0_r. repeat split.
Qed.

(** ** One batch *)

Lemma multiple_simulations_refused stn strat count threads seed opts w e :
  drawn_seeds seed count = inl e ->
  let run := multiple_simulations stn strat count threads seed opts w in
  fst run = Raise e
  /\ pool_calls (snd run) = pool_calls w
  /\ log (snd run) = log w ++ [Printed "Random seed is: {}" seed].
Proof.
  unfold drawn_seeds, multiple_simulations.
  destruct seed as [s|]; [|discriminate].
  destruct (RandomState_init s) as [e'|g] eqn:Hinit; [|discriminate].
  intros [= <-]. cbn. repeat split.
Qed.

Lemma multiple_simulations_sequential stn strat count threads seed opts w seeds :
  drawn_seeds seed count = inr seeds ->
  threads <= 1 ->
  let run := multiple_simulations stn strat count threads seed opts w in
  fst run = Return (in_order_response stn strat count seeds opts)
  /\ pool_calls (snd run) = pool_calls w
  /\ log (snd run)
     = log w ++ [Printed "Random seed is: {}" seed; Seeded seeds;
                 Printed "Using single thread; threads = {}" (Some threads)].
Proof.
  unfold drawn_seeds, multiple_simulations. intros Hseeds Hth.
  destruct (Z.gtb_spec threads 1) as [Hgt|_]; [lia|].
  destruct seed as [s|].
  - destruct (RandomState_init s) as [e'|g] eqn:Hinit; [discriminate|].
    injection Hseeds as <-. cbn.
    repeat rewrite <- app_assoc. repeat split.
  - injection Hseeds as <-. cbn.
    repeat rewrite <- app_assoc. repeat split.
Qed.

Lemma multiple_simulations_parallel stn strat count threads seed opts w seeds :
  drawn_seeds seed count = inr seeds ->
  threads > 1 ->
  let k := blocked (pools w) (pool_calls w) 4 in
  let run := multiple_simulations stn strat count threads seed opts w in
  pool_calls (snd run) = (pool_calls w + Nat.min (S k) 4)%nat
  /\ log (snd run)
     = log w ++ [Printed "Random seed is: {}" seed; Seeded seeds;
                 Printed "Using multithreading; threads = {}" (Some threads)]
             ++ List.concat (repeat (retry_round threads) k)
             ++ (if (k <? 4)%nat then [PoolCreated threads] else [])
  /\ fst run
     = if (k <? 4)%nat
       then match pools w (pool_calls w + k) with
            | PoolUp _ => Return (in_order_response stn strat count seeds opts)
            | PoolFails e => Raise e
            end
       else Raise TypeError.
Proof.
  unfold drawn_seeds, multiple_simulations. intros Hseeds Hth.
  destruct (Z.gtb_spec threads 1) as [_|Hle]; [|lia].
  assert (Hgo : forall (w0 : World) tasks,
             pools w0 = pools w -> pool_calls w0 = pool_calls w ->
             let k := blocked (pools w) (pool_calls w) 4 in
             let run := pool_retry_loop 5 0 threads tasks w0 in
             pool_calls (snd run) = (pool_calls w + Nat.min (S k) 4)%nat
             /\ log (snd run)
                = log w0 ++ List.concat (repeat (retry_round threads) k)
                         ++ (if (k <? 4)%nat then [PoolCreated threads] else [])
             /\ fst run
                = if (k <? 4)%nat
                  then match pools w (pool_calls w + k) with
                       | PoolUp _ => Return (Some (map _multisim_thread_helper tasks))
                       | PoolFails e => Raise e
                       end
                  else Return None).
  { intros w0 tasks Hp Hc.
    destruct (pool_retry_loop_run 5 0 threads tasks w0 ltac:(cbn; lia))
      as (_ & H2 & H3 & H4).
    change (Z.to_nat (4 - 0)) with 4%nat in *.
    rewrite Hp, Hc in *. cbn zeta. auto. }
  assert (Hend : forall (w0 : World),
             pools w0 = pools w -> pool_calls w0 = pool_calls w ->
             let k := blocked (pools w) (pool_calls w) 4 in
             let run :=
               bind (pool_retry_loop 5 0 threads
                       (_make_simulator_tasks seeds stn strat opts count))
                    (fun response =>
                       match response with
                       | None => raise TypeError
                       | Some response =>
                           ret {| sample_results := map (fun r => fst (fst r)) response;
                                  reschedules := map (fun r => snd (fst r)) response;
                                  sent_schedules := map snd response |}
                       end) w0 in
             pool_calls (snd run) = (pool_calls w + Nat.min (S k) 4)%nat
             /\ log (snd run)
                = log w0 ++ List.concat (repeat (retry_round threads) k)
                         ++ (if (k <? 4)%nat then [PoolCreated threads] else [])
             /\ fst run
                = if (k <? 4)%nat
                  then match pools w (pool_calls w + k) with
                       | PoolUp _ => Return (in_order_response stn strat count seeds opts)
                       | PoolFails e => Raise e
                       end
                  else Raise TypeError).
  { intros w0 Hp Hc. cbn zeta. unfold bind.
    destruct (Hgo w0 (_make_simulator_tasks seeds stn strat opts count) Hp Hc)
      as (H2 & H3 & H4).
    destruct (pool_retry_loop 5 0 threads _ w0) as [res w1].
    cbn [fst snd] in H2, H3, H4. subst res.
    destruct (blocked (pools w) (pool_calls w) 4 <? 4)%nat.
    - destruct (pools w _); cbn [fst snd ret raise]; repeat split; assumption.
    - cbn [fst snd ret raise]. repeat split; assumption. }
  unfold print.
  destruct seed as [s|].
  - destruct (RandomState_init s) as [e'|g] eqn:Hinit; [discriminate|].
    injection Hseeds as <-. cbn [lift]. mstep.
    match goal with |- context [bind _ _ ?w0] =>
      destruct (Hend w0 eq_refl eq_refl) as (H2 & H3 & H4) end.
    cbn zeta in H2, H3, H4. rewrite !log_emit in H3.
    repeat rewrite <- app_assoc in H3. cbn [app] in H3.
    repeat split; assumption.
  - injection Hseeds as <-. mstep.
    match goal with |- context [bind _ _ ?w0] =>
      destruct (Hend w0 eq_refl eq_refl) as (H2 & H3 & H4) end.
    cbn zeta in H2, H3, H4. rewrite !log_emit in H3.
    repeat rewrite <- app_assoc in H3. cbn [app] in H3.
    repeat split; assumption.
Qed.
End Executor.

Section Aggregator.
Context {engine : Engine} {numpy : NumpyRandom} {loader : Loader}.

(** A batch that returns returns the in-order response of its tasks. *)
Lemma multiple_simulations_returns stn strat count threads seed opts w resp w1 :
  multiple_simulations stn strat count threads seed opts w = (Return resp, w1) ->
  exists seeds,
    drawn_seeds seed count = inr seeds
    /\ resp = in_order_response stn strat count seeds opts.
Proof.
  intros Hrun.
  destruct (drawn_seeds seed count) as [e|seeds] eqn:Hseeds.
  - destruct (multiple_simulations_refused stn strat count threads seed opts w e Hseeds)
      as (H & _). rewrite Hrun in H. discriminate.
  - exists seeds. split; [reflexivity|].
    destruct (Z_le_gt_dec threads 1) as [Hle|Hgt].
    + destruct (multiple_simulations_sequential stn strat count threads seed opts w
                  seeds Hseeds Hle) as (H & _).
      rewrite Hrun in H. cbn in H. congruence.
    + destruct (multiple_simulations_parallel stn strat count threads seed opts w
                  seeds Hseeds Hgt) as (_ & _ & H).
      rewrite Hrun in H. cbn [fst] in H.
      destruct (_ <? 4)%nat; [|discriminate].
      destruct (pools w _); [congruence | discriminate].
Qed.

Lemma _make_simulator_tasks_length seeds stn strat opts count :
  len (_make_simulator_tasks seeds stn strat opts count) = Z.max 0 count.
Proof.
  unfold len, _make_simulator_tasks, range.
  destruct seeds; destruct (strat =? "da")%string;
    rewrite !length_map, length_seq; lia.
Qed.

Lemma in_order_response_lengths stn strat count seeds opts :
  let resp := in_order_response stn strat count seeds opts in
  len (sample_results resp) = Z.max 0 count
  /\ len (reschedules resp) = Z.max 0 count
  /\ len (sent_schedules resp) = Z.max 0 count.
Proof.
  cbn. unfold len. rewrite !length_map.
  pose proof (_make_simulator_tasks_length seeds stn strat opts count) as H.
  unfold len in H. auto.
Qed.

(** What a stage that returns has computed. *)
Lemma _run_stage_returns path stn ex n th seed opts w r w' :
  _run_stage (path, stn) ex n th seed opts w = (Return r, w') ->
  exists resp w1 rob maxv meanv cd syn sd rf sf,
    multiple_simulations stn ex n th seed opts (snd (time_time w)) = (Return resp, w1)
    /\ truediv (inject_Z (count_True (sample_results resp)))
               (inject_Z (len (sample_results resp))) = inr rob
    /\ max_agent_verts stn = inr maxv
    /\ truediv (inject_Z (len (STN.verts stn) - 1))
               (inject_Z (len (STN.agents stn))) = inr meanv
    /\ truediv (inject_Z (len (STN.contingent_edges stn)))
               (inject_Z (len (STN.edges stn))) = inr cd
    /\ truediv (inject_Z (len (STN.interagent_edges stn)))
               (inject_Z (len (STN.edges stn))) = inr syn
    /\ truediv (total_sigma stn)
               (inject_Z (len (STN.contingent_edges stn))) = inr sd
    /\ truediv (inject_Z (py_sum (reschedules resp)))
               (inject_Z (len (reschedules resp))) = inr rf
    /\ truediv (inject_Z (py_sum (sent_schedules resp)))
               (inject_Z (len (sent_schedules resp))) = inr sf
    /\ untimed r =
       {| execution := ex; robustness := rob; threads := th; random_seed := seed;
          runtime := 0%Q; samples := n; timestamp := 0%Q; stn_path := path;
          stn_name := STN.name stn;
          ar_threshold := Options.ar_threshold opts;
          si_threshold := Options.si_threshold opts;
          synchronous_density := syn; sd_avg := sd;
          vert_count := len (STN.verts stn); agents := len (STN.agents stn);
          mean_verts_agent := meanv; max_verts_agent := maxv;
          contingent_density := cd; reschedule_freq := rf; send_freq := sf |}.
Proof.
  unfold _run_stage. unfold bind at 1. cbn [time_time].
  intros H. unfold bind at 1 in H.
  match type of H with context [multiple_simulations ?a ?b ?c ?d ?e ?f ?w0] =>
    destruct (multiple_simulations a b c d e f w0) as [[resp| |] w1] eqn:Hms end;
    try discriminate.
  exists resp, w1.
  unfold bind at 1 in H. cbn [time_time] in H.
  repeat (rewrite bind_lift in H;
          match type of H with context [match ?x with inl _ => _ | inr _ => _ end] =>
            destruct x eqn:? end; try discriminate).
  unfold bind at 1 in H. cbn [time_time] in H.
  repeat (rewrite bind_lift in H;
          match type of H with context [match ?x with inl _ => _ | inr _ => _ end] =>
            destruct x eqn:? end; try discriminate).
  unfold ret in H. inversion H; subst; clear H.
  do 8 eexists. repeat split; try eassumption; try reflexivity.
Qed.

(** A batch without trials makes the stage fail at its first division. *)
Lemma _run_stage_no_trials path stn ex n th seed opts w resp w1 :
  multiple_simulations stn ex n th seed opts (snd (time_time w)) = (Return resp, w1) ->
  sample_results resp = [] ->
  fst (_run_stage (path, stn) ex n th seed opts w) = Raise ZeroDivisionError.
Proof.
  intros Hms Hnil. unfold _run_stage. unfold bind at 1. cbn [time_time].
  unfold bind at 1. cbn [time_time snd] in Hms. rewrite Hms.
  unfold bind at 1. cbn [time_time]. rewrite bind_lift, Hnil. reflexivity.
Qed.

(** With one worker, at least one trial, a seed that numpy accepts and a
    network that has an agent, an edge and a contingent edge, the stage
    returns a record. *)
Lemma _run_stage_sequential_returns path stn ex n th seed opts w seeds :
  th <= 1 ->
  1 <= n ->
  drawn_seeds seed n = inr seeds ->
  STN.agents stn <> [] ->
  STN.edges stn <> [] ->
  STN.contingent_edges stn <> [] ->
  exists r, fst (_run_stage (path, stn) ex n th seed opts w) = Return r.
Proof.
  intros Hth Hn Hseeds Hagents Hedges Hcont.
  destruct (multiple_simulations_sequential stn ex n th seed opts
              (snd (time_time w)) seeds Hseeds Hth) as (Hres & _).
  destruct (in_order_response_lengths stn ex n seeds opts) as (L1 & L2 & L3).
  unfold _run_stage. unfold bind at 1. cbn [time_time snd] in *.
  unfold bind at 1.
  destruct (multiple_simulations stn ex n th seed opts _) as [res w1].
  cbn [fst] in Hres. subst res.
  unfold bind at 1. cbn [time_time].
  rewrite bind_lift, truediv_nonzero by (rewrite L1; lia).
  unfold max_agent_verts.
  destruct (STN.agents stn) as [|a agents] eqn:Ha; [contradiction|].
  cbn [map py_max]. rewrite bind_lift.
  rewrite bind_lift, truediv_nonzero by (unfold len; cbn [List.length]; lia).
  assert (He : len (STN.edges stn) <> 0) by (rewrite len_nil_iff; exact Hedges).
  assert (Hc : len (STN.contingent_edges stn) <> 0)
    by (rewrite len_nil_iff; exact Hcont).
  rewrite bind_lift, truediv_nonzero by exact He.
  rewrite bind_lift, truediv_nonzero by exact He.
  rewrite bind_lift, truediv_nonzero by exact Hc.
  unfold bind at 1. cbn [time_time].
  rewrite bind_lift, truediv_nonzero by (rewrite L2; lia).
  rewrite bind_lift, truediv_nonzero by (rewrite L3; lia).
  eexists. reflexivity.
Qed.

End Aggregator.

Section AggregatorClaims.
Context {engine : Engine} {numpy : NumpyRandom} {loader : Loader}.

Lemma count_True_filter (l : list bool) :
  count_True l = len (filter (fun b => b) l).
Proof.
  unfold len. induction l as [|b l IH].
  - reflexivity.
  - rewrite count_True_cons, IH. destruct b; cbn [filter List.length]; lia.
Qed.

(** C3.  The robustness field of the record of a stage is the number of
    successful trial outcomes of its batch divided by the number of trials:
    it lies between 0 and 1, is 1 when every trial succeeds and 0 when every
    trial fails.  A batch without any trial makes the stage raise
    [ZeroDivisionError] instead of returning a record. *)
Theorem robustness_is_success_ratio path stn ex n th seed opts w resp w1 :
  multiple_simulations stn ex n th seed opts (snd (time_time w)) = (Return resp, w1) ->
  let results := sample_results resp in
  let run := _run_stage (path, stn) ex n th seed opts w in
  (results = [] -> fst run = Raise ZeroDivisionError)
  /\ (forall r, fst run = Return r ->
        1 <= len results
        /\ (robustness r
            == inject_Z (len (filter (fun b => b) results))
               / inject_Z (len results))%Q
        /\ (0 <= robustness r <= 1)%Q
        /\ (Forall (fun b => b = true) results -> (robustness r == 1)%Q)
        /\ (Forall (fun b => b = false) results -> (robustness r == 0)%Q)).
Proof.
  intros Hms results run. split.
  - intros Hnil. apply (_run_stage_no_trials path stn ex n th seed opts w resp w1 Hms Hnil).
  - intros r Hr. subst run.
    destruct (_run_stage (path, stn) ex n th seed opts w) as [res w'] eqn:Hrun.
    cbn [fst] in Hr. subst res.
    apply _run_stage_returns in Hrun.
    destruct Hrun as (resp' & w1' & rob & maxv & meanv & cd & syn & sd & rf & sf
                      & Hms' & Hrob & _ & _ & _ & _ & _ & _ & _ & Hr).
    rewrite Hms in Hms'. injection Hms' as <- <-.
    apply (f_equal robustness) in Hr. cbn [robustness untimed] in Hr. subst rob.
    apply truediv_inr in Hrob. destruct Hrob as [Hn Hq].
    fold results in Hn, Hq.
    pose proof (count_True_bounds results) as Hb.
    pose proof (len_nonneg results) as Hl.
    assert (Hpos : 0 < len results) by lia.
    rewrite Hq. split; [lia|]. split.
    { rewrite count_True_filter. reflexivity. }
    split; [apply ratio_bounds; assumption|]. split.
    + intros Hall. rewrite (count_True_all _ Hall). apply ratio_full. exact Hn.
    + intros Hnone. rewrite (count_True_none _ Hnone). apply ratio_none.
Qed.

(** C8.  In the record of a stage over a batch of [N] outcomes ([N >= 1] as
    soon as a record is returned), [reschedule_freq] is the sum of the
    per-trial reschedule counts divided by [N] and [send_freq] the sum of the
    per-trial sent-schedule counts divided by [N]; when every trial reports 2
    reschedules, [reschedule_freq] is 2. *)
Theorem frequencies_are_means path stn ex n th seed opts w resp w1 r :
  multiple_simulations stn ex n th seed opts (snd (time_time w)) = (Return resp, w1) ->
  fst (_run_stage (path, stn) ex n th seed opts w) = Return r ->
  let N := len (sample_results resp) in
  1 <= N /\ N = n
  /\ len (reschedules resp) = N /\ len (sent_schedules resp) = N
  /\ (reschedule_freq r == inject_Z (py_sum (reschedules resp)) / inject_Z N)%Q
  /\ (send_freq r == inject_Z (py_sum (sent_schedules resp)) / inject_Z N)%Q
  /\ (Forall (fun c => c = 2) (reschedules resp) -> (reschedule_freq r == 2)%Q).
Proof.
  intros Hms Hr N.
  destruct (_run_stage (path, stn) ex n th seed opts w) as [res w'] eqn:Hrun.
  cbn [fst] in Hr. subst res.
  apply _run_stage_returns in Hrun.
  destruct Hrun as (resp' & w1' & rob & maxv & meanv & cd & syn & sd & rf & sf
                    & Hms' & Hrob & _ & _ & _ & _ & _ & Hrf & Hsf & Hr).
  rewrite Hms in Hms'. injection Hms' as <- <-.
  pose proof (f_equal reschedule_freq Hr) as Er.
  pose proof (f_equal send_freq Hr) as Es.
  cbn [reschedule_freq send_freq untimed] in Er, Es. subst rf sf.
  apply multiple_simulations_returns in Hms.
  destruct Hms as (seeds & _ & ->).
  destruct (in_order_response_lengths stn ex n seeds opts) as (L1 & L2 & L3).
  apply truediv_inr in Hrob, Hrf, Hsf.
  destruct Hrob as [Hn _], Hrf as [_ Hrf], Hsf as [_ Hsf].
  subst N. rewrite L2 in Hrf. rewrite L3 in Hsf. rewrite L1 in *.
  assert (Hpos : 1 <= n) by lia.
  replace (Z.max 0 n) with n in * by lia.
  repeat split; try assumption; try lia.
  - rewrite Hrf. reflexivity.
  - rewrite Hsf. reflexivity.
  - intros Hall. rewrite Hrf. rewrite (py_sum_constant 2 _ Hall), L2.
    replace (Z.max 0 n) with n by lia.
    apply (ratio_multiple 2 n). lia.
Qed.

End AggregatorClaims.

Section Structure.
Context {engine : Engine} {numpy : NumpyRandom} {loader : Loader}.

(** ** Vertices per agent *)

Lemma get_agent_verts_shift (agent : Z) (vs : list Vertex) (n m : Z) :
  fold_left (fun count vert => if owner_is agent vert then count + 1 else count)
            vs (n + m)
  = n + fold_left (fun count vert => if owner_is agent vert then count + 1 else count)
                  vs m.
Proof.
  revert m. induction vs as [|v vs IH]; intros m; simpl.
  - reflexivity.
  - destruct (owner_is agent v); [|apply IH].
    rewrite <- Z.add_assoc. apply IH.
Qed.

Lemma get_agent_verts_count (stn : STN.t) (agent : Z) :
  get_agent_verts stn agent
  = len (filter (owner_is agent) (values (STN.verts stn))).
Proof.
  unfold get_agent_verts, len.
  induction (values (STN.verts stn)) as [|v vs IH]; [reflexivity|].
  cbn [fold_left filter]. destruct (owner_is agent v).
  - change (0 + 1) with (1 + 0). rewrite get_agent_verts_shift, IH.
    cbn [List.length]. lia.
  - exact IH.
Qed.

Lemma owned_by_some_cons (a : Z) (agents : list Z) (v : Vertex) :
  owned_by_some (a :: agents) v = owner_is a v || owned_by_some agents v.
Proof. reflexivity. Qed.

Lemma owner_is_listed (a : Z) (agents : list Z) (v : Vertex) :
  owner_is a v = true -> owned_by_some agents v = true -> In a agents.
Proof.
  unfold owner_is, owned_by_some. destruct (ownerID v) as [o|]; [|discriminate].
  intros Ha Hsome. apply Z.eqb_eq in Ha. subst o.
  apply existsb_exists in Hsome. destruct Hsome as (b & Hb & Hab).
  apply Z.eqb_eq in Hab. subst b. exact Hb.
Qed.

Lemma filter_disjoint_length {A : Type} (p q : A -> bool) (l : list A) :
  (forall x, p x = true -> q x = true -> False) ->
  len (filter (fun x => p x || q x) l) = len (filter p l) + len (filter q l).
Proof.
  intros Hpq. unfold len. induction l as [|x l IH]; [reflexivity|].
  cbn [filter]. specialize (Hpq x).
  destruct (p x), (q x); cbn [orb List.length];
    first [ lia | exfalso; auto ].
Qed.

Lemma filter_nobody (vs : list Vertex) : filter (owned_by_some []) vs = [].
Proof. induction vs as [|v vs IH]; [reflexivity | exact IH]. Qed.

(** Over agents listed once each, the per-agent counts add up to the number
    of vertices that belong to a listed agent. *)
Lemma agent_counts_sum (stn : STN.t) (agents : list Z) :
  NoDup agents ->
  py_sum (map (get_agent_verts stn) agents)
  = len (filter (owned_by_some agents) (values (STN.verts stn))).
Proof.
  induction 1 as [|a agents Ha Hnd IH].
  - rewrite filter_nobody. reflexivity.
  - cbn [map]. rewrite py_sum_cons, IH, get_agent_verts_count.
    rewrite <- filter_disjoint_length.
    + reflexivity.
    + intros v Ea Es. apply Ha. exact (owner_is_listed a agents v Ea Es).
Qed.

Lemma filter_split_length {A : Type} (p : A -> bool) (l : list A) :
  len l = len (filter p l) + len (filter (fun x => negb (p x)) l).
Proof.
  unfold len. induction l as [|x l IH]; [reflexivity|].
  cbn [filter]. destruct (p x); cbn [negb List.length]; lia.
Qed.

(** C7, as amended.  The mean_verts_agent field is the number of vertices
    minus one, divided by the number of agents.  It is the arithmetic mean
    over the agents of the number of vertices each owns ([mean_agent_verts])
    whenever the agents are listed once each and exactly one vertex (the zero
    time-point) belongs to none of them. *)
Theorem mean_verts_agent_formula path stn ex n th seed opts w r :
  fst (_run_stage (path, stn) ex n th seed opts w) = Return r ->
  (mean_verts_agent r
   == inject_Z (len (STN.verts stn) - 1) / inject_Z (len (STN.agents stn)))%Q
  /\ (NoDup (STN.agents stn) ->
      len (filter (fun v => negb (owned_by_some (STN.agents stn) v))
                  (values (STN.verts stn))) = 1 ->
      exists mean,
        mean_agent_verts stn = inr mean /\ (mean_verts_agent r == mean)%Q).
Proof.
  intros Hr.
  destruct (_run_stage (path, stn) ex n th seed opts w) as [res w'] eqn:Hrun.
  cbn [fst] in Hr. subst res.
  apply _run_stage_returns in Hrun.
  destruct Hrun as (resp & w1 & rob & maxv & meanv & cd & syn & sd & rf & sf
                    & _ & _ & _ & Hmean & _ & _ & _ & _ & _ & Hr).
  apply (f_equal mean_verts_agent) in Hr. cbn [mean_verts_agent untimed] in Hr.
  subst meanv. apply truediv_inr in Hmean. destruct Hmean as [Hn Hq].
  split; [rewrite Hq; reflexivity|].
  intros Hnd Hone. unfold mean_agent_verts.
  assert (Hlen : len (map (get_agent_verts stn) (STN.agents stn))
                 = len (STN.agents stn))
    by (unfold len; rewrite length_map; reflexivity).
  rewrite Hlen, (truediv_nonzero _ _ Hn). eexists. split; [reflexivity|].
  rewrite Hq, (agent_counts_sum stn _ Hnd).
  pose proof (filter_split_length (owned_by_some (STN.agents stn))
                                  (values (STN.verts stn))) as Hsplit.
  rewrite Hone in Hsplit.
  assert (Hv : len (STN.verts stn) = len (values (STN.verts stn)))
    by (unfold len, values; rewrite length_map; reflexivity).
  rewrite Hv, Hsplit.
  match goal with |- (inject_Z ?a / _ == inject_Z ?b / _)%Q =>
    replace a with b by lia end.
  reflexivity.
Qed.

(** ** Mean spread *)

Lemma total_sigma_from (es : list Edge) (a : Q) :
  (fold_left (fun total_sd e => match sigma e with
                                | Some s => (total_sd + s)%Q
                                | None => total_sd
                                end) es a
   == a + Qsum (flat_map (fun e => match sigma e with
                                   | Some s => [s]
                                   | None => []
                                   end) es))%Q.
Proof.
  revert a. induction es as [|e es IH]; intros a; cbn [fold_left flat_map].
  - cbn. rewrite Qplus_0_r. reflexivity.
  - destruct (sigma e) as [s|]; rewrite IH; cbn [app Qsum fold_right].
    + rewrite Qplus_assoc. reflexivity.
    + reflexivity.
Qed.

Lemma total_sigma_defined (stn : STN.t) :
  (total_sigma stn == Qsum (defined_sigmas stn))%Q.
Proof.
  unfold total_sigma, defined_sigmas. rewrite total_sigma_from.
  apply Qplus_0_l.
Qed.

(** The divisor of [sd_avg] is the number of all the contingent edges. *)
Lemma sd_avg_divides_by_all_edges path stn ex n th seed opts w r :
  fst (_run_stage (path, stn) ex n th seed opts w) = Return r ->
  (sd_avg r
   == Qsum (defined_sigmas stn) / inject_Z (len (STN.contingent_edges stn)))%Q.
Proof.
  intros Hr.
  destruct (_run_stage (path, stn) ex n th seed opts w) as [res w'] eqn:Hrun.
  cbn [fst] in Hr. subst res.
  apply _run_stage_returns in Hrun.
  destruct Hrun as (resp & w1 & rob & maxv & meanv & cd & syn & sd & rf & sf
                    & _ & _ & _ & _ & _ & _ & Hsd & _ & _ & Hr).
  apply (f_equal sd_avg) in Hr. cbn [sd_avg untimed] in Hr. subst sd.
  apply truediv_inr in Hsd. destruct Hsd as [_ ->].
  rewrite total_sigma_defined. reflexivity.
Qed.

End Structure.

(** C6.  On a network with two contingent edges, one of spread 1 and one
    whose spread is undefined, the stage reports sd_avg = 1/2: the undefined
    edge is skipped in the sum but counted in the divisor, whereas the mean of
    the defined spreads is 1. *)
Theorem sd_avg_with_undefined_spread :
  exists r w',
    _run_stage (engine := stub_engine 79 2) (numpy := counting_numpy)
               ("small.json", small_stn) "early" 4 1 (Some 42) zero_options
               (stub_world 0 0 [] []) = (Return r, w')
    /\ defined_sigmas small_stn = [1%Q]
    /\ (sd_avg r == 1 # 2)%Q
    /\ (Qsum (defined_sigmas small_stn)
         / inject_Z (len (defined_sigmas small_stn)) == 1)%Q.
Proof.
  eexists. eexists. split; [vm_compute; reflexivity|].
  split; [reflexivity|]. split; reflexivity.
Qed.

(** C7, counterexample.  With a second vertex that no agent owns, the field is
    2 while the mean over the agents of the vertices each owns is 1. *)
Lemma mean_verts_agent_not_mean_over_agents :
  exists r w' mean,
    _run_stage (engine := stub_engine 79 2) (numpy := counting_numpy)
               ("unowned.json", stn_with_unowned) "early" 4 1 (Some 42)
               zero_options (stub_world 0 0 [] []) = (Return r, w')
    /\ mean_agent_verts stn_with_unowned = inr mean
    /\ (mean_verts_agent r == 2)%Q
    /\ (mean == 1)%Q
    /\ ~ (mean_verts_agent r == mean)%Q.
Proof.
  eexists. eexists. eexists. split; [vm_compute; reflexivity|].
  split; [vm_compute; reflexivity|].
  split; [reflexivity|]. split; [reflexivity|].
  intros H. discriminate H.
Qed.

(** C7, witness: the network [small_stn], where the two quantities agree. *)
Lemma mean_verts_agent_formula_witness :
  exists r,
    fst (_run_stage (engine := stub_engine 79 2) (numpy := counting_numpy)
                    ("small.json", small_stn) "early" 4 1 (Some 42)
                    zero_options (stub_world 0 0 [] [])) = Return r
    /\ (mean_verts_agent r
         == inject_Z (len (STN.verts small_stn) - 1)
            / inject_Z (len (STN.agents small_stn)))%Q
    /\ exists mean,
         mean_agent_verts small_stn = inr mean
         /\ (mean_verts_agent r == mean)%Q.
Proof.
  eexists.
  assert (Hrun : fst (_run_stage (engine := stub_engine 79 2)
                                 (numpy := counting_numpy)
                                 ("small.json", small_stn) "early" 4 1 (Some 42)
                                 zero_options (stub_world 0 0 [] []))
                 = Return _) by (vm_compute; reflexivity).
  split; [exact Hrun|].
  destruct (mean_verts_agent_formula _ _ _ _ _ _ _ _ _ Hrun) as [Hformula Hmean].
  split; [exact Hformula|]. apply Hmean.
  - repeat constructor; cbn; intuition discriminate.
  - vm_compute. reflexivity.
Defined.

Section ExecutorClaims.
Context {engine : Engine} {numpy : NumpyRandom} {loader : Loader}.

Lemma slept_app (l1 l2 : list event) : slept (l1 ++ l2) = slept l1 ++ slept l2.
Proof. unfold slept. apply flat_map_app. Qed.

Lemma slept_rounds (threads : Z) (k : nat) :
  slept (List.concat (repeat (retry_round threads) k)) = repeat 3%Q k.
Proof.
  induction k as [|k IH]; [reflexivity|].
  cbn [repeat List.concat]. rewrite slept_app, IH. reflexivity.
Qed.

(** C1.  A batch run with more than one worker constructs the pool at most 4
    times.  With [failures] the number of leading constructions (out of 4)
    that fail with [BlockingIOError], the batch constructs the pool
    [min (failures + 1) 4] times, and every failed construction is followed
    by its three warnings and a sleep of 3 seconds before the next
    construction.  When all 4 constructions fail the batch raises
    ([TypeError], from reading the missing response) and returns no outcomes;
    when a construction succeeds the batch returns the outcomes; any other
    exception of a construction is not retried. *)
Theorem pool_construction_retry stn strat count threads seed opts w seeds :
  threads > 1 ->
  drawn_seeds seed count = inr seeds ->
  let failures := blocked (pools w) (pool_calls w) 4 in
  let run := multiple_simulations stn strat count threads seed opts w in
  let announced := [Printed "Random seed is: {}" seed; Seeded seeds;
                    Printed "Using multithreading; threads = {}" (Some threads)] in
  let emitted := announced
                 ++ List.concat (repeat (retry_round threads) failures)
                 ++ (if (failures <? 4)%nat then [PoolCreated threads] else []) in
  log (snd run) = log w ++ emitted
  /\ pool_calls (snd run) = (pool_calls w + Nat.min (S failures) 4)%nat
  /\ (pool_calls (snd run) <= pool_calls w + 4)%nat
  /\ slept emitted = repeat 3%Q failures
  /\ (failures = 4%nat -> fst run = Raise TypeError)
  /\ (forall choices,
        (failures < 4)%nat ->
        pools w (pool_calls w + failures) = PoolUp choices ->
        fst run = Return (in_order_response stn strat count seeds opts))
  /\ (forall e,
        (failures < 4)%nat ->
        pools w (pool_calls w + failures) = PoolFails e ->
        fst run = Raise e).
Proof.
  intros Hth Hseeds failures run announced emitted.
  destruct (multiple_simulations_parallel stn strat count threads seed opts w
              seeds Hseeds Hth) as (Hcalls & Hlog & Hres).
  fold failures in Hcalls, Hlog, Hres. fold run in Hcalls, Hlog, Hres.
  split; [exact Hlog|]. split; [exact Hcalls|]. split; [rewrite Hcalls; lia|].
  split.
  { subst emitted announced. rewrite !slept_app, slept_rounds.
    destruct (failures <? 4)%nat; cbn; rewrite app_nil_r; reflexivity. }
  split.
  { intros H4. rewrite Hres, H4. reflexivity. }
  split.
  - intros choices Hlt Hup. rewrite Hres.
    destruct (Nat.ltb_spec failures 4); [|lia]. rewrite Hup. reflexivity.
  - intros e Hlt Hfail. rewrite Hres.
    destruct (Nat.ltb_spec failures 4); [|lia]. rewrite Hfail. reflexivity.
Qed.

(** C5.  For the same task list, a batch run through the pool (more than one
    worker) and a batch run in the calling process (one worker) return the
    same response: the outcomes of the tasks in submission order, whatever
    the order in which the workers of the pool complete them. *)
Theorem sequential_parallel_same_outcomes stn strat count seed opts
    threads_par threads_seq w_par w_seq resp :
  threads_par > 1 ->
  threads_seq <= 1 ->
  fst (multiple_simulations stn strat count threads_par seed opts w_par)
    = Return resp ->
  fst (multiple_simulations stn strat count threads_seq seed opts w_seq)
    = Return resp
  /\ exists seeds,
       drawn_seeds seed count = inr seeds
       /\ let tasks := _make_simulator_tasks seeds stn strat opts count in
          let outcomes := map _multisim_thread_helper tasks in
          (forall choices, pool_map _multisim_thread_helper tasks choices
                           = Some outcomes)
          /\ sample_results resp = map (fun r => fst (fst r)) outcomes
          /\ reschedules resp = map (fun r => snd (fst r)) outcomes
          /\ sent_schedules resp = map snd outcomes.
Proof.
  intros Hpar Hseq Hrun.
  destruct (multiple_simulations stn strat count threads_par seed opts w_par)
    as [res w1] eqn:Hms.
  cbn [fst] in Hrun. subst res.
  apply multiple_simulations_returns in Hms. destruct Hms as (seeds & Hseeds & ->).
  split.
  - apply (multiple_simulations_sequential stn strat count threads_seq seed opts
             w_seq seeds Hseeds Hseq).
  - exists seeds. split; [exact Hseeds|]. cbn zeta.
    split; [intros choices; apply pool_map_in_order|].
    repeat split.
Qed.

End ExecutorClaims.

(** C3, witness: 50 trials of which 37 succeed. *)
Lemma robustness_is_success_ratio_witness :
  exists r,
    fst (_run_stage (engine := stub_engine 79 2) (numpy := counting_numpy)
                    ("small.json", small_stn) "early" 50 1 (Some 42)
                    zero_options (stub_world 0 0 [] [])) = Return r
    /\ samples r = 50
    /\ (robustness r == 37 # 50)%Q
    /\ (0 <= robustness r <= 1)%Q.
Proof.
  eexists.
  assert (Hrun : fst (_run_stage (engine := stub_engine 79 2)
                                 (numpy := counting_numpy)
                                 ("small.json", small_stn) "early" 50 1 (Some 42)
                                 zero_options (stub_world 0 0 [] []))
                 = Return _) by (vm_compute; reflexivity).
  split; [exact Hrun|]. split; [reflexivity|].
  eassert (Hms : multiple_simulations (engine := stub_engine 79 2)
                   (numpy := counting_numpy) small_stn "early" 50 1 (Some 42)
                   zero_options (snd (time_time (stub_world 0 0 [] [])))
                 = (Return _, _)) by (vm_compute; reflexivity).
  destruct (robustness_is_success_ratio "small.json" _ _ _ _ _ _ _ _ _ Hms)
    as [_ Hret].
  destruct (Hret _ Hrun) as (_ & Hratio & Hbounds & _).
  split; [exact Hratio | exact Hbounds].
Defined.

(** C8, witness: 50 trials reporting 2 reschedules and 1 sent schedule each. *)
Lemma frequencies_are_means_witness :
  exists r,
    fst (_run_stage (engine := stub_engine 79 2) (numpy := counting_numpy)
                    ("small.json", small_stn) "early" 50 1 (Some 42)
                    zero_options (stub_world 0 0 [] [])) = Return r
    /\ (reschedule_freq r == 2)%Q
    /\ (send_freq r == 1)%Q.
Proof.
  eexists.
  assert (Hrun : fst (_run_stage (engine := stub_engine 79 2)
                                 (numpy := counting_numpy)
                                 ("small.json", small_stn) "early" 50 1 (Some 42)
                                 zero_options (stub_world 0 0 [] []))
                 = Return _) by (vm_compute; reflexivity).
  split; [exact Hrun|].
  eassert (Hms : multiple_simulations (engine := stub_engine 79 2)
                   (numpy := counting_numpy) small_stn "early" 50 1 (Some 42)
                   zero_options (snd (time_time (stub_world 0 0 [] [])))
                 = (Return _, _)) by (vm_compute; reflexivity).
  destruct (frequencies_are_means "small.json" _ _ _ _ _ _ _ _ _ _ Hms Hrun)
    as (_ & _ & _ & _ & Hre & Hse & Hall).
  split.
  - apply Hall. repeat constructor.
  - rewrite Hse. vm_compute. reflexivity.
Defined.

(** C1, witness: a world where the pool never comes up, and one where it
    comes up at the third construction. *)
Lemma pool_construction_retry_witness :
  fst (multiple_simulations (engine := stub_engine 79 2) (numpy := counting_numpy)
         small_stn "early" 5 3 (Some 42) zero_options
         (stub_world 0 4 [] [])) = Raise TypeError
  /\ pool_calls (snd (multiple_simulations (engine := stub_engine 79 2)
                        (numpy := counting_numpy)
                        small_stn "early" 5 3 (Some 42) zero_options
                        (stub_world 0 4 [] []))) = 4%nat
  /\ fst (multiple_simulations (engine := stub_engine 79 2) (numpy := counting_numpy)
            small_stn "early" 5 3 (Some 42) zero_options
            (stub_world 0 2 [3; 1; 1]%nat []))
     = Return (in_order_response (engine := stub_engine 79 2) small_stn "early" 5
                 (Some [42; 43; 44; 45; 46]) zero_options)
  /\ pool_calls (snd (multiple_simulations (engine := stub_engine 79 2)
                        (numpy := counting_numpy)
                        small_stn "early" 5 3 (Some 42) zero_options
                        (stub_world 0 2 [3; 1; 1]%nat []))) = 3%nat.
Proof.
  destruct (pool_construction_retry (engine := stub_engine 79 2)
              (numpy := counting_numpy) small_stn "early" 5 3 (Some 42)
              zero_options (stub_world 0 4 [] []) (Some [42; 43; 44; 45; 46])
              ltac:(lia) eq_refl)
    as (_ & Hcalls & _ & _ & Hfatal & _).
  destruct (pool_construction_retry (engine := stub_engine 79 2)
              (numpy := counting_numpy) small_stn "early" 5 3 (Some 42)
              zero_options (stub_world 0 2 [3; 1; 1]%nat [])
              (Some [42; 43; 44; 45; 46]) ltac:(lia) eq_refl)
    as (_ & Hcalls2 & _ & _ & _ & Hup & _).
  split; [apply Hfatal; reflexivity|]. split; [exact Hcalls|].
  split; [apply (Hup [3; 1; 1]%nat); [cbn; lia | reflexivity]|].
  exact Hcalls2.
Defined.

(** C5, witness: three workers finishing out of order against one worker. *)
Lemma sequential_parallel_same_outcomes_witness :
  fst (multiple_simulations (engine := stub_engine 44 2) (numpy := counting_numpy)
         small_stn "early" 5 1 (Some 42) zero_options (stub_world 7 0 [] []))
  = Return {| sample_results := [true; true; false; false; false];
              reschedules := [2; 2; 2; 2; 2];
              sent_schedules := [1; 1; 1; 1; 1] |}.
Proof.
  eapply (proj1 (sequential_parallel_same_outcomes (engine := stub_engine 44 2)
                   (numpy := counting_numpy) small_stn "early" 5 (Some 42)
                   zero_options 3 1 (stub_world 0 2 [3; 1; 1]%nat [])
                   (stub_world 7 0 [] []) _ ltac:(lia) ltac:(lia)
                   ltac:(vm_compute; reflexivity))).
Defined.

(** ** The extension of a path and of its last component *)

Lemma rfind_from_shift (ch : ascii) (s : string) (i last : Z) :
  rfind_from ch s i last
  = if rfind ch s <? 0 then last else i + rfind ch s.
Proof.
  unfold rfind. revert i last.
  induction s as [|x s IH]; intros i last; cbn [rfind_from].
  - reflexivity.
  - rewrite (IH (i + 1)), (IH (0 + 1)).
    destruct (rfind_from ch s 0 (-1) <? 0) eqn:E.
    + destruct (Ascii.eqb x ch); cbn; [f_equal; lia | reflexivity].
    + apply Z.ltb_ge in E.
      destruct (Z.ltb_spec (0 + 1 + rfind_from ch s 0 (-1)) 0); lia.
Qed.

Lemma rfind_from_app (ch : ascii) (s1 s2 : string) (i last : Z) :
  rfind_from ch (s1 ++ s2)%string i last
  = rfind_from ch s2 (i + Z.of_nat (String.length s1)) (rfind_from ch s1 i last).
Proof.
  revert i last. induction s1 as [|x s1 IH]; intros i last.
  - cbn. f_equal. lia.
  - cbn [append rfind_from String.length]. rewrite IH. f_equal. lia.
Qed.

Lemma rfind_bounds (ch : ascii) (s : string) :
  -1 <= rfind ch s < Z.of_nat (String.length s).
Proof.
  unfold rfind.
  assert (H : forall i last, last < i ->
                last <= rfind_from ch s i last < i + Z.of_nat (String.length s)).
  { induction s as [|x s IH]; intros i last Hlt; cbn [rfind_from String.length].
    - lia.
    - destruct (Ascii.eqb x ch).
      + specialize (IH (i + 1) i ltac:(lia)). lia.
      + specialize (IH (i + 1) last ltac:(lia)). lia. }
  specialize (H 0 (-1) ltac:(lia)). lia.
Qed.

Lemma string_length_append (a b : string) :
  String.length (a ++ b)%string = (String.length a + String.length b)%nat.
Proof. induction a as [|x a IH]; [reflexivity|]. cbn. rewrite IH. reflexivity. Qed.

Lemma string_append_assoc (a b c : string) :
  ((a ++ b) ++ c)%string = (a ++ b ++ c)%string.
Proof. induction a as [|x a IH]; [reflexivity|]. cbn. rewrite IH. reflexivity. Qed.

Lemma substring_app_skip (a b : string) (n m : nat) :
  substring (String.length a + n) m (a ++ b)%string = substring n m b.
Proof.
  induction a as [|x a IH]; [reflexivity|]. cbn. exact IH.
Qed.

Lemma length_long_path (folder c : string) :
  String.length (long_path folder c)
  = (String.length folder + 1 + String.length c)%nat.
Proof.
  unfold long_path. rewrite !string_length_append. cbn. lia.
Qed.

(** The separator of a long path is the one written between the folder and
    the entry, when the entry holds none. *)
Lemma rfind_sep_long_path (folder c : string) :
  rfind "/" c = -1 ->
  rfind "/" (long_path folder c) = Z.of_nat (String.length folder).
Proof.
  intros Hc. unfold long_path, rfind at 1.
  rewrite rfind_from_app, rfind_from_app, (rfind_from_shift "/" c), Hc.
  cbn. lia.
Qed.

Lemma rfind_dot_long_path (folder c : string) :
  rfind "." (long_path folder c)
  = if rfind "." c <? 0 then rfind "." folder
    else Z.of_nat (String.length folder) + 1 + rfind "." c.
Proof.
  unfold long_path, rfind at 1.
  rewrite rfind_from_app, rfind_from_app, (rfind_from_shift "." c).
  destruct (rfind "." c <? 0); cbn; [reflexivity | lia].
Qed.

(** The extension of an entry of a directory is the extension of its path. *)
Lemma splitext_long_path (folder c : string) :
  rfind "/" c = -1 ->
  snd (splitext (long_path folder c)) = snd (splitext c).
Proof.
  intros Hc. unfold splitext.
  rewrite (rfind_sep_long_path folder c Hc), rfind_dot_long_path, Hc.
  pose proof (rfind_bounds "." c) as Hdot.
  pose proof (rfind_bounds "." folder) as Hfolder.
  destruct (Z.ltb_spec (rfind "." c) 0) as [Hno|Hyes].
  - destruct (Z.gtb_spec (rfind "." folder) (Z.of_nat (String.length folder)));
      [lia|].
    destruct (Z.gtb_spec (rfind "." c) (-1)); [lia|]. reflexivity.
  - destruct (Z.gtb_spec (Z.of_nat (String.length folder) + 1 + rfind "." c)
                         (Z.of_nat (String.length folder))); [|lia].
    destruct (Z.gtb_spec (rfind "." c) (-1)); [|lia].
    replace (Z.to_nat (Z.of_nat (String.length folder) + 1))
      with (String.length (folder ++ "/") + 0)%nat
      by (rewrite string_length_append; cbn; lia).
    replace (Z.of_nat (String.length folder) + 1 + rfind "." c
             - (Z.of_nat (String.length folder) + 1))
      with (rfind "." c - (-1 + 1)) by lia.
    replace (Z.to_nat (Z.of_nat (String.length folder) + 1 + rfind "." c))
      with (String.length (folder ++ "/") + Z.to_nat (rfind "." c))%nat
      by (rewrite string_length_append; cbn; lia).
    rewrite length_long_path.
    replace (String.length folder + 1 + String.length c
             - (String.length (folder ++ "/") + Z.to_nat (rfind "." c)))%nat
      with (String.length c - Z.to_nat (rfind "." c))%nat
      by (rewrite string_length_append; cbn; lia).
    unfold long_path.
    replace (folder ++ "/" ++ c)%string with ((folder ++ "/") ++ c)%string
      by apply string_append_assoc.
    rewrite !substring_app_skip.
    change (Z.to_nat (-1 + 1)) with 0%nat.
    destruct (some_other "." (substring 0 (Z.to_nat (rfind "." c - (-1 + 1))) c));
      reflexivity.
Qed.

(** ** The harvester *)

Section Harvester.
Context {engine : Engine} {numpy : NumpyRandom} {loader : Loader}.

Lemma filter_permutation {A : Type} (p : A -> bool) (l l' : list A) :
  Permutation l l' -> Permutation (filter p l) (filter p l').
Proof.
  induction 1 as [|x l l' _ IH|x y l|l l' l'' _ IH1 _ IH2]; cbn [filter].
  - apply perm_nil.
  - destruct (p x); [apply perm_skip|]; exact IH.
  - destruct (p x), (p y); try apply Permutation_refl. apply perm_swap.
  - exact (perm_trans IH1 IH2).
Qed.

(** Over a listing made of files only, the inner loop keeps the paths with the
    extension, in listing order, and touches nothing. *)
Lemma over_contents_files harvest recurse folder_path contents stn_files w :
  (forall c, In c contents -> isfile w (long_path folder_path c) = true) ->
  over_contents harvest recurse true folder_path contents stn_files w
  = (Return (stn_files
             ++ filter is_json (map (long_path folder_path) contents)), w).
Proof.
  revert stn_files.
  induction contents as [|c contents IH]; intros stn_files Hfiles.
  - cbn. rewrite app_nil_r. reflexivity.
  - cbn [over_contents map filter].
    unfold bind at 1, os_path_isfile at 1.
    fold (long_path folder_path c).
    rewrite (Hfiles c (or_introl eq_refl)).
    unfold is_json at 1.
    destruct (splitext (long_path folder_path c)) as [root ext]. cbn [snd].
    destruct (ext =? ".json")%string.
    + rewrite IH by (intros c' Hc'; apply Hfiles; right; exact Hc').
      rewrite <- app_assoc. reflexivity.
    + apply IH. intros c' Hc'. apply Hfiles. right. exact Hc'.
Qed.

Lemma harvest_listed_files fuel folder listing a b c w :
  isfile w folder = false ->
  isdir w folder = true ->
  listdir w folder = Some listing ->
  Permutation listing [a; b; c] ->
  isfile w (long_path folder a) = true ->
  isfile w (long_path folder b) = true ->
  isfile w (long_path folder c) = true ->
  is_json (long_path folder a) = true ->
  is_json (long_path folder b) = true ->
  is_json (long_path folder c) = false ->
  folder_harvest (S fuel) [folder] false true w
  = (Return (filter is_json (map (long_path folder) listing)), w)
  /\ Permutation (filter is_json (map (long_path folder) listing))
                 [long_path folder a; long_path folder b].
Proof.
  intros Hnotfile Hdir Hlist Hlisting Hfa Hfb Hfc Hja Hjb Hjc. split.
  - cbn [folder_harvest over_paths].
    unfold bind at 1, os_path_isfile at 1. rewrite Hnotfile.
    unfold bind at 1, os_path_isdir at 1. rewrite Hdir.
    unfold bind at 1, os_listdir at 1. rewrite Hlist.
    unfold bind at 1. rewrite over_contents_files; [reflexivity|].
    intros x Hx. apply (Permutation_in x Hlisting) in Hx.
    destruct Hx as [<-|[<-|[<-|[]]]]; assumption.
  - eapply perm_trans.
    + apply filter_permutation, Permutation_map, Hlisting.
    + cbn [map filter]. rewrite Hja, Hjb, Hjc. apply Permutation_refl.
Qed.

(** C9.  Harvesting, without recursion, a directory whose listing is, in any
    order, two files with the extension .json and one file with another
    extension returns exactly the paths of the two .json files (in listing
    order), emits no warning and needs no more fuel than one level. *)
Theorem harvest_flat_directory fuel folder listing a b c w :
  isfile w folder = false ->
  isdir w folder = true ->
  listdir w folder = Some listing ->
  Permutation listing [a; b; c] ->
  rfind "/" a = -1 -> rfind "/" b = -1 -> rfind "/" c = -1 ->
  isfile w (folder ++ "/" ++ a)%string = true ->
  isfile w (folder ++ "/" ++ b)%string = true ->
  isfile w (folder ++ "/" ++ c)%string = true ->
  snd (splitext a) = ".json" ->
  snd (splitext b) = ".json" ->
  snd (splitext c) <> ".json" ->
  exists found,
    folder_harvest (S fuel) [folder] false true w = (Return found, w)
    /\ Permutation found [(folder ++ "/" ++ a)%string; (folder ++ "/" ++ b)%string]
    /\ found = filter is_json (map (long_path folder) listing).
Proof.
  intros Hnotfile Hdir Hlist Hlisting Hna Hnb Hnc Hfa Hfb Hfc Hja Hjb Hjc.
  destruct (harvest_listed_files fuel folder listing a b c w Hnotfile Hdir
              Hlist Hlisting Hfa Hfb Hfc) as [Hrun Hperm].
  - unfold is_json. rewrite (splitext_long_path folder a Hna), Hja. reflexivity.
  - unfold is_json. rewrite (splitext_long_path folder b Hnb), Hjb. reflexivity.
  - unfold is_json. rewrite (splitext_long_path folder c Hnc).
    apply String.eqb_neq. exact Hjc.
  - eexists. split; [exact Hrun|]. split; [exact Hperm | reflexivity].
Qed.

End Harvester.

(** C9, witness: the directory ["stns"] listed as b.json, notes.txt, a.json. *)
Lemma harvest_flat_directory_witness :
  exists found,
    folder_harvest 1 ["stns"] false true
                   (stub_world 0 0 [] ["b.json"; "notes.txt"; "a.json"])
    = (Return found, stub_world 0 0 [] ["b.json"; "notes.txt"; "a.json"])
    /\ Permutation found ["stns/a.json"; "stns/b.json"]
    /\ found = filter is_json
                      (map (long_path "stns") ["b.json"; "notes.txt"; "a.json"]).
Proof.
  apply (harvest_flat_directory 0 "stns" ["b.json"; "notes.txt"; "a.json"]
           "a.json" "b.json" "notes.txt"
           (stub_world 0 0 [] ["b.json"; "notes.txt"; "a.json"])).
  - reflexivity.
  - reflexivity.
  - reflexivity.
  - eapply perm_trans; [apply perm_skip, perm_swap | apply perm_swap].
  - reflexivity.
  - reflexivity.
  - reflexivity.
  - reflexivity.
  - reflexivity.
  - reflexivity.
  - reflexivity.
  - reflexivity.
  - vm_compute. discriminate.
Defined.

Section Sweeps.
Context {engine : Engine} {numpy : NumpyRandom} {loader : Loader}.

Lemma bind_ext {A B : Type} (c : M A) (k k' : A -> M B) (w : World) :
  (forall a w', k a w' = k' a w') -> bind c k w = bind c k' w.
Proof.
  intros Hk. unfold bind. destruct (c w) as [[a|e|] w']; auto.
Qed.

Lemma bind_ret_tt (c : M unit) (w : World) : bind c (fun _ => ret tt) w = c w.
Proof.
  unfold bind, ret. destruct (c w) as [[[]|e|] w']; reflexivity.
Qed.

(** ** The sweep goes through the selected cells *)

Section Refinement.

Variables (execution : string) (threads sim_count : Z)
          (sim_options : Options.t) (output : option string)
          (live_updates : bool) (random_seed : option Z).

Lemma run_cells_app (cs cs' : list cell) (w : World) :
  run_cells execution threads sim_count output live_updates random_seed
            (cs ++ cs') w
  = bind (run_cells execution threads sim_count output live_updates
                    random_seed cs)
         (fun _ => run_cells execution threads sim_count output live_updates
                             random_seed cs') w.
Proof.
  revert w. induction cs as [|c cs IH]; intros w.
  - reflexivity.
  - cbn [app run_cells]. rewrite bind_bind. apply bind_ext. intros _ w'. apply IH.
Qed.

Lemma grid_loop_cells stn_pairs ordering_pairs i pair rest (j : nat) w :
  grid_loop execution threads sim_count sim_options output live_updates
            random_seed stn_pairs ordering_pairs i pair (Z.of_nat j) rest w
  = run_cells execution threads sim_count output live_updates random_seed
      (map (fun jes =>
              {| cell_pair := pair;
                 cell_options := option_instance sim_options (snd jes);
                 cell_progress := Z.of_nat (fst jes) + len ordering_pairs * i + 1;
                 cell_total := len stn_pairs * len ordering_pairs |})
           (combine (seq j (List.length rest)) rest)) w.
Proof.
  revert j w. induction rest as [|es rest IH]; intros j w.
  - reflexivity.
  - cbn [grid_loop List.length seq combine map run_cells].
    unfold run_cell. cbn [cell_pair cell_options cell_progress cell_total fst snd].
    rewrite bind_bind. apply bind_ext. intros r w1.
    rewrite bind_bind. apply bind_ext. intros _ w2.
    apply bind_ext. intros _ w3.
    replace (Z.of_nat j + 1) with (Z.of_nat (S j)) by lia. apply IH.
Qed.

Lemma stage_cells stn_pairs ordering_pairs i pair w :
  stage execution threads sim_count sim_options output live_updates random_seed
        stn_pairs ordering_pairs i pair w
  = run_cells execution threads sim_count output live_updates random_seed
      (cells_of_pair (len stn_pairs) sim_options ordering_pairs i pair) w.
Proof.
  unfold stage, cells_of_pair. destruct ordering_pairs as [grid|].
  - apply (grid_loop_cells stn_pairs grid i pair grid 0).
  - cbn [run_cells]. rewrite bind_ret_tt. reflexivity.
Qed.

Lemma pick_nothing_after_stop stn_pairs ordering_pairs start_index stop rest
    (i : nat) :
  stop <= Z.of_nat i ->
  flat_map (pick stn_pairs sim_options ordering_pairs start_index (Some stop))
           (combine (seq i (List.length rest)) rest) = [].
Proof.
  revert i. induction rest as [|p rest IH]; intros i Hle; [reflexivity|].
  cbn [List.length seq combine flat_map]. rewrite IH by lia.
  unfold pick. cbn [fst].
  destruct (Z.ltb_spec (Z.of_nat i) stop); [lia|].
  rewrite andb_false_r. reflexivity.
Qed.

Lemma pairs_loop_cells start_index stop_index stn_pairs ordering_pairs rest
    (i : nat) w :
  pairs_loop execution threads sim_count sim_options output live_updates
             random_seed start_index stop_index
             stn_pairs ordering_pairs (Z.of_nat i) rest w
  = run_cells execution threads sim_count output live_updates random_seed
      (flat_map (pick stn_pairs sim_options ordering_pairs start_index stop_index)
                (combine (seq i (List.length rest)) rest)) w.
Proof.
  revert i w. induction rest as [|p rest IH]; intros i w; [reflexivity|].
  cbn [pairs_loop].
  replace (Z.of_nat i + 1) with (Z.of_nat (S i)) by lia.
  destruct (Z.ltb_spec (Z.of_nat i) start_index) as [Hskip|Hin].
  - rewrite IH. cbn [List.length seq combine flat_map].
    unfold pick at 2. cbn [fst].
    destruct (Z.leb_spec start_index (Z.of_nat i)); [lia|]. reflexivity.
  - assert (Hbody :
              bind (stage execution threads sim_count sim_options output
                          live_updates random_seed stn_pairs ordering_pairs
                          (Z.of_nat i) p)
                   (fun _ => pairs_loop execution threads sim_count sim_options
                                        output live_updates random_seed
                                        start_index stop_index stn_pairs
                                        ordering_pairs (Z.of_nat (S i)) rest) w
              = run_cells execution threads sim_count output live_updates
                          random_seed
                  (cells_of_pair (len stn_pairs) sim_options ordering_pairs
                                 (Z.of_nat i) p
                   ++ flat_map (pick stn_pairs sim_options ordering_pairs
                                     start_index stop_index)
                               (combine (seq (S i) (List.length rest)) rest)) w).
    { rewrite run_cells_app. unfold bind. rewrite stage_cells.
      destruct (run_cells _ _ _ _ _ _ _ w) as [[[]|e|] w']; try reflexivity.
      apply IH. }
    cbn [List.length seq combine flat_map]. unfold pick at 1. cbn [fst snd].
    destruct (Z.leb_spec start_index (Z.of_nat i)); [|lia]. cbn [andb].
    destruct stop_index as [stop|].
    + destruct (Z.geb_spec (Z.of_nat i) stop) as [Hbreak|Hgo].
      * rewrite pick_nothing_after_stop by lia.
        destruct (Z.ltb_spec (Z.of_nat i) stop); [lia|]. reflexivity.
      * destruct (Z.ltb_spec (Z.of_nat i) stop); [|lia]. exact Hbody.
    + exact Hbody.
Qed.

End Refinement.

(** A sweep is the run of its selected cells, in order. *)
Lemma across_paths_cells stn_paths execution threads sim_count sim_options
    output live_updates random_seed mitparse start_index stop_index
    ordering_pairs w :
  across_paths stn_paths execution threads sim_count sim_options output
               live_updates random_seed mitparse start_index stop_index
               ordering_pairs w
  = run_cells execution threads sim_count output live_updates random_seed
      (selected_cells (collect_stn_pairs stn_paths mitparse) sim_options
                      ordering_pairs start_index stop_index) w.
Proof.
  unfold across_paths, selected_cells.
  apply (pairs_loop_cells execution threads sim_count sim_options output
           live_updates random_seed start_index stop_index
           (collect_stn_pairs stn_paths mitparse) ordering_pairs
           (collect_stn_pairs stn_paths mitparse) 0 w).
Qed.

End Sweeps.

Section Resumability.
Context {engine : Engine} {numpy : NumpyRandom} {loader : Loader}.

(** ** The cells of a sub-sweep among the cells of the full sweep *)

Lemma cells_of_pair_length n_pairs sim_options ordering_pairs i pair :
  List.length (cells_of_pair n_pairs sim_options ordering_pairs i pair)
  = grid_size ordering_pairs.
Proof.
  unfold cells_of_pair, grid_size. destruct ordering_pairs as [grid|].
  - rewrite length_map, length_combine, length_seq. lia.
  - reflexivity.
Qed.

Lemma selected_cells_all stn_pairs sim_options ordering_pairs :
  selected_cells stn_pairs sim_options ordering_pairs 0 None
  = all_cells stn_pairs sim_options ordering_pairs.
Proof.
  unfold selected_cells, all_cells. apply flat_map_ext. intros ip.
  unfold pick. destruct (Z.leb_spec 0 (Z.of_nat (fst ip))); [reflexivity | lia].
Qed.

Lemma pick_nothing_later stn_pairs sim_options ordering_pairs (k : nat) rest
    (a : nat) :
  (k < a)%nat ->
  flat_map (pick stn_pairs sim_options ordering_pairs
                 (Z.of_nat k) (Some (Z.of_nat k + 1)))
           (combine (seq a (List.length rest)) rest) = [].
Proof.
  intros Hlt. apply pick_nothing_after_stop. lia.
Qed.

Lemma selected_block stn_pairs sim_options ordering_pairs (k : nat) rest
    (a : nat) :
  (a <= k)%nat ->
  flat_map (pick stn_pairs sim_options ordering_pairs
                 (Z.of_nat k) (Some (Z.of_nat k + 1)))
           (combine (seq a (List.length rest)) rest)
  = firstn (grid_size ordering_pairs)
      (skipn ((k - a) * grid_size ordering_pairs)
         (flat_map (fun ip => cells_of_pair (len stn_pairs) sim_options
                                            ordering_pairs
                                            (Z.of_nat (fst ip)) (snd ip))
                   (combine (seq a (List.length rest)) rest))).
Proof.
  revert a. induction rest as [|p rest IH]; intros a Hle.
  - cbn. rewrite skipn_nil, firstn_nil. reflexivity.
  - cbn [List.length seq combine flat_map fst snd].
    pose proof (cells_of_pair_length (len stn_pairs) sim_options ordering_pairs
                  (Z.of_nat a) p) as Hlen.
    destruct (Nat.eq_dec a k) as [->|Hne].
    + rewrite pick_nothing_later by lia.
      rewrite Nat.sub_diag. cbn [Nat.mul skipn].
      unfold pick. cbn [fst snd].
      destruct (Z.leb_spec (Z.of_nat k) (Z.of_nat k)); [|lia].
      destruct (Z.ltb_spec (Z.of_nat k) (Z.of_nat k + 1)); [|lia].
      cbn [andb]. rewrite app_nil_r.
      rewrite firstn_app, <- Hlen, firstn_all, Nat.sub_diag.
      cbn [firstn]. rewrite app_nil_r. reflexivity.
    + unfold pick at 1. cbn [fst snd].
      destruct (Z.leb_spec (Z.of_nat k) (Z.of_nat a)); [lia|].
      cbn [andb app]. rewrite IH by lia.
      rewrite skipn_app, Hlen.
      replace ((k - a) * grid_size ordering_pairs)%nat
        with (grid_size ordering_pairs + (k - S a) * grid_size ordering_pairs)%nat
        by (replace (k - a)%nat with (S (k - S a)) by lia; reflexivity).
      match goal with |- context [skipn ?n (cells_of_pair ?x ?y ?z ?u ?v)] =>
        replace (skipn n (cells_of_pair x y z u v)) with (@nil cell)
          by (symmetry; apply skipn_all2; rewrite Hlen; apply Nat.le_add_r)
      end.
      cbn [app].
      replace (grid_size ordering_pairs + (k - S a) * grid_size ordering_pairs
               - grid_size ordering_pairs)%nat
        with ((k - S a) * grid_size ordering_pairs)%nat
        by (rewrite Nat.add_comm; symmetry; apply Nat.add_sub).
      reflexivity.
Qed.

Lemma nth_error_combine_seq {A : Type} (l : list A) (a j x : nat) (y : A) :
  nth_error (combine (seq a (List.length l)) l) j = Some (x, y) ->
  x = (a + j)%nat /\ nth_error l j = Some y.
Proof.
  revert a j. induction l as [|z l IH]; intros a j Hnth.
  - destruct j; discriminate.
  - destruct j as [|j]; cbn in Hnth.
    + injection Hnth as <- <-. split; [lia | reflexivity].
    + apply IH in Hnth. destruct Hnth as [-> Hy]. split; [lia | exact Hy].
Qed.

(** In the full sweep the cell at combined position [p] shows progress
    [p + 1]. *)
Lemma cells_of_pair_progress n_pairs sim_options ordering_pairs i pair
    (j : nat) (c : cell) :
  nth_error (cells_of_pair n_pairs sim_options ordering_pairs i pair) j = Some c ->
  cell_progress c = Z.of_nat j + Z.of_nat (grid_size ordering_pairs) * i + 1.
Proof.
  unfold cells_of_pair, grid_size. destruct ordering_pairs as [grid|].
  - rewrite nth_error_map.
    destruct (nth_error (combine (seq 0 (List.length grid)) grid) j)
      as [[x es]|] eqn:Hj; [|discriminate].
    intros [= <-]. apply nth_error_combine_seq in Hj. destruct Hj as [-> _].
    cbn [cell_progress fst]. unfold len. lia.
  - destruct j as [|[|j]]; try discriminate.
    intros [= <-]. cbn [cell_progress]. lia.
Qed.

Lemma all_cells_progress (stn_pairs : list (string * STN.t)) sim_options
    ordering_pairs rest (a p : nat)
    (c : cell) :
  nth_error (flat_map (fun ip => cells_of_pair (len stn_pairs) sim_options
                                               ordering_pairs
                                               (Z.of_nat (fst ip)) (snd ip))
                      (combine (seq a (List.length rest)) rest)) p = Some c ->
  cell_progress c
  = Z.of_nat p + Z.of_nat (grid_size ordering_pairs) * Z.of_nat a + 1.
Proof.
  revert a p. induction rest as [|x rest IH]; intros a p Hnth.
  - destruct p; discriminate.
  - cbn [List.length seq combine flat_map fst snd] in Hnth.
    pose proof (cells_of_pair_length (len stn_pairs) sim_options ordering_pairs
                  (Z.of_nat a) x) as Hlen.
    destruct (Nat.lt_ge_cases p (grid_size ordering_pairs)) as [Hlt|Hge].
    + rewrite nth_error_app1 in Hnth by (rewrite Hlen; exact Hlt).
      apply cells_of_pair_progress in Hnth. exact Hnth.
    + rewrite nth_error_app2 in Hnth by (rewrite Hlen; exact Hge).
      rewrite Hlen in Hnth. apply IH in Hnth. rewrite Hnth.
      rewrite Nat2Z.inj_sub by exact Hge. lia.
Qed.

Lemma all_cells_count (stn_pairs : list (string * STN.t)) sim_options
    ordering_pairs rest (a : nat) :
  List.length (flat_map (fun ip => cells_of_pair (len stn_pairs) sim_options
                                                 ordering_pairs
                                                 (Z.of_nat (fst ip)) (snd ip))
                        (combine (seq a (List.length rest)) rest))
  = (List.length rest * grid_size ordering_pairs)%nat.
Proof.
  revert a. induction rest as [|x rest IH]; intros a; [reflexivity|].
  cbn [List.length seq combine flat_map fst snd].
  rewrite length_app, cells_of_pair_length, IH. reflexivity.
Qed.

Lemma nth_error_one {A : Type} (l : list A) (k : nat) (c : A) :
  nth_error l k = Some c -> firstn 1 (skipn k l) = [c].
Proof.
  revert l. induction k as [|k IH]; intros [|x l] Hnth; try discriminate.
  - injection Hnth as ->. reflexivity.
  - cbn [skipn]. apply IH. exact Hnth.
Qed.

(** C2, as amended.  The start and stop indices count networks, not cells.
    With a grid of [G] settings ([G = 1] without a grid) a full sweep runs the
    cells in the order of the combined index network_index * G + grid_index
    (the cell at position [p] shows progress [p + 1]), and a sub-sweep with
    start [k] and stop [k + 1] runs exactly the [G] cells that the full sweep
    runs at the combined positions [k * G], ..., [k * G + G - 1], in that
    order and with the same arguments.  That is the one cell of the full
    sweep at position [k] exactly when [G = 1] (no grid, or a grid of one
    setting) and [k] is the index of a network. *)
Theorem sub_sweep_runs_one_network stn_paths execution threads sim_count
    sim_options output live_updates random_seed mitparse ordering_pairs k w :
  0 <= k ->
  let stn_pairs := collect_stn_pairs stn_paths mitparse in
  let G := grid_size ordering_pairs in
  let full := all_cells stn_pairs sim_options ordering_pairs in
  let sub := firstn G (skipn (Z.to_nat k * G) full) in
  across_paths stn_paths execution threads sim_count sim_options output
               live_updates random_seed mitparse 0 None ordering_pairs w
  = run_cells execution threads sim_count output live_updates random_seed
              full w
  /\ across_paths stn_paths execution threads sim_count sim_options output
                  live_updates random_seed mitparse k (Some (k + 1))
                  ordering_pairs w
     = run_cells execution threads sim_count output live_updates random_seed
                 sub w
  /\ (forall p c, nth_error full p = Some c -> cell_progress c = Z.of_nat p + 1)
  /\ (G = 1%nat -> sub = firstn 1 (skipn (Z.to_nat k) full))
  /\ ((exists c, nth_error full (Z.to_nat k) = Some c /\ sub = [c])
      <-> G = 1%nat /\ k < len stn_pairs).
Proof.
  intros Hk stn_pairs G full sub.
  assert (Hcount : List.length full = (List.length stn_pairs * G)%nat)
    by apply all_cells_count.
  split; [|split; [|split; [|split]]].
  - rewrite across_paths_cells. fold stn_pairs.
    rewrite selected_cells_all. reflexivity.
  - rewrite across_paths_cells. fold stn_pairs. f_equal.
    unfold selected_cells, sub, full, all_cells, G.
    rewrite <- (Z2Nat.id k Hk) at 1 2.
    rewrite (selected_block stn_pairs sim_options ordering_pairs (Z.to_nat k)
               stn_pairs 0) by lia.
    rewrite Nat.sub_0_r. reflexivity.
  - intros p c Hnth. unfold full, all_cells in Hnth.
    apply all_cells_progress in Hnth. rewrite Hnth. lia.
  - intros HG. unfold sub. rewrite HG, Nat.mul_1_r. reflexivity.
  - split.
    + intros (c & _ & Hsub).
      assert (Hlen : List.length sub = 1%nat) by (rewrite Hsub; reflexivity).
      unfold sub in Hlen.
      rewrite length_firstn, length_skipn, Hcount in Hlen.
      rewrite <- Nat.mul_sub_distr_r in Hlen.
      destruct (List.length stn_pairs - Z.to_nat k)%nat as [|m] eqn:Hm.
      * cbn [Nat.mul] in Hlen. rewrite Nat.min_0_r in Hlen. discriminate.
      * cbn [Nat.mul] in Hlen.
        rewrite Nat.min_l in Hlen by apply Nat.le_add_r.
        split; [exact Hlen|]. unfold len. lia.
    + intros [HG Hlt].
      assert (Hin : (Z.to_nat k < List.length full)%nat)
        by (rewrite Hcount, HG; unfold len in Hlt; lia).
      destruct (nth_error full (Z.to_nat k)) as [c|] eqn:Hnth.
      * exists c. split; [reflexivity|].
        unfold sub. rewrite HG, Nat.mul_1_r. apply nth_error_one. exact Hnth.
      * apply nth_error_None in Hnth. lia.
Qed.

End Resumability.

(** C2, counterexample.  Two networks and a grid of two settings: the
    sub-sweep with start 1 and stop 2 writes two rows, those of the second
    network, and not the single row that the full sweep writes at combined
    position 1. *)
Lemma sub_sweep_is_not_one_cell :
  rows_written (demo_sweep 0 None)
  = [("a.json", 0%Q); ("a.json", (1 # 2)%Q); ("b.json", 0%Q); ("b.json", (1 # 2)%Q)]
  /\ rows_written (demo_sweep 1 (Some 2))
     = [("b.json", 0%Q); ("b.json", (1 # 2)%Q)]
  /\ rows_written (demo_sweep 1 (Some 2))
     <> firstn 1 (skipn 1 (rows_written (demo_sweep 0 None))).
Proof.
  split; [vm_compute; reflexivity|]. split; [vm_compute; reflexivity|].
  vm_compute. discriminate.
Qed.

(** C2, witness: the sub-sweep of the second network in the same sweep. *)
Lemma sub_sweep_runs_one_network_witness :
  demo_sweep 1 (Some 2)
  = run_cells (engine := stub_engine 79 2) (numpy := counting_numpy)
              "early" 1 4 (Some "out.csv") false (Some 42)
              (firstn 2 (skipn 2 (all_cells
                                    (collect_stn_pairs (loader := stub_loader small_stn)
                                                       ["a.json"; "b.json"] false)
                                    zero_options (Some demo_grid))))
              (stub_world 0 0 [] []).
Proof.
  exact (proj1 (proj2 (sub_sweep_runs_one_network
                         (engine := stub_engine 79 2) (numpy := counting_numpy)
                         (loader := stub_loader small_stn)
                         ["a.json"; "b.json"] "early" 1 4 zero_options
                         (Some "out.csv") false (Some 42) false (Some demo_grid)
                         1 (stub_world 0 0 [] []) ltac:(lia)))).
Defined.

Section Seeds.
Context {engine : Engine} {numpy : NumpyRandom} {loader : Loader}.

(** ** The seed lists a run hands out *)

Lemma seed_lists_app (l1 l2 : list event) :
  seed_lists (l1 ++ l2) = seed_lists l1 ++ seed_lists l2.
Proof. unfold seed_lists. apply flat_map_app. Qed.

Lemma seed_lists_rounds (threads : Z) (k : nat) :
  seed_lists (List.concat (repeat (retry_round threads) k)) = [].
Proof.
  induction k as [|k IH]; [reflexivity|].
  cbn [repeat List.concat]. rewrite seed_lists_app, IH. reflexivity.
Qed.

Lemma drawn_seeds_batch (seed : option Z) (count : Z) :
  batch_seed_lists seed count
  = match drawn_seeds seed count with
    | inr seeds => [seeds]
    | inl _ => []
    end.
Proof.
  unfold batch_seed_lists, drawn_seeds. destruct seed as [s|]; [|reflexivity].
  destruct (RandomState_init s); reflexivity.
Qed.

Lemma multiple_simulations_seed_lists stn strat count threads seed opts w :
  exists emitted,
    log (snd (multiple_simulations stn strat count threads seed opts w))
    = log w ++ emitted
    /\ seed_lists emitted = batch_seed_lists seed count.
Proof.
  rewrite drawn_seeds_batch.
  destruct (drawn_seeds seed count) as [e|seeds] eqn:Hseeds.
  - destruct (multiple_simulations_refused stn strat count threads seed opts w e
                Hseeds) as (_ & _ & Hlog).
    eexists. split; [exact Hlog | reflexivity].
  - destruct (Z_le_gt_dec threads 1) as [Hle|Hgt].
    + destruct (multiple_simulations_sequential stn strat count threads seed opts
                  w seeds Hseeds Hle) as (_ & _ & Hlog).
      eexists. split; [exact Hlog | reflexivity].
    + destruct (multiple_simulations_parallel stn strat count threads seed opts
                  w seeds Hseeds Hgt) as (_ & Hlog & _).
      eexists. split; [exact Hlog|].
      rewrite !seed_lists_app, seed_lists_rounds.
      destruct (_ <? 4)%nat; reflexivity.
Qed.

(** The aggregation emits nothing of its own: the log of a stage is the log
    of its batch. *)
Lemma _run_stage_log pair ex n th seed opts w :
  log (snd (_run_stage pair ex n th seed opts w))
  = log (snd (multiple_simulations (snd pair) ex n th seed opts
                                   (snd (time_time w)))).
Proof.
  destruct pair as [path stn]. unfold _run_stage. unfold bind at 1.
  cbn [time_time snd]. unfold bind at 1.
  match goal with |- context [multiple_simulations ?a ?b ?c ?d ?e ?f ?w0] =>
    destruct (multiple_simulations a b c d e f w0) as [[resp| |] w1] end;
    try reflexivity.
  unfold bind at 1. cbn [time_time].
  repeat (rewrite bind_lift;
          match goal with |- context [match ?x with inl _ => _ | inr _ => _ end] =>
            destruct x end; try reflexivity).
  unfold bind at 1. cbn [time_time].
  repeat (rewrite bind_lift;
          match goal with |- context [match ?x with inl _ => _ | inr _ => _ end] =>
            destruct x end; try reflexivity).
Qed.

Lemma _run_stage_seed_lists pair ex n th seed opts w :
  exists emitted,
    log (snd (_run_stage pair ex n th seed opts w)) = log w ++ emitted
    /\ seed_lists emitted = batch_seed_lists seed n.
Proof.
  rewrite _run_stage_log.
  destruct (multiple_simulations_seed_lists (snd pair) ex n th seed opts
              (snd (time_time w))) as (emitted & Hlog & Hseeds).
  exists emitted. split; [exact Hlog | exact Hseeds].
Qed.

Lemma run_cell_seed_lists ex th n output live seed c w :
  exists emitted,
    log (snd (run_cell ex th n output live seed c w)) = log w ++ emitted
    /\ seed_lists emitted = batch_seed_lists seed n.
Proof.
  destruct (_run_stage_seed_lists (cell_pair c) ex n th seed (cell_options c) w)
    as (emitted & Hlog & Hseeds).
  unfold run_cell, bind.
  destruct (_run_stage (cell_pair c) ex n th seed (cell_options c) w)
    as [[r|e|] w1]; cbn [snd] in Hlog;
    try (exists emitted; split; [exact Hlog | exact Hseeds]).
  destruct live, output as [o|]; cbn; rewrite ?Hlog, <- ?app_assoc;
    eexists; (split; [reflexivity|]);
    rewrite ?seed_lists_app, Hseeds; cbn; rewrite ?app_nil_r; reflexivity.
Qed.

Lemma run_cells_seed_lists ex th n output live seed cs w :
  exists emitted batches,
    log (snd (run_cells ex th n output live seed cs w)) = log w ++ emitted
    /\ seed_lists emitted
       = List.concat (repeat (batch_seed_lists seed n) batches)
    /\ (batches <= List.length cs)%nat
    /\ (fst (run_cells ex th n output live seed cs w) = Return tt ->
        batches = List.length cs).
Proof.
  revert w. induction cs as [|c cs IH]; intros w.
  - exists [], 0%nat. cbn. rewrite app_nil_r. repeat split; lia.
  - cbn [run_cells]. unfold bind.
    destruct (run_cell_seed_lists ex th n output live seed c w)
      as (e1 & Hlog1 & Hseeds1).
    destruct (run_cell ex th n output live seed c w) as [[[]|e|] w1];
      cbn [snd fst] in *.
    + destruct (IH w1) as (e2 & m & Hlog2 & Hseeds2 & Hle & Hall).
      exists (e1 ++ e2), (S m). rewrite Hlog2, Hlog1, <- app_assoc.
      split; [reflexivity|]. split.
      { rewrite seed_lists_app, Hseeds1, Hseeds2. reflexivity. }
      split; [cbn; lia|]. intros Hret. cbn. f_equal. exact (Hall Hret).
    + exists e1, 1%nat. split; [exact Hlog1|]. split.
      { cbn. rewrite app_nil_r. exact Hseeds1. }
      split; [cbn; lia | discriminate].
    + exists e1, 1%nat. split; [exact Hlog1|]. split.
      { cbn. rewrite app_nil_r. exact Hseeds1. }
      split; [cbn; lia | discriminate].
Qed.

Lemma batch_seed_lists_single (seed : option Z) (count : Z) (m : nat)
    (l1 l2 : option (list Z)) :
  In l1 (List.concat (repeat (batch_seed_lists seed count) m)) ->
  In l2 (List.concat (repeat (batch_seed_lists seed count) m)) ->
  l1 = l2.
Proof.
  assert (Hone : forall l, In l (List.concat (repeat (batch_seed_lists seed count) m)) ->
                           In l (batch_seed_lists seed count)).
  { intros l Hin. apply in_concat in Hin. destruct Hin as (x & Hx & Hl).
    apply repeat_spec in Hx. subst x. exact Hl. }
  intros H1 H2. apply Hone in H1, H2.
  rewrite drawn_seeds_batch in H1, H2.
  destruct (drawn_seeds seed count); cbn in H1, H2; intuition congruence.
Qed.

(** C10.  In one sweep with root seed [s] and [N] trials per cell, every batch
    that is started hands the same list of sub-seeds to its tasks: the list
    drawn from a generator seeded with [s].  One list is handed out per cell
    that is run, so that the lists of any two cells are equal. *)
Theorem sweep_cells_share_sub_seeds stn_paths execution threads N sim_options
    output live_updates s mitparse start_index stop_index ordering_pairs w :
  let run := across_paths stn_paths execution threads N sim_options output
                          live_updates (Some s) mitparse start_index stop_index
                          ordering_pairs w in
  let cells := selected_cells (collect_stn_pairs stn_paths mitparse) sim_options
                              ordering_pairs start_index stop_index in
  exists emitted batches,
    log (snd run) = log w ++ emitted
    /\ seed_lists emitted
       = List.concat (repeat (batch_seed_lists (Some s) N) batches)
    /\ (batches <= List.length cells)%nat
    /\ (fst run = Return tt -> batches = List.length cells)
    /\ (forall i j li lj,
          nth_error (seed_lists emitted) i = Some li ->
          nth_error (seed_lists emitted) j = Some lj ->
          li = lj).
Proof.
  cbn zeta. rewrite across_paths_cells.
  destruct (run_cells_seed_lists execution threads N output live_updates (Some s)
              (selected_cells (collect_stn_pairs stn_paths mitparse) sim_options
                              ordering_pairs start_index stop_index) w)
    as (emitted & batches & Hlog & Hseeds & Hle & Hall).
  exists emitted, batches. repeat split; try assumption.
  intros i j li lj Hi Hj. apply nth_error_In in Hi, Hj.
  rewrite Hseeds in Hi, Hj.
  exact (batch_seed_lists_single (Some s) N batches li lj Hi Hj).
Qed.

(** C4, as amended.  The sub-seeds of a batch are a function of the root seed
    and the trial count alone: whatever the network, the strategy, the
    options, the worker count and the world, the batch hands out
    [batch_seed_lists (Some s) N].  Two runs of a stage on the same arguments
    that both return a record return the same record up to the two clock
    readings, runtime and timestamp. *)
Theorem seeded_batches_reproducible (s N : Z) :
  (forall stn strat threads opts w,
     exists emitted,
       log (snd (multiple_simulations stn strat N threads (Some s) opts w))
       = log w ++ emitted
       /\ seed_lists emitted = batch_seed_lists (Some s) N)
  /\ (forall path stn ex th opts w1 w2 r1 r2,
        fst (_run_stage (path, stn) ex N th (Some s) opts w1) = Return r1 ->
        fst (_run_stage (path, stn) ex N th (Some s) opts w2) = Return r2 ->
        untimed r1 = untimed r2).
Proof.
  split.
  - intros stn strat threads opts w. apply multiple_simulations_seed_lists.
  - intros path stn ex th opts w1 w2 r1 r2 H1 H2.
    destruct (_run_stage (path, stn) ex N th (Some s) opts w1) as [res1 w1'] eqn:E1.
    destruct (_run_stage (path, stn) ex N th (Some s) opts w2) as [res2 w2'] eqn:E2.
    cbn [fst] in H1, H2. subst res1 res2.
    apply _run_stage_returns in E1, E2.
    destruct E1 as (resp1 & u1 & rob1 & maxv1 & meanv1 & cd1 & syn1 & sd1 & rf1
                    & sf1 & Hms1 & A1 & B1 & C1 & D1 & F1 & G1 & I1 & J1 & ->).
    destruct E2 as (resp2 & u2 & rob2 & maxv2 & meanv2 & cd2 & syn2 & sd2 & rf2
                    & sf2 & Hms2 & A2 & B2 & C2 & D2 & F2 & G2 & I2 & J2 & ->).
    apply multiple_simulations_returns in Hms1, Hms2.
    destruct Hms1 as (seeds1 & Hs1 & ->). destruct Hms2 as (seeds2 & Hs2 & ->).
    rewrite Hs1 in Hs2. injection Hs2 as <-.
    rewrite A1 in A2. injection A2 as <-.
    rewrite B1 in B2. injection B2 as <-.
    rewrite C1 in C2. injection C2 as <-.
    rewrite D1 in D2. injection D2 as <-.
    rewrite F1 in F2. injection F2 as <-.
    rewrite G1 in G2. injection G2 as <-.
    rewrite I1 in I2. injection I2 as <-.
    rewrite J1 in J2. injection J2 as <-.
    reflexivity.
Qed.

End Seeds.

(** C4, counterexample.  The same stage run at two different times returns
    two different records: their timestamps differ. *)
Lemma repeated_runs_differ_in_clock_fields :
  exists r1 r2,
    fst (_run_stage (engine := stub_engine 79 2) (numpy := counting_numpy)
                    ("small.json", small_stn) "early" 4 1 (Some 42)
                    zero_options (stub_world 0 0 [] [])) = Return r1
    /\ fst (_run_stage (engine := stub_engine 79 2) (numpy := counting_numpy)
                       ("small.json", small_stn) "early" 4 1 (Some 42)
                       zero_options (stub_world 100 0 [] [])) = Return r2
    /\ timestamp r1 = 2%Q
    /\ timestamp r2 = 102%Q
    /\ r1 <> r2.
Proof.
  eexists. eexists. split; [vm_compute; reflexivity|].
  split; [vm_compute; reflexivity|].
  split; [reflexivity|]. split; [reflexivity|]. discriminate.
Qed.

(** C4, witness: the two runs of the counterexample agree once the clock
    readings are blanked. *)
Lemma seeded_batches_reproducible_witness :
  exists r1 r2,
    fst (_run_stage (engine := stub_engine 79 2) (numpy := counting_numpy)
                    ("small.json", small_stn) "early" 4 1 (Some 42)
                    zero_options (stub_world 0 0 [] [])) = Return r1
    /\ fst (_run_stage (engine := stub_engine 79 2) (numpy := counting_numpy)
                       ("small.json", small_stn) "early" 4 1 (Some 42)
                       zero_options (stub_world 100 0 [] [])) = Return r2
    /\ untimed r1 = untimed r2.
Proof.
  eexists. eexists.
  split; [vm_compute; reflexivity|]. split; [vm_compute; reflexivity|].
  apply (proj2 (seeded_batches_reproducible (engine := stub_engine 79 2)
                  (numpy := counting_numpy) 42 4)
               "small.json" small_stn "early" 1 zero_options
               (stub_world 0 0 [] []) (stub_world 100 0 [] []));
    vm_compute; reflexivity.
Defined.

(** C10, witness: the four cells of the demonstration sweep. *)
Lemma sweep_cells_share_sub_seeds_witness :
  seed_lists (log (snd (demo_sweep 0 None)))
  = [Some [42; 43; 44; 45]; Some [42; 43; 44; 45];
     Some [42; 43; 44; 45]; Some [42; 43; 44; 45]]
  /\ nth_error (seed_lists (log (snd (demo_sweep 0 None)))) 0
     = nth_error (seed_lists (log (snd (demo_sweep 0 None)))) 3.
Proof.
  split; [vm_compute; reflexivity|].
  destruct (sweep_cells_share_sub_seeds (engine := stub_engine 79 2)
              (numpy := counting_numpy) (loader := stub_loader small_stn)
              ["a.json"; "b.json"] "early" 1 4 zero_options (Some "out.csv")
              false 42 false 0 None (Some demo_grid) (stub_world 0 0 [] []))
    as (emitted & batches & Hlog & _ & _ & _ & Hsame).
  change (log (stub_world 0 0 [] [])) with (@nil event) in Hlog.
  cbn [app] in Hlog. unfold demo_sweep. rewrite Hlog.
  destruct (nth_error (seed_lists emitted) 0) as [l0|] eqn:E0;
    destruct (nth_error (seed_lists emitted) 3) as [l3|] eqn:E3.
  - f_equal. exact (Hsame _ _ _ _ E0 E3).
  - exfalso. rewrite <- Hlog in E3. vm_compute in E3. discriminate.
  - exfalso. rewrite <- Hlog in E0. vm_compute in E0. discriminate.
  - reflexivity.
Defined.

(** * Further properties *)

(** ** The harvester without recursion *)

Lemma logged_nil (w : World) : logged w [] = w.
Proof. destruct w. unfold logged. cbn. rewrite app_nil_r. reflexivity. Qed.

Lemma logged_logged (w : World) (es es' : list event) :
  logged (logged w es) es' = logged w (es ++ es').
Proof. unfold logged. cbn. rewrite app_assoc. reflexivity. Qed.

Lemma bind_warning {B : Type} (msg : string) (k : unit -> M B) (w : World) :
  bind (pr_warning msg) k w = k tt (logged w [Warned msg]).
Proof. reflexivity. Qed.

Lemma bind_isfile {B : Type} (p : string) (k : bool -> M B) (w : World) :
  bind (os_path_isfile p) k w = k (isfile w p) w.
Proof. reflexivity. Qed.

Lemma bind_isdir {B : Type} (p : string) (k : bool -> M B) (w : World) :
  bind (os_path_isdir p) k w = k (isdir w p) w.
Proof. reflexivity. Qed.

Lemma bind_listdir {B : Type} (p : string) (k : list string -> M B) (w : World) :
  bind (os_listdir p) k w
  = match listdir w p with
    | Some contents => k contents w
    | None => (Raise OSError, w)
    end.
Proof. unfold bind, os_listdir. destruct (listdir w p); reflexivity. Qed.

(** The test of the two loops on a file: [only_json] and the extension. *)
Lemma json_test {B : Type} (only_json : bool) (p : string) (yes no : B) :
  (if only_json
   then let (_, ext) := splitext p in
        if (ext =? ".json")%string then yes else no
   else yes)
  = if kept only_json p then yes else no.
Proof.
  unfold kept, is_json. destruct only_json; [|reflexivity].
  destruct (splitext p) as [root ext]. reflexivity.
Qed.

Lemma readable_prefix_logged (w : World) (es : list event)
    (folder_paths : list string) :
  readable_prefix (logged w es) folder_paths = readable_prefix w folder_paths.
Proof.
  induction folder_paths as [|p folder_paths IH]; [reflexivity|].
  cbn [readable_prefix]. rewrite IH. reflexivity.
Qed.

Section FlatHarvest.

Variable harvest : list string -> bool -> bool -> M (list string).
Variable only_json : bool.

Lemma over_contents_flat folder_path contents stn_files w :
  over_contents harvest false only_json folder_path contents stn_files w
  = (Return (stn_files
             ++ filter (fun q => isfile w q && kept only_json q)
                       (map (long_path folder_path) contents)),
     logged w (flat_map (fun c => if isfile w (long_path folder_path c)
                                  then [] else skip_warnings folder_path)
                        contents)).
Proof.
  revert stn_files w.
  induction contents as [|c contents IH]; intros stn_files w.
  - cbn. rewrite app_nil_r, logged_nil. reflexivity.
  - cbn [over_contents map filter flat_map].
    fold (long_path folder_path c). rewrite bind_isfile.
    destruct (isfile w (long_path folder_path c)) eqn:Hfile.
    + rewrite json_test. cbn [andb app].
      destruct (kept only_json (long_path folder_path c)).
      * rewrite IH, <- app_assoc. reflexivity.
      * apply IH.
    + rewrite bind_isdir, andb_false_r, !bind_warning, IH.
      cbn [andb]. rewrite !logged_logged. reflexivity.
Qed.

Lemma over_paths_flat folder_paths stn_files w :
  over_paths harvest false only_json folder_paths stn_files w
  = (if existsb (unreadable w) folder_paths
     then Raise OSError
     else Return (stn_files ++ flat_map (flat_found w only_json) folder_paths),
     logged w (flat_map (flat_warnings w) (readable_prefix w folder_paths))).
Proof.
  revert stn_files w.
  induction folder_paths as [|p folder_paths IH]; intros stn_files w.
  - cbn. rewrite app_nil_r, logged_nil. reflexivity.
  - cbn [over_paths flat_map existsb readable_prefix].
    unfold flat_found at 1, unreadable at 1 3.
    rewrite bind_isfile. destruct (isfile w p) eqn:Hfile.
    + cbn [negb andb orb flat_map]. unfold flat_warnings at 1. rewrite Hfile.
      rewrite json_test. destruct (kept only_json p); rewrite IH.
      * rewrite <- app_assoc. reflexivity.
      * reflexivity.
    + rewrite bind_isdir. destruct (isdir w p) eqn:Hdir.
      * rewrite bind_listdir.
        destruct (listdir w p) as [contents|] eqn:Hlist.
        -- cbn [negb andb orb flat_map]. unfold flat_warnings at 1.
           rewrite Hfile, Hdir, Hlist.
           unfold bind at 1. rewrite over_contents_flat.
           rewrite IH, readable_prefix_logged, logged_logged, <- app_assoc.
           reflexivity.
        -- cbn [negb andb orb flat_map]. rewrite logged_nil. reflexivity.
      * cbn [negb andb orb flat_map]. unfold flat_warnings at 1.
        rewrite Hfile, Hdir.
        rewrite !bind_warning, IH, !readable_prefix_logged, !logged_logged.
        reflexivity.
Qed.

End FlatHarvest.

(** X1.  Without recursion one level of fuel is enough, and the harvest
    raises exactly when one of the given paths is a directory that cannot be
    listed: then it raises the [OSError] of [os.listdir], after the warnings
    of the paths that come before.  Otherwise it returns, path after path and
    in listing order, the paths that are files and the entries of the
    directories that are files (those with the extension .json only, under
    [only_json]), and it warns twice about every directory entry that is not
    a file and about every path that is neither a file nor a directory. *)
Theorem folder_harvest_flat (fuel : nat) (folder_paths : list string)
    (only_json : bool) (w : World) :
  folder_harvest (S fuel) folder_paths false only_json w
  = (if existsb (unreadable w) folder_paths
     then Raise OSError
     else Return (flat_map (flat_found w only_json) folder_paths),
     logged w (flat_map (flat_warnings w) (readable_prefix w folder_paths))).
Proof.
  cbn [folder_harvest]. rewrite over_paths_flat. reflexivity.
Qed.

(** ** The harvester in general *)

Lemma warned_from_refl (w : World) : warned_from w w.
Proof.
  split; [repeat split|]. exists []. rewrite app_nil_r. split; constructor.
Qed.

Lemma warned_from_trans (w1 w2 w3 : World) :
  warned_from w1 w2 -> warned_from w2 w3 -> warned_from w1 w3.
Proof.
  intros [S12 (ws & L12 & F12)] [S23 (ws' & L23 & F23)].
  destruct S12 as (A1 & A2 & A3 & A4 & A5 & A6 & A7).
  destruct S23 as (B1 & B2 & B3 & B4 & B5 & B6 & B7).
  split.
  - repeat split; congruence.
  - exists (ws ++ ws'). rewrite L23, L12, app_assoc. split; [reflexivity|].
    apply Forall_app. split; assumption.
Qed.

Lemma warned_from_warning (w : World) (msg : string) :
  warned_from w (logged w [Warned msg]).
Proof.
  split; [repeat split|]. exists [Warned msg]. split; [reflexivity|].
  repeat constructor.
Qed.

Lemma kept_under_only_json (p : string) : kept true p = is_json p.
Proof. reflexivity. Qed.

Lemma unreadable_same (w w' : World) (p : string) :
  same_but_log w w' -> unreadable w' p = unreadable w p.
Proof.
  intros (_ & _ & _ & _ & Hf & Hd & Hl). unfold unreadable.
  rewrite Hf, Hd, Hl. reflexivity.
Qed.

Section HarvestInvariant.

Variable harvest : list string -> bool -> bool -> M (list string).
Variables recurse only_json : bool.
Variable Q : string -> Prop.
Variable w0 : World.

Hypothesis harvest_sub :
  forall ps w,
    harvest_post (fun p => isfile w p = true /\ is_json p = true) w
                 (harvest ps true true w).

Hypothesis Q_sub :
  forall p, isfile w0 p = true -> is_json p = true -> Q p.

Lemma over_contents_post folder_path contents stn_files w :
  warned_from w0 w ->
  Forall Q stn_files ->
  (forall c, In c contents ->
             isfile w0 (long_path folder_path c) = true ->
             kept only_json (long_path folder_path c) = true ->
             Q (long_path folder_path c)) ->
  harvest_post Q w0
    (over_contents harvest recurse only_json folder_path contents stn_files w).
Proof.
  revert stn_files w.
  induction contents as [|c contents IH]; intros stn_files w Hw Hacc Hin.
  - split; assumption.
  - cbn [over_contents]. fold (long_path folder_path c). rewrite bind_isfile.
    assert (Hfs : isfile w = isfile w0) by (destruct Hw as [Hs _]; apply Hs).
    assert (Hrest : forall c', In c' contents ->
                      isfile w0 (long_path folder_path c') = true ->
                      kept only_json (long_path folder_path c') = true ->
                      Q (long_path folder_path c'))
      by (intros c' Hc'; apply Hin; right; exact Hc').
    rewrite Hfs.
    destruct (isfile w0 (long_path folder_path c)) eqn:Hfile.
    + rewrite json_test.
      destruct (kept only_json (long_path folder_path c)) eqn:Hkept.
      * apply IH; [exact Hw | | exact Hrest].
        apply Forall_app. split; [exact Hacc|]. constructor; [|constructor].
        apply Hin; [left; reflexivity | exact Hfile | exact Hkept].
      * apply IH; assumption.
    + rewrite bind_isdir. destruct (isdir w (long_path folder_path c) && recurse).
      * unfold bind at 1.
        destruct (harvest_sub [long_path folder_path c] w) as [Hsub Hres].
        destruct (harvest [long_path folder_path c] true true w)
          as [[found|e|] w1]; cbn [fst snd] in Hsub, Hres.
        -- apply IH; [exact (warned_from_trans _ _ _ Hw Hsub) | | exact Hrest].
           apply Forall_app. split; [exact Hacc|].
           eapply Forall_impl; [|exact Hres].
           intros p [Hp Hj]. apply Q_sub; [rewrite <- Hfs; exact Hp | exact Hj].
        -- split; [exact (warned_from_trans _ _ _ Hw Hsub)|].
           destruct Hres as [He [p Hp]]. cbn [fst]. split; [exact He|].
           exists p. rewrite <- Hp. symmetry. apply unreadable_same, Hw.
        -- split; [exact (warned_from_trans _ _ _ Hw Hsub) | exact I].
      * rewrite !bind_warning. apply IH; [|exact Hacc | exact Hrest].
        eapply warned_from_trans; [exact Hw|].
        eapply warned_from_trans; apply warned_from_warning.
Qed.

Lemma over_paths_post folder_paths stn_files w :
  warned_from w0 w ->
  Forall Q stn_files ->
  (forall p, In p folder_paths -> isfile w0 p = true ->
             kept only_json p = true -> Q p) ->
  (forall p contents c,
     In p folder_paths -> listdir w0 p = Some contents -> In c contents ->
     isfile w0 (long_path p c) = true ->
     kept only_json (long_path p c) = true ->
     Q (long_path p c)) ->
  harvest_post Q w0
    (over_paths harvest recurse only_json folder_paths stn_files w).
Proof.
  revert stn_files w.
  induction folder_paths as [|p folder_paths IH];
    intros stn_files w Hw Hacc Hpath Hentry.
  - split; assumption.
  - cbn [over_paths]. rewrite bind_isfile.
    assert (Hfs : isfile w = isfile w0) by (destruct Hw as [Hs _]; apply Hs).
    assert (Hds : isdir w = isdir w0) by (destruct Hw as [Hs _]; apply Hs).
    assert (Hls : listdir w = listdir w0) by (destruct Hw as [Hs _]; apply Hs).
    assert (Hpath' : forall p', In p' folder_paths -> isfile w0 p' = true ->
                                kept only_json p' = true -> Q p')
      by (intros p' Hp'; apply Hpath; right; exact Hp').
    assert (Hentry' : forall p' contents c,
                        In p' folder_paths -> listdir w0 p' = Some contents ->
                        In c contents ->
                        isfile w0 (long_path p' c) = true ->
                        kept only_json (long_path p' c) = true ->
                        Q (long_path p' c))
      by (intros p' contents c Hp'; apply Hentry; right; exact Hp').
    rewrite Hfs. destruct (isfile w0 p) eqn:Hfile.
    + rewrite json_test. destruct (kept only_json p) eqn:Hkept.
      * apply IH; try assumption.
        apply Forall_app. split; [exact Hacc|]. constructor; [|constructor].
        apply Hpath; [left; reflexivity | exact Hfile | exact Hkept].
      * apply IH; assumption.
    + rewrite bind_isdir, Hds. destruct (isdir w0 p) eqn:Hdir.
      * rewrite bind_listdir, Hls.
        destruct (listdir w0 p) as [contents|] eqn:Hlist.
        -- unfold bind at 1.
           destruct (over_contents_post p contents stn_files w Hw Hacc)
             as [Hsub Hres].
           { intros c Hc. apply (Hentry p contents);
               [left; reflexivity | exact Hlist | exact Hc]. }
           destruct (over_contents harvest recurse only_json p contents
                                   stn_files w) as [[found|e|] w1];
             cbn [fst snd] in Hsub, Hres.
           ++ apply IH; assumption.
           ++ split; [exact Hsub | exact Hres].
           ++ split; [exact Hsub | exact I].
        -- split; [exact Hw|]. cbn [fst]. split; [reflexivity|].
           exists p. unfold unreadable. rewrite Hfile, Hdir, Hlist. reflexivity.
      * rewrite !bind_warning. apply IH; try assumption.
        eapply warned_from_trans; [exact Hw|].
        eapply warned_from_trans; apply warned_from_warning.
Qed.

End HarvestInvariant.

(** Whatever is found under [only_json] is a file with the extension. *)
Lemma folder_harvest_json (fuel : nat) (folder_paths : list string)
    (recurse : bool) (w : World) :
  harvest_post (fun p => isfile w p = true /\ is_json p = true) w
               (folder_harvest fuel folder_paths recurse true w).
Proof.
  revert folder_paths recurse w.
  induction fuel as [|fuel IH]; intros folder_paths recurse w.
  - split; [apply warned_from_refl | exact I].
  - cbn [folder_harvest].
    apply (over_paths_post (folder_harvest fuel) recurse true _ w).
    + intros ps w1. apply IH.
    + intros p Hp Hj. split; assumption.
    + apply warned_from_refl.
    + constructor.
    + intros p _ Hp Hj. split; assumption.
    + intros p contents c _ _ _ Hp Hj. split; assumption.
Qed.

Lemma folder_harvest_post (Q : string -> Prop) (fuel : nat)
    (folder_paths : list string) (recurse only_json : bool) (w : World) :
  (forall p, isfile w p = true -> is_json p = true -> Q p) ->
  (forall p, In p folder_paths -> isfile w p = true ->
             kept only_json p = true -> Q p) ->
  (forall p contents c,
     In p folder_paths -> listdir w p = Some contents -> In c contents ->
     isfile w (long_path p c) = true ->
     kept only_json (long_path p c) = true ->
     Q (long_path p c)) ->
  harvest_post Q w (folder_harvest fuel folder_paths recurse only_json w).
Proof.
  intros Hsub Hpath Hentry. destruct fuel as [|fuel].
  - split; [apply warned_from_refl | exact I].
  - cbn [folder_harvest].
    apply (over_paths_post (folder_harvest fuel) recurse only_json Q w);
      try assumption.
    + intros ps w1. apply folder_harvest_json.
    + apply warned_from_refl.
    + constructor.
Qed.

(** X2.  A path that is neither a file nor a directory is never fatal, and
    neither is anything else but [os.listdir]: when the harvest raises, what
    it raises is the [OSError] of a directory that cannot be listed, so that
    over a file system whose directories can all be listed it never raises.
    Whatever the outcome, the harvest leaves the clock, the pools and the
    file system as they were, and all it emits are warnings.  (Running out of
    fuel stands for a nesting of directories deeper than the recursion
    limit.) *)
Theorem folder_harvest_raises_only_listdir_errors (fuel : nat)
    (folder_paths : list string) (recurse only_json : bool) (w : World) :
  let run := folder_harvest fuel folder_paths recurse only_json w in
  (forall e, fst run = Raise e ->
             e = OSError
             /\ exists p, isfile w p = false /\ isdir w p = true
                          /\ listdir w p = None)
  /\ ((forall p, isdir w p = true -> listdir w p <> None) ->
      forall e, fst run <> Raise e)
  /\ same_but_log w (snd run)
  /\ exists warnings,
       log (snd run) = log w ++ warnings /\ Forall is_warning warnings.
Proof.
  cbn zeta.
  destruct (folder_harvest_post (fun _ => True) fuel folder_paths recurse
              only_json w) as [[Hsame Hlog] Hres]; try (intros; exact I).
  assert (Hraise : forall e,
             fst (folder_harvest fuel folder_paths recurse only_json w)
             = Raise e ->
             e = OSError
             /\ exists p, isfile w p = false /\ isdir w p = true
                          /\ listdir w p = None).
  { intros e He. rewrite He in Hres. destruct Hres as [-> [p Hp]].
    split; [reflexivity|]. exists p. unfold unreadable in Hp.
    destruct (isfile w p), (isdir w p), (listdir w p);
      try discriminate Hp. repeat split. }
  split; [exact Hraise|]. split; [|split; assumption].
  intros Hread e He. destruct (Hraise e He) as [_ (p & _ & Hdir & Hlist)].
  exact (Hread p Hdir Hlist).
Qed.

(** X3.  Every path the harvest returns is a file, and under [only_json]
    every one of them has the extension .json, at whatever depth it was
    found. *)
Theorem folder_harvest_finds_files (fuel : nat) (folder_paths : list string)
    (recurse only_json : bool) (w : World) (found : list string) :
  fst (folder_harvest fuel folder_paths recurse only_json w) = Return found ->
  Forall (fun p => isfile w p = true) found
  /\ (only_json = true -> Forall (fun p => is_json p = true) found).
Proof.
  intros Hrun.
  destruct (folder_harvest_post
              (fun p => isfile w p = true
                        /\ (only_json = true -> is_json p = true))
              fuel folder_paths recurse only_json w) as [_ Hres].
  - intros p Hp Hj. split; [exact Hp | intros _; exact Hj].
  - intros p _ Hp Hk. split; [exact Hp|]. intros ->. exact Hk.
  - intros p contents c _ _ _ Hp Hk. split; [exact Hp|]. intros ->. exact Hk.
  - rewrite Hrun in Hres. split.
    + eapply Forall_impl; [|exact Hres]. intros p [Hp _]. exact Hp.
    + intros Hoj. eapply Forall_impl; [|exact Hres]. intros p [_ Hj]. auto.
Qed.

(** X4.  The recursive call leaves [only_json] at its default: even when the
    harvest is asked for every file ([only_json] false), a path found inside
    a sub-directory has the extension .json; the only other paths returned
    are the given paths and the entries of the given directories. *)
Theorem folder_harvest_sub_directories_json (fuel : nat)
    (folder_paths : list string) (recurse only_json : bool) (w : World)
    (found : list string) :
  fst (folder_harvest fuel folder_paths recurse only_json w) = Return found ->
  Forall (fun p => is_json p = true \/ direct w folder_paths p) found.
Proof.
  intros Hrun.
  destruct (folder_harvest_post
              (fun p => is_json p = true \/ direct w folder_paths p)
              fuel folder_paths recurse only_json w) as [_ Hres].
  - intros p _ Hj. left. exact Hj.
  - intros p Hin _ _. right. left. exact Hin.
  - intros p contents c Hin Hlist Hc _ _. right. right. exists p, c.
    split; [exact Hin|]. split; [|reflexivity]. exists contents. auto.
  - rewrite Hrun in Hres. exact Hres.
Qed.

(** ** Harvesting path after path *)

Lemma prepend_prepend (a b : list string) (run : outcome (list string) * World) :
  prepend a (prepend b run) = prepend (a ++ b) run.
Proof.
  destruct run as [[found|e|] w]; cbn; try reflexivity.
  rewrite app_assoc. reflexivity.
Qed.

Lemma prepend_nil (run : outcome (list string) * World) : prepend [] run = run.
Proof. destruct run as [[found|e|] w]; reflexivity. Qed.

Lemma prepend_bind (a : list string) (c : M (list string)) (w : World) :
  prepend a (c w) = bind c (fun found => ret (a ++ found)) w.
Proof. unfold bind, prepend. destruct (c w) as [[found|e|] w']; reflexivity. Qed.

Section HarvestAccumulator.

Variable harvest : list string -> bool -> bool -> M (list string).
Variables recurse only_json : bool.

Lemma over_contents_prepend folder_path contents stn_files w :
  over_contents harvest recurse only_json folder_path contents stn_files w
  = prepend stn_files
      (over_contents harvest recurse only_json folder_path contents [] w).
Proof.
  revert stn_files w.
  induction contents as [|c contents IH]; intros stn_files w.
  - cbn. rewrite app_nil_r. reflexivity.
  - cbn [over_contents]. fold (long_path folder_path c). rewrite !bind_isfile.
    destruct (isfile w (long_path folder_path c)).
    + rewrite !json_test.
      destruct (kept only_json (long_path folder_path c)).
      * rewrite IH, (IH ([] ++ _)), prepend_prepend. reflexivity.
      * apply IH.
    + rewrite !bind_isdir.
      destruct (isdir w (long_path folder_path c) && recurse).
      * unfold bind.
        destruct (harvest [long_path folder_path c] true true w)
          as [[found|e|] w1]; try reflexivity.
        rewrite IH, (IH ([] ++ _)), prepend_prepend. reflexivity.
      * rewrite !bind_warning. apply IH.
Qed.

Lemma over_paths_prepend folder_paths stn_files w :
  over_paths harvest recurse only_json folder_paths stn_files w
  = prepend stn_files
      (over_paths harvest recurse only_json folder_paths [] w).
Proof.
  revert stn_files w.
  induction folder_paths as [|p folder_paths IH]; intros stn_files w.
  - cbn. rewrite app_nil_r. reflexivity.
  - cbn [over_paths]. rewrite !bind_isfile. destruct (isfile w p).
    + rewrite !json_test. destruct (kept only_json p).
      * rewrite IH, (IH ([] ++ _)), prepend_prepend. reflexivity.
      * apply IH.
    + rewrite !bind_isdir. destruct (isdir w p).
      * rewrite !bind_listdir.
        destruct (listdir w p) as [contents|]; [|reflexivity].
        unfold bind.
        rewrite (over_contents_prepend p contents stn_files w).
        destruct (over_contents harvest recurse only_json p contents [] w)
          as [[found|e|] w1]; try reflexivity.
        cbn [prepend]. rewrite IH, (IH found), prepend_prepend. reflexivity.
      * rewrite !bind_warning. apply IH.
Qed.

Lemma over_paths_app folder_paths more stn_files w :
  over_paths harvest recurse only_json (folder_paths ++ more) stn_files w
  = bind (over_paths harvest recurse only_json folder_paths stn_files)
         (fun found => over_paths harvest recurse only_json more found) w.
Proof.
  revert stn_files w.
  induction folder_paths as [|p folder_paths IH]; intros stn_files w.
  - reflexivity.
  - cbn [app over_paths]. rewrite !bind_bind. apply bind_ext. intros is_file w1.
    destruct is_file.
    + rewrite !json_test. destruct (kept only_json p); apply IH.
    + rewrite !bind_bind. apply bind_ext. intros is_dir w2. destruct is_dir.
      * rewrite !bind_bind. apply bind_ext. intros contents w3.
        rewrite !bind_bind. apply bind_ext. intros found w4. apply IH.
      * rewrite !bind_bind. apply bind_ext. intros _ w3.
        rewrite !bind_bind. apply bind_ext. intros _ w4. apply IH.
Qed.

End HarvestAccumulator.

(** X5.  Harvesting a list of paths is harvesting its parts one after the
    other: the paths found under [folder_paths ++ more] are those found under
    [folder_paths] followed by those found under [more], the second harvest
    starting in the world the first one leaves. *)
Theorem folder_harvest_app (fuel : nat) (folder_paths more : list string)
    (recurse only_json : bool) (w : World) :
  folder_harvest (S fuel) (folder_paths ++ more) recurse only_json w
  = bind (folder_harvest (S fuel) folder_paths recurse only_json)
         (fun found =>
            bind (folder_harvest (S fuel) more recurse only_json)
                 (fun found' => ret (found ++ found'))) w.
Proof.
  cbn [folder_harvest]. rewrite over_paths_app. apply bind_ext.
  intros found w1. rewrite over_paths_prepend. apply prepend_bind.
Qed.

(** X3, witness: the tree under ["data"], harvested with recursion. *)
Lemma folder_harvest_finds_files_witness :
  fst (folder_harvest 3 ["data"] true true tree_world)
  = Return ["data/a.json"; "data/sub/b.json"]
  /\ Forall (fun p => isfile tree_world p = true)
            ["data/a.json"; "data/sub/b.json"]
  /\ Forall (fun p => is_json p = true) ["data/a.json"; "data/sub/b.json"].
Proof.
  assert (Hrun : fst (folder_harvest 3 ["data"] true true tree_world)
                 = Return ["data/a.json"; "data/sub/b.json"])
    by (vm_compute; reflexivity).
  destruct (folder_harvest_finds_files 3 ["data"] true true tree_world _ Hrun)
    as [Hfiles Hjson].
  split; [exact Hrun|]. split; [exact Hfiles | exact (Hjson eq_refl)].
Defined.

(** X4, witness: asked for every file, the harvest of the tree keeps
    notes.txt, an entry of ["data"], and drops the file c.txt of the
    sub-directory. *)
Lemma folder_harvest_sub_directories_json_witness :
  fst (folder_harvest 3 ["data"] true false tree_world)
  = Return ["data/a.json"; "data/notes.txt"; "data/sub/b.json"]
  /\ isfile tree_world "data/sub/c.txt" = true
  /\ Forall (fun p => is_json p = true \/ direct tree_world ["data"] p)
            ["data/a.json"; "data/notes.txt"; "data/sub/b.json"].
Proof.
  assert (Hrun : fst (folder_harvest 3 ["data"] true false tree_world)
                 = Return ["data/a.json"; "data/notes.txt"; "data/sub/b.json"])
    by (vm_compute; reflexivity).
  split; [exact Hrun|]. split; [reflexivity|].
  exact (folder_harvest_sub_directories_json 3 ["data"] true false tree_world
           _ Hrun).
Defined.

(** X2, witness: a path that does not exist is warned about and skipped, the
    directory ["locked"] after it makes the harvest raise. *)
Lemma folder_harvest_raises_only_listdir_errors_witness :
  folder_harvest 3 ["nowhere"; "locked"; "data"] true true locked_world
  = (Raise OSError, logged locked_world (skip_warnings "nowhere"))
  /\ exists p, isfile locked_world p = false /\ isdir locked_world p = true
               /\ listdir locked_world p = None.
Proof.
  assert (Hrun : folder_harvest 3 ["nowhere"; "locked"; "data"] true true
                                locked_world
                 = (Raise OSError,
                    logged locked_world (skip_warnings "nowhere")))
    by (vm_compute; reflexivity).
  split; [exact Hrun|].
  destruct (folder_harvest_raises_only_listdir_errors
              3 ["nowhere"; "locked"; "data"] true true locked_world)
    as [Hraise _].
  apply (Hraise OSError). rewrite Hrun. reflexivity.
Defined.

Section Agents.
Context {engine : Engine} {numpy : NumpyRandom} {loader : Loader}.

(** ** Vertices per agent, again *)

Lemma fold_max_spec (l : list Z) (x : Z) :
  let m := fold_left Z.max l x in
  In m (x :: l) /\ forall y, In y (x :: l) -> y <= m.
Proof.
  revert x. induction l as [|z l IH]; intros x; cbn [fold_left].
  - split; [left; reflexivity|]. intros y [<-|[]]. lia.
  - destruct (IH (Z.max x z)) as [Hin Hmax]. split.
    + destruct Hin as [Heq|Hin].
      * rewrite <- Heq. destruct (Z.max_spec x z) as [[_ ->]|[_ ->]].
        -- right. left. reflexivity.
        -- left. reflexivity.
      * right. right. exact Hin.
    + intros y Hy.
      assert (Hxz : Z.max x z <= fold_left Z.max l (Z.max x z))
        by (apply Hmax; left; reflexivity).
      destruct Hy as [Hy|[Hy|Hy]]; [subst y; lia | subst y; lia |].
      apply Hmax. right. exact Hy.
Qed.

Lemma max_agent_verts_inr (stn : STN.t) (m : Z) :
  max_agent_verts stn = inr m ->
  (exists a, In a (STN.agents stn) /\ get_agent_verts stn a = m)
  /\ (forall a, In a (STN.agents stn) -> get_agent_verts stn a <= m).
Proof.
  unfold max_agent_verts. destruct (STN.agents stn) as [|a agents];
    [discriminate|].
  cbn [map py_max]. intros [= <-].
  destruct (fold_max_spec (map (get_agent_verts stn) agents)
                          (get_agent_verts stn a)) as [Hin Hmax].
  change (get_agent_verts stn a :: map (get_agent_verts stn) agents)
    with (map (get_agent_verts stn) (a :: agents)) in Hin, Hmax.
  split.
  - apply in_map_iff in Hin. destruct Hin as (b & Hb & Hin).
    exists b. split; assumption.
  - intros b Hb. apply Hmax. apply in_map. exact Hb.
Qed.

(** X6.  [max_agent_verts] raises [ValueError] exactly on a network without
    agents; otherwise it returns the count of some agent, and no agent owns
    more vertices than that. *)
Theorem max_agent_verts_is_greatest (stn : STN.t) :
  (STN.agents stn = [] <-> max_agent_verts stn = inl ValueError)
  /\ (STN.agents stn <> [] ->
      exists m,
        max_agent_verts stn = inr m
        /\ (exists a, In a (STN.agents stn) /\ get_agent_verts stn a = m)
        /\ (forall a, In a (STN.agents stn) -> get_agent_verts stn a <= m)).
Proof.
  split.
  - unfold max_agent_verts. destruct (STN.agents stn) as [|a agents].
    + split; reflexivity.
    + split; discriminate.
  - intros Hne.
    destruct (max_agent_verts stn) as [e|m] eqn:Hmax.
    + exfalso. unfold max_agent_verts in Hmax.
      destruct (STN.agents stn); [contradiction | discriminate].
    + exists m. split; [reflexivity|]. apply max_agent_verts_inr. exact Hmax.
Qed.

(** X7.  Over agents that are listed once each, every vertex is counted for
    at most one agent: the per-agent counts and the number of vertices that
    belong to no listed agent add up to the number of vertices. *)
Theorem agent_counts_partition (stn : STN.t) :
  NoDup (STN.agents stn) ->
  py_sum (map (get_agent_verts stn) (STN.agents stn))
  + len (filter (fun v => negb (owned_by_some (STN.agents stn) v))
                (values (STN.verts stn)))
  = len (STN.verts stn)
  /\ forall a, 0 <= get_agent_verts stn a <= len (STN.verts stn).
Proof.
  intros Hnd. split.
  - rewrite (agent_counts_sum stn _ Hnd).
    rewrite <- (filter_split_length (owned_by_some (STN.agents stn))).
    unfold len, values. rewrite length_map. reflexivity.
  - intros a. rewrite get_agent_verts_count.
    pose proof (filter_split_length (owner_is a) (values (STN.verts stn))) as H.
    pose proof (len_nonneg (filter (owner_is a) (values (STN.verts stn)))).
    pose proof (len_nonneg (filter (fun x => negb (owner_is a x))
                                   (values (STN.verts stn)))).
    assert (Hv : len (values (STN.verts stn)) = len (STN.verts stn))
      by (unfold len, values; rewrite length_map; reflexivity).
    lia.
Qed.

Lemma py_sum_bounded (l : list Z) (m : Z) :
  (forall x, In x l -> x <= m) -> py_sum l <= m * len l.
Proof.
  unfold len. induction l as [|x l IH]; intros Hm.
  - cbn. lia.
  - rewrite py_sum_cons. cbn [List.length].
    specialize (IH (fun y Hy => Hm y (or_intror Hy))).
    specialize (Hm x (or_introl eq_refl)). lia.
Qed.

(** X8.  [mean_agent_verts] raises [ZeroDivisionError] exactly on a network
    without agents, and the mean it returns is never above the greatest
    count, [max_agent_verts]. *)
Theorem mean_agent_verts_below_max (stn : STN.t) :
  (STN.agents stn = [] <-> mean_agent_verts stn = inl ZeroDivisionError)
  /\ forall mean m,
       mean_agent_verts stn = inr mean ->
       max_agent_verts stn = inr m ->
       (mean <= inject_Z m)%Q.
Proof.
  split.
  - unfold mean_agent_verts. split.
    + intros ->. reflexivity.
    + intros H. destruct (STN.agents stn) as [|a agents]; [reflexivity|].
      rewrite truediv_nonzero in H; [discriminate|].
      unfold len. cbn [map List.length]. lia.
  - intros mean m Hmean Hmax.
    destruct (max_agent_verts_inr stn m Hmax) as [_ Hall].
    unfold mean_agent_verts in Hmean. apply truediv_inr in Hmean.
    destruct Hmean as [Hlen ->].
    set (counts := map (get_agent_verts stn) (STN.agents stn)) in *.
    assert (Hsum : py_sum counts <= m * len counts).
    { apply py_sum_bounded. intros x Hx. apply in_map_iff in Hx.
      destruct Hx as (a & <- & Ha). apply Hall. exact Ha. }
    pose proof (len_nonneg counts) as Hpos.
    destruct (len counts) as [|p|p] eqn:Hp; try lia.
    unfold Qle, Qdiv, Qmult, Qinv, inject_Z. cbn. nia.
Qed.

End Agents.

(** X6, witness: in [small_stn] agent 0 owns the most vertices, two. *)
Lemma max_agent_verts_is_greatest_witness :
  exists m,
    max_agent_verts small_stn = inr m
    /\ (exists a, In a (STN.agents small_stn) /\ get_agent_verts small_stn a = m)
    /\ (forall a, In a (STN.agents small_stn) -> get_agent_verts small_stn a <= m).
Proof.
  apply (proj2 (max_agent_verts_is_greatest small_stn)). discriminate.
Defined.

(** X7, witness: [small_stn], whose zero time-point alone has no owner. *)
Lemma agent_counts_partition_witness :
  py_sum (map (get_agent_verts small_stn) (STN.agents small_stn))
  + len (filter (fun v => negb (owned_by_some (STN.agents small_stn) v))
                (values (STN.verts small_stn)))
  = len (STN.verts small_stn).
Proof.
  apply (proj1 (agent_counts_partition small_stn
                  ltac:(repeat constructor; cbn; intuition discriminate))).
Defined.

(** X8, witness: in [small_stn] the mean is 3/2 and the greatest count 2. *)
Lemma mean_agent_verts_below_max_witness :
  mean_agent_verts small_stn = inr (inject_Z 3 / inject_Z 2)%Q
  /\ max_agent_verts small_stn = inr 2
  /\ (inject_Z 3 / inject_Z 2 <= inject_Z 2)%Q.
Proof.
  assert (Hmean : mean_agent_verts small_stn = inr (inject_Z 3 / inject_Z 2)%Q)
    by reflexivity.
  assert (Hmax : max_agent_verts small_stn = inr 2) by reflexivity.
  split; [exact Hmean|]. split; [exact Hmax|].
  exact (proj2 (mean_agent_verts_below_max small_stn) _ _ Hmean Hmax).
Defined.

Section Batches.
Context {engine : Engine} {numpy : NumpyRandom} {loader : Loader}.

(** ** The outcomes of a seeded batch, seed by seed *)

Lemma draw_seeds_length (n : nat) (seed_gen : RandomState) :
  List.length (draw_seeds n seed_gen) = n.
Proof.
  revert seed_gen. induction n as [|n IH]; intros seed_gen; [reflexivity|].
  cbn [draw_seeds]. destruct (randint seed_gen MAX_SEED) as [seed seed_gen'].
  cbn [List.length]. rewrite IH. reflexivity.
Qed.

(** The seeds of a longer draw begin with the seeds of a shorter one. *)
Lemma draw_seeds_prefix (n m : nat) (seed_gen : RandomState) :
  firstn n (draw_seeds (n + m) seed_gen) = draw_seeds n seed_gen.
Proof.
  revert seed_gen. induction n as [|n IH]; intros seed_gen; [reflexivity|].
  cbn [Nat.add draw_seeds].
  destruct (randint seed_gen MAX_SEED) as [seed seed_gen'].
  cbn [firstn]. rewrite IH. reflexivity.
Qed.

Lemma map_nth_error_seq {A B : Type} (F : option A -> B) (l : list A) :
  map (fun i => F (nth_error l i)) (seq 0 (List.length l))
  = map (fun x => F (Some x)) l.
Proof.
  induction l as [|x l IH]; [reflexivity|].
  cbn [List.length seq map nth_error]. f_equal.
  rewrite <- seq_shift, map_map. cbn [nth_error]. exact IH.
Qed.

(** Running the tasks built from a list of [count] seeds is running one
    trial per seed, in the order of the seeds. *)
Lemma tasks_per_seed stn strat opts (count : Z) (seeds : list Z) :
  List.length seeds = Z.to_nat count ->
  map _multisim_thread_helper
      (_make_simulator_tasks (Some seeds) stn strat opts count)
  = map (fun seed => trial_outcome stn strat opts (Some seed)) seeds.
Proof.
  intros Hlen. unfold _make_simulator_tasks, trial_outcome, range.
  rewrite <- Hlen.
  destruct (strat =? "da")%string eqn:Hda; rewrite !map_map.
  - rewrite <- (map_nth_error_seq
                  (fun seed => _multisim_thread_helper
                                 (DecoupledSimulator seed, stn, strat, opts, 0))).
    apply map_ext. intros i. rewrite Nat2Z.id. reflexivity.
  - rewrite <- (map_nth_error_seq
                  (fun seed => _multisim_thread_helper
                                 (Simulator seed, stn, strat, opts, 0))).
    apply map_ext. intros i. rewrite Nat2Z.id. reflexivity.
Qed.

Lemma seeded_batch_response stn strat count threads s opts w resp w1 :
  multiple_simulations stn strat count threads (Some s) opts w
  = (Return resp, w1) ->
  exists seed_gen,
    RandomState_init s = inr seed_gen
    /\ resp = response_of
                (map (fun seed => trial_outcome stn strat opts (Some seed))
                     (draw_seeds (Z.to_nat count) seed_gen)).
Proof.
  intros Hrun. apply multiple_simulations_returns in Hrun.
  destruct Hrun as (seeds & Hseeds & ->).
  unfold drawn_seeds in Hseeds.
  destruct (RandomState_init s) as [e|seed_gen]; [discriminate|].
  injection Hseeds as <-. exists seed_gen. split; [reflexivity|].
  unfold in_order_response, response_of.
  rewrite tasks_per_seed by apply draw_seeds_length. reflexivity.
Qed.

(** X9.  A batch with a root seed that returns reports, at position [i], what
    a trial on a fresh engine built from the [i]-th sub-seed reports: the
    decoupled engine with the decoupling ["srea"] for the strategy ["da"],
    the plain engine otherwise.  There are as many outcomes as trials asked
    for (none for a count that is not positive), whatever the number of
    workers. *)
Theorem seeded_batch_outcomes stn strat count threads s opts w resp w1 :
  multiple_simulations stn strat count threads (Some s) opts w
  = (Return resp, w1) ->
  exists seed_gen,
    RandomState_init s = inr seed_gen
    /\ let seeds := draw_seeds (Z.to_nat count) seed_gen in
       let outcomes :=
         map (fun seed => trial_outcome stn strat opts (Some seed)) seeds in
       sample_results resp = map (fun r => fst (fst r)) outcomes
       /\ reschedules resp = map (fun r => snd (fst r)) outcomes
       /\ sent_schedules resp = map snd outcomes
       /\ len outcomes = Z.max 0 count.
Proof.
  intros Hrun. apply seeded_batch_response in Hrun.
  destruct Hrun as (seed_gen & Hinit & ->).
  exists seed_gen. split; [exact Hinit|]. cbn zeta.
  repeat split. unfold len. rewrite length_map, draw_seeds_length. lia.
Qed.

(** X10.  Asking for more trials with the same root seed keeps the trials
    already run: the outcomes of a batch of [count] trials are the first
    [count] outcomes of any batch of more trials on the same network,
    strategy and options, whatever the numbers of workers of the two
    batches. *)
Theorem smaller_batch_is_prefix stn strat opts s (count count' : Z)
    threads threads' w w' resp resp' w1 w1' :
  0 <= count <= count' ->
  multiple_simulations stn strat count threads (Some s) opts w
  = (Return resp, w1) ->
  multiple_simulations stn strat count' threads' (Some s) opts w'
  = (Return resp', w1') ->
  sample_results resp = firstn (Z.to_nat count) (sample_results resp')
  /\ reschedules resp = firstn (Z.to_nat count) (reschedules resp')
  /\ sent_schedules resp = firstn (Z.to_nat count) (sent_schedules resp').
Proof.
  intros Hle Hrun Hrun'.
  apply seeded_batch_response in Hrun, Hrun'.
  destruct Hrun as (g & Hinit & ->). destruct Hrun' as (g' & Hinit' & ->).
  rewrite Hinit in Hinit'. injection Hinit' as <-.
  replace (Z.to_nat count') with (Z.to_nat count + Z.to_nat (count' - count))%nat
    by lia.
  cbn [response_of sample_results reschedules sent_schedules].
  rewrite !firstn_map, draw_seeds_prefix. repeat split.
Qed.


(** ** When a stage returns a record *)

(** X12.  After a batch that returned, the stage fails or returns according
    to the trial count and the shape of the network, in this order: a count
    that is not positive gives [ZeroDivisionError] (the robustness), a
    network without agents [ValueError] (the greatest count), a network
    without edges or without contingent edges [ZeroDivisionError] (the
    densities, the mean spread); in every other case the stage returns a
    record. *)
Theorem run_stage_outcome path stn ex n th seed opts w resp w1 :
  multiple_simulations stn ex n th seed opts (snd (time_time w))
  = (Return resp, w1) ->
  let run := _run_stage (path, stn) ex n th seed opts w in
  (n <= 0 -> fst run = Raise ZeroDivisionError)
  /\ (1 <= n -> STN.agents stn = [] -> fst run = Raise ValueError)
  /\ (1 <= n -> STN.agents stn <> [] ->
      STN.edges stn = [] \/ STN.contingent_edges stn = [] ->
      fst run = Raise ZeroDivisionError)
  /\ (1 <= n -> STN.agents stn <> [] -> STN.edges stn <> [] ->
      STN.contingent_edges stn <> [] ->
      exists r, fst run = Return r).
Proof.
  intros Hms. pose proof Hms as Hresp.
  apply multiple_simulations_returns in Hresp.
  destruct Hresp as (seeds & _ & Hresp).
  destruct (in_order_response_lengths stn ex n seeds opts) as (L1 & L2 & L3).
  rewrite <- Hresp in L1, L2, L3.
  cbn [time_time snd] in Hms. cbn zeta.
  split; [|split; [|split]];
    (unfold _run_stage; unfold bind at 1; cbn [time_time snd];
     unfold bind at 1; rewrite Hms; unfold bind at 1; cbn [time_time];
     rewrite bind_lift, L1).
  - intros Hn. replace (Z.max 0 n) with 0 by lia. reflexivity.
  - intros Hn Hagents. rewrite (truediv_nonzero _ (Z.max 0 n)) by lia.
    unfold max_agent_verts. rewrite Hagents. reflexivity.
  - intros Hn Hagents Hempty. rewrite (truediv_nonzero _ (Z.max 0 n)) by lia.
    unfold max_agent_verts.
    destruct (STN.agents stn) as [|a agents] eqn:Ha; [contradiction|].
    cbn [map py_max]. rewrite bind_lift.
    rewrite bind_lift, (truediv_nonzero _ (len (a :: agents)))
      by (unfold len; cbn [List.length]; lia).
    rewrite bind_lift.
    destruct (STN.edges stn) as [|e edges] eqn:He; [reflexivity|].
    destruct Hempty as [Hempty|Hempty]; [discriminate|].
    rewrite (truediv_nonzero _ (len (e :: edges)))
      by (unfold len; cbn [List.length]; lia).
    rewrite bind_lift, (truediv_nonzero _ (len (e :: edges)))
      by (unfold len; cbn [List.length]; lia).
    rewrite bind_lift, Hempty. reflexivity.
  - intros Hn Hagents Hedges Hcont. rewrite (truediv_nonzero _ (Z.max 0 n)) by lia.
    unfold max_agent_verts.
    destruct (STN.agents stn) as [|a agents] eqn:Ha; [contradiction|].
    cbn [map py_max]. rewrite bind_lift.
    rewrite bind_lift, (truediv_nonzero _ (len (a :: agents)))
      by (unfold len; cbn [List.length]; lia).
    assert (He : len (STN.edges stn) <> 0) by (rewrite len_nil_iff; exact Hedges).
    assert (Hc : len (STN.contingent_edges stn) <> 0)
      by (rewrite len_nil_iff; exact Hcont).
    rewrite bind_lift, (truediv_nonzero _ (len (STN.edges stn))) by exact He.
    rewrite bind_lift, (truediv_nonzero _ (len (STN.edges stn))) by exact He.
    rewrite bind_lift, (truediv_nonzero _ (len (STN.contingent_edges stn)))
      by exact Hc.
    unfold bind at 1. cbn [time_time].
    rewrite bind_lift, L2, (truediv_nonzero _ (Z.max 0 n)) by lia.
    rewrite bind_lift, L3, (truediv_nonzero _ (Z.max 0 n)) by lia.
    eexists. reflexivity.
Qed.

Lemma defined_sigmas_all (es : list Edge) :
  Forall (fun e => sigma e <> None) es ->
  List.length (flat_map (fun e => match sigma e with
                                  | Some s => [s]
                                  | None => []
                                  end) es)
  = List.length es.
Proof.
  induction 1 as [|e es He _ IH]; [reflexivity|].
  cbn [flat_map]. destruct (sigma e) as [s|]; [|contradiction].
  cbn [app List.length]. rewrite IH. reflexivity.
Qed.

(** X13.  The sd_avg field of a record is the sum of the spreads that are
    defined divided by the number of all the contingent edges; it is the mean
    of the spreads when every contingent edge has one. *)
Theorem sd_avg_over_all_edges path stn ex n th seed opts w r :
  fst (_run_stage (path, stn) ex n th seed opts w) = Return r ->
  (sd_avg r
   == Qsum (defined_sigmas stn) / inject_Z (len (STN.contingent_edges stn)))%Q
  /\ (Forall (fun e => sigma e <> None) (values (STN.contingent_edges stn)) ->
      (sd_avg r
       == Qsum (defined_sigmas stn) / inject_Z (len (defined_sigmas stn)))%Q).
Proof.
  intros Hr.
  pose proof (sd_avg_divides_by_all_edges path stn ex n th seed opts w r Hr)
    as Hsd.
  split; [exact Hsd|]. intros Hall. rewrite Hsd.
  assert (Hlen : len (defined_sigmas stn) = len (STN.contingent_edges stn)).
  { unfold defined_sigmas, len. rewrite (defined_sigmas_all _ Hall).
    unfold values. rewrite length_map. reflexivity. }
  rewrite Hlen. reflexivity.
Qed.

End Batches.

(** X9, witness: five trials from root seed 42, with an engine that succeeds
    below seed 44. *)
Lemma seeded_batch_outcomes_witness :
  exists seed_gen,
    RandomState_init (NumpyRandom := counting_numpy) 42 = inr seed_gen
    /\ let seeds := draw_seeds (numpy := counting_numpy) (Z.to_nat 5) seed_gen in
       let outcomes :=
         map (fun seed => trial_outcome (engine := stub_engine 44 2)
                                        small_stn "early" zero_options
                                        (Some seed)) seeds in
       sample_results two_of_five = map (fun r => fst (fst r)) outcomes
       /\ reschedules two_of_five = map (fun r => snd (fst r)) outcomes
       /\ sent_schedules two_of_five = map snd outcomes
       /\ len outcomes = Z.max 0 5.
Proof.
  eassert (Hrun : multiple_simulations (engine := stub_engine 44 2)
                    (numpy := counting_numpy) small_stn "early" 5 3 (Some 42)
                    zero_options (stub_world 0 1 [2; 0; 1]%nat [])
                  = (Return two_of_five, _)) by (vm_compute; reflexivity).
  exact (seeded_batch_outcomes _ _ _ _ _ _ _ _ _ Hrun).
Defined.

(** X10, witness: three trials in one worker against five in three. *)
Lemma smaller_batch_is_prefix_witness :
  exists resp,
    fst (multiple_simulations (engine := stub_engine 44 2)
           (numpy := counting_numpy) small_stn "early" 3 1 (Some 42)
           zero_options (stub_world 0 0 [] [])) = Return resp
    /\ sample_results resp = firstn 3 (sample_results two_of_five)
    /\ reschedules resp = firstn 3 (reschedules two_of_five)
    /\ sent_schedules resp = firstn 3 (sent_schedules two_of_five).
Proof.
  eassert (Hsmall : multiple_simulations (engine := stub_engine 44 2)
                      (numpy := counting_numpy) small_stn "early" 3 1 (Some 42)
                      zero_options (stub_world 0 0 [] [])
                    = (Return _, _)) by (vm_compute; reflexivity).
  eassert (Hlarge : multiple_simulations (engine := stub_engine 44 2)
                      (numpy := counting_numpy) small_stn "early" 5 3 (Some 42)
                      zero_options (stub_world 0 1 [2; 0; 1]%nat [])
                    = (Return two_of_five, _)) by (vm_compute; reflexivity).
  eexists. split; [rewrite Hsmall; reflexivity|].
  exact (smaller_batch_is_prefix _ _ _ _ 3 5 _ _ _ _ _ _ _ _
           ltac:(lia) Hsmall Hlarge).
Defined.


(** X12, witness: a network without agents, and [small_stn]. *)
Lemma run_stage_outcome_witness :
  fst (_run_stage (engine := stub_engine 44 2) (numpy := counting_numpy)
                  ("nobody.json", stn_without_agents) "early" 5 1 (Some 42)
                  zero_options (stub_world 0 0 [] [])) = Raise ValueError
  /\ exists r,
       fst (_run_stage (engine := stub_engine 44 2) (numpy := counting_numpy)
                       ("small.json", small_stn) "early" 5 1 (Some 42)
                       zero_options (stub_world 0 0 [] [])) = Return r.
Proof.
  split.
  - eassert (Hms : multiple_simulations (engine := stub_engine 44 2)
                     (numpy := counting_numpy) stn_without_agents "early" 5 1
                     (Some 42) zero_options
                     (snd (time_time (stub_world 0 0 [] [])))
                   = (Return _, _)) by (vm_compute; reflexivity).
    destruct (run_stage_outcome "nobody.json" _ _ _ _ _ _ _ _ _ Hms)
      as (_ & Hnobody & _).
    apply Hnobody; [lia | reflexivity].
  - eassert (Hms : multiple_simulations (engine := stub_engine 44 2)
                     (numpy := counting_numpy) small_stn "early" 5 1
                     (Some 42) zero_options
                     (snd (time_time (stub_world 0 0 [] [])))
                   = (Return _, _)) by (vm_compute; reflexivity).
    destruct (run_stage_outcome "small.json" _ _ _ _ _ _ _ _ _ Hms)
      as (_ & _ & _ & Hreturns).
    apply Hreturns; [lia | discriminate | discriminate | discriminate].
Defined.

(** X13, witness: [small_stn], one spread of 1 over two contingent edges. *)
Lemma sd_avg_over_all_edges_witness :
  exists r,
    fst (_run_stage (engine := stub_engine 44 2) (numpy := counting_numpy)
                    ("small.json", small_stn) "early" 5 1 (Some 42)
                    zero_options (stub_world 0 0 [] [])) = Return r
    /\ (sd_avg r
        == Qsum (defined_sigmas small_stn)
           / inject_Z (len (STN.contingent_edges small_stn)))%Q.
Proof.
  eexists.
  assert (Hrun : fst (_run_stage (engine := stub_engine 44 2)
                                 (numpy := counting_numpy)
                                 ("small.json", small_stn) "early" 5 1 (Some 42)
                                 zero_options (stub_world 0 0 [] []))
                 = Return _) by (vm_compute; reflexivity).
  split; [exact Hrun|].
  exact (proj1 (sd_avg_over_all_edges _ _ _ _ _ _ _ _ _ Hrun)).
Defined.

Section SweepController.
Context {engine : Engine} {numpy : NumpyRandom} {loader : Loader}.

(** ** The pairs of a sweep *)

Lemma fold_left_append {A B : Type} (f : A -> list B) (l : list A)
    (acc : list B) :
  fold_left (fun acc x => acc ++ f x) l acc = acc ++ flat_map f l.
Proof.
  revert acc. induction l as [|x l IH]; intros acc; cbn [fold_left flat_map].
  - rewrite app_nil_r. reflexivity.
  - rewrite IH, app_assoc. reflexivity.
Qed.

(** X14.  The pairs of a sweep come in the order of the paths, every network
    with the path of the file it was read from: one pair per path for JSON
    files, one pair per instance, in the order of the file, for MIT files. *)
Theorem collect_stn_pairs_in_path_order (stn_paths : list string) :
  collect_stn_pairs stn_paths false
  = map (fun path => (path, load_stn_from_json_file path)) stn_paths
  /\ collect_stn_pairs stn_paths true
     = flat_map (fun path => map (fun k => (path, k)) (mit2stn path)) stn_paths
  /\ forall mitparse pair,
       In pair (collect_stn_pairs stn_paths mitparse) ->
       In (fst pair) stn_paths.
Proof.
  assert (Hjson : collect_stn_pairs stn_paths false
                  = map (fun path => (path, load_stn_from_json_file path))
                        stn_paths).
  { unfold collect_stn_pairs.
    rewrite (fold_left_append
               (fun path => [(path, load_stn_from_json_file path)])).
    cbn [app]. induction stn_paths as [|p ps IH]; [reflexivity|].
    cbn [flat_map map app]. rewrite IH. reflexivity. }
  assert (Hmit : collect_stn_pairs stn_paths true
                 = flat_map (fun path => map (fun k => (path, k)) (mit2stn path))
                            stn_paths).
  { unfold collect_stn_pairs.
    rewrite (fold_left_append
               (fun path => map (fun k => (path, k)) (mit2stn path))).
    reflexivity. }
  split; [exact Hjson|]. split; [exact Hmit|].
  intros [|] pair Hin.
  - rewrite Hmit in Hin. apply in_flat_map in Hin.
    destruct Hin as (p & Hp & Hin). apply in_map_iff in Hin.
    destruct Hin as (k & <- & _). exact Hp.
  - rewrite Hjson in Hin. apply in_map_iff in Hin.
    destruct Hin as (p & <- & Hp). exact Hp.
Qed.

(** ** Sweeps that resume, and sweeps that select nothing *)

Lemma pick_same_start stn_pairs sim_options ordering_pairs (a b : Z) stop rest
    (i : nat) :
  a <= b <= Z.of_nat i ->
  flat_map (pick stn_pairs sim_options ordering_pairs b stop)
           (combine (seq i (List.length rest)) rest)
  = flat_map (pick stn_pairs sim_options ordering_pairs a stop)
             (combine (seq i (List.length rest)) rest).
Proof.
  revert i. induction rest as [|p rest IH]; intros i Hi; [reflexivity|].
  cbn [List.length seq combine flat_map]. rewrite IH by lia. f_equal.
  unfold pick. cbn [fst].
  destruct (Z.leb_spec a (Z.of_nat i)); [|lia].
  destruct (Z.leb_spec b (Z.of_nat i)); [|lia]. reflexivity.
Qed.

Lemma selected_cells_split stn_pairs sim_options ordering_pairs
    (a b : Z) (stop : option Z) rest (i : nat) :
  a <= b ->
  match stop with Some c => b <= c | None => True end ->
  flat_map (pick stn_pairs sim_options ordering_pairs a (Some b))
           (combine (seq i (List.length rest)) rest)
  ++ flat_map (pick stn_pairs sim_options ordering_pairs b stop)
              (combine (seq i (List.length rest)) rest)
  = flat_map (pick stn_pairs sim_options ordering_pairs a stop)
             (combine (seq i (List.length rest)) rest).
Proof.
  intros Hab Hbc. revert i.
  induction rest as [|p rest IH]; intros i; [reflexivity|].
  destruct (Z.lt_ge_cases (Z.of_nat i) b) as [Hlt|Hge].
  - cbn [List.length seq combine flat_map]. rewrite <- IH.
    rewrite <- !app_assoc. 
    assert (Hnone : pick stn_pairs sim_options ordering_pairs b stop (i, p) = []).
    { unfold pick. cbn [fst]. destruct (Z.leb_spec b (Z.of_nat i)); [lia|].
      reflexivity. }
    assert (Hsame : pick stn_pairs sim_options ordering_pairs a (Some b) (i, p)
                    = pick stn_pairs sim_options ordering_pairs a stop (i, p)).
    { unfold pick. cbn [fst]. destruct (Z.ltb_spec (Z.of_nat i) b); [|lia].
      destruct stop as [c|]; [|reflexivity].
      destruct (Z.ltb_spec (Z.of_nat i) c); [reflexivity | lia]. }
    rewrite Hnone, Hsame. reflexivity.
  - rewrite (pick_nothing_after_stop sim_options stn_pairs ordering_pairs a b
               (p :: rest) i) by lia.
    cbn [app]. apply pick_same_start. lia.
Qed.

(** X15.  A sweep can be resumed at a network index: sweeping the networks
    from [a] up to [b] and then from [b] on (up to the stop index, if any) is
    sweeping from [a] on, the second sweep starting in the world the first
    one leaves, and not starting at all when the first one raises. *)
Theorem sweep_resumes stn_paths execution threads sim_count sim_options output
    live_updates random_seed mitparse ordering_pairs (a b : Z)
    (stop_index : option Z) w :
  a <= b ->
  match stop_index with Some c => b <= c | None => True end ->
  across_paths stn_paths execution threads sim_count sim_options output
               live_updates random_seed mitparse a stop_index ordering_pairs w
  = bind (across_paths stn_paths execution threads sim_count sim_options output
                       live_updates random_seed mitparse a (Some b)
                       ordering_pairs)
         (fun _ =>
            across_paths stn_paths execution threads sim_count sim_options
                         output live_updates random_seed mitparse b stop_index
                         ordering_pairs) w.
Proof.
  intros Hab Hbc. rewrite across_paths_cells. unfold selected_cells.
  rewrite <- (selected_cells_split _ _ _ a b stop_index _ 0 Hab Hbc).
  rewrite run_cells_app. unfold bind.
  rewrite across_paths_cells. unfold selected_cells.
  destruct (run_cells _ _ _ _ _ _ _ w) as [[[]|e|] w1]; try reflexivity.
  rewrite across_paths_cells. reflexivity.
Qed.

Lemma flat_map_nothing {A B : Type} (f : A -> list B) (l : list A) :
  (forall x, In x l -> f x = []) -> flat_map f l = [].
Proof.
  induction l as [|x l IH]; intros Hf; [reflexivity|].
  cbn [flat_map]. rewrite (Hf x (or_introl eq_refl)), IH; [reflexivity|].
  intros y Hy. apply Hf. right. exact Hy.
Qed.

Lemma in_numbered {A : Type} (l : list A) (i : nat) (x : A) :
  In (i, x) (combine (seq 0 (List.length l)) l) -> (i < List.length l)%nat.
Proof.
  intros Hin. apply in_combine_l in Hin. apply in_seq in Hin. lia.
Qed.

(** X16.  A sweep selects nothing, and then returns at once without emitting
    anything, when the grid is the empty list, when the start index is not
    below the number of networks, or when the stop index is not above the
    start index or not above 0. *)
Theorem sweep_of_nothing stn_paths execution threads sim_count sim_options
    output live_updates random_seed mitparse start_index stop_index
    ordering_pairs w :
  ordering_pairs = Some []
  \/ len (collect_stn_pairs stn_paths mitparse) <= start_index
  \/ (exists stop, stop_index = Some stop /\ (stop <= start_index \/ stop <= 0)) ->
  across_paths stn_paths execution threads sim_count sim_options output
               live_updates random_seed mitparse start_index stop_index
               ordering_pairs w
  = (Return tt, w).
Proof.
  intros Hnone. rewrite across_paths_cells.
  replace (selected_cells (collect_stn_pairs stn_paths mitparse) sim_options
                          ordering_pairs start_index stop_index)
    with (@nil cell); [reflexivity|].
  symmetry. unfold selected_cells. apply flat_map_nothing.
  intros [i pair] Hin. apply in_numbered in Hin. unfold pick. cbn [fst snd].
  destruct Hnone as [->|[Hstart|(stop & -> & Hstop)]].
  - destruct (_ && _); reflexivity.
  - unfold len in Hstart.
    destruct (Z.leb_spec start_index (Z.of_nat i)); [lia|]. reflexivity.
  - destruct (Z.leb_spec start_index (Z.of_nat i));
      destruct (Z.ltb_spec (Z.of_nat i) stop); try reflexivity; lia.
Qed.

(** ** What a sweep writes *)

Lemma csv_rows_app (l1 l2 : list event) :
  csv_rows (l1 ++ l2) = csv_rows l1 ++ csv_rows l2.
Proof. unfold csv_rows. apply flat_map_app. Qed.

Lemma progress_shown_app (l1 l2 : list event) :
  progress_shown (l1 ++ l2) = progress_shown l1 ++ progress_shown l2.
Proof. unfold progress_shown. apply flat_map_app. Qed.

Lemma sinks_rounds (threads : Z) (k : nat) :
  csv_rows (List.concat (repeat (retry_round threads) k)) = []
  /\ progress_shown (List.concat (repeat (retry_round threads) k)) = [].
Proof.
  induction k as [|k [IH1 IH2]]; [split; reflexivity|].
  cbn [repeat List.concat]. rewrite csv_rows_app, progress_shown_app, IH1, IH2.
  split; reflexivity.
Qed.

(** A batch writes no row and shows no progress. *)
Lemma multiple_simulations_sinks stn strat count threads seed opts w :
  exists emitted,
    log (snd (multiple_simulations stn strat count threads seed opts w))
    = log w ++ emitted
    /\ csv_rows emitted = [] /\ progress_shown emitted = [].
Proof.
  destruct (drawn_seeds seed count) as [e|seeds] eqn:Hseeds.
  - destruct (multiple_simulations_refused stn strat count threads seed opts w e
                Hseeds) as (_ & _ & Hlog).
    eexists. split; [exact Hlog | split; reflexivity].
  - destruct (Z_le_gt_dec threads 1) as [Hle|Hgt].
    + destruct (multiple_simulations_sequential stn strat count threads seed opts
                  w seeds Hseeds Hle) as (_ & _ & Hlog).
      eexists. split; [exact Hlog | split; reflexivity].
    + destruct (multiple_simulations_parallel stn strat count threads seed opts
                  w seeds Hseeds Hgt) as (_ & Hlog & _).
      destruct (sinks_rounds threads (blocked (pools w) (pool_calls w) 4))
        as [Hcsv Hshown].
      eexists. split; [exact Hlog|].
      rewrite !csv_rows_app, !progress_shown_app, Hcsv, Hshown.
      destruct (_ <? 4)%nat; split; reflexivity.
Qed.

Lemma run_cell_sinks ex th n output live seed c w :
  exists emitted,
    log (snd (run_cell ex th n output live seed c w)) = log w ++ emitted
    /\ match fst (run_cell ex th n output live seed c w) with
       | Return _ =>
           exists r,
             record_of_cell ex th n seed c r
             /\ csv_rows emitted = match output with
                                   | Some _ => [r]
                                   | None => []
                                   end
             /\ progress_shown emitted
                = if live then [(r, cell_progress c, cell_total c)] else []
       | _ => csv_rows emitted = [] /\ progress_shown emitted = []
       end.
Proof.
  destruct c as [[path stn] options progress total].
  unfold run_cell. cbn [cell_pair cell_options cell_progress cell_total].
  pose proof (_run_stage_log (path, stn) ex n th seed options w) as Hlog.
  destruct (multiple_simulations_sinks stn ex n th seed options
              (snd (time_time w))) as (emitted & Hbatch & Hcsv & Hshown).
  cbn [snd] in Hlog. rewrite Hbatch in Hlog. cbn [time_time snd log] in Hlog.
  unfold bind.
  destruct (_run_stage (path, stn) ex n th seed options w) as [[r|e|] w1] eqn:Hrun;
    cbn [snd] in Hlog.
  - apply _run_stage_returns in Hrun.
    destruct Hrun as (resp & w2 & rob & maxv & meanv & cd & syn & sd & rf & sf
                      & _ & _ & _ & _ & _ & _ & _ & _ & _ & Hr).
    assert (Hrec : record_of_cell ex th n seed
                     {| cell_pair := (path, stn); cell_options := options;
                        cell_progress := progress; cell_total := total |} r).
    { unfold record_of_cell. cbn [cell_pair cell_options fst snd].
      pose proof (f_equal stn_path Hr) as F1.
      pose proof (f_equal stn_name Hr) as F2.
      pose proof (f_equal ar_threshold Hr) as F3.
      pose proof (f_equal si_threshold Hr) as F4.
      pose proof (f_equal execution Hr) as F5.
      pose proof (f_equal threads Hr) as F6.
      pose proof (f_equal samples Hr) as F7.
      pose proof (f_equal random_seed Hr) as F8.
      cbn in F1, F2, F3, F4, F5, F6, F7, F8. repeat split; assumption. }
    destruct live, output as [o|];
      unfold _print_results, save_csv_row, emit, ret;
      cbn [fst snd log]; rewrite Hlog, <- ?app_assoc;
      (eexists; split; [reflexivity|]); exists r;
      (split; [exact Hrec|]);
      rewrite ?csv_rows_app, ?progress_shown_app, Hcsv, Hshown;
      split; reflexivity.
  - exists emitted. cbn [fst snd]. split; [exact Hlog | split; assumption].
  - exists emitted. cbn [fst snd]. split; [exact Hlog | split; assumption].
Qed.

Lemma run_cells_sinks ex th n output live seed cs w :
  exists emitted rs,
    log (snd (run_cells ex th n output live seed cs w)) = log w ++ emitted
    /\ Forall2 (record_of_cell ex th n seed) (firstn (List.length rs) cs) rs
    /\ csv_rows emitted = match output with Some _ => rs | None => [] end
    /\ progress_shown emitted
       = (if live
          then map (fun cr => (snd cr, cell_progress (fst cr), cell_total (fst cr)))
                   (combine cs rs)
          else [])
    /\ match fst (run_cells ex th n output live seed cs w) with
       | Return _ => List.length rs = List.length cs
       | _ => (List.length rs < List.length cs)%nat
       end.
Proof.
  revert w. induction cs as [|c cs IH]; intros w.
  - exists [], []. cbn [run_cells ret fst snd List.length firstn combine map].
    rewrite app_nil_r. split; [reflexivity|]. split; [constructor|].
    split; [destruct output; reflexivity|].
    split; [destruct live; reflexivity|]. reflexivity.
  - cbn [run_cells]. unfold bind.
    destruct (run_cell_sinks ex th n output live seed c w) as (e1 & Hlog1 & Hc).
    destruct (run_cell ex th n output live seed c w) as [[[]|e|] w1];
      cbn [fst snd] in *.
    + destruct Hc as (r & Hrec & Hcsv & Hshown).
      destruct (IH w1) as (e2 & rs & Hlog2 & Hrecs & Hcsv2 & Hshown2 & Hlen).
      exists (e1 ++ e2), (r :: rs).
      rewrite Hlog2, Hlog1, <- app_assoc, csv_rows_app, progress_shown_app,
        Hcsv, Hcsv2, Hshown, Hshown2.
      split; [reflexivity|]. split; [constructor; assumption|].
      split; [destruct output; reflexivity|].
      split; [destruct live; reflexivity|].
      destruct (fst (run_cells ex th n output live seed cs w1));
        cbn [List.length]; lia.
    + destruct Hc as [Hcsv Hshown]. exists e1, [].
      rewrite Hcsv, Hshown. split; [exact Hlog1|]. split; [constructor|].
      split; [destruct output; reflexivity|].
      split; [destruct live; reflexivity|]. cbn. lia.
    + destruct Hc as [Hcsv Hshown]. exists e1, [].
      rewrite Hcsv, Hshown. split; [exact Hlog1|]. split; [constructor|].
      split; [destruct output; reflexivity|].
      split; [destruct live; reflexivity|]. cbn. lia.
Qed.

(** X17.  A sweep writes one CSV row and shows one progress line per cell it
    completes, in the order of the selected cells, and nothing for a cell
    that fails or that comes after a failure: the row of a cell carries the
    path and the name of its network, its two thresholds and the strategy,
    worker count, trial count and root seed of the sweep; its progress line
    carries the progress index and the total of the cell.  Rows are written
    only when there is an output file, progress lines only with live
    updates.  The sweep returns exactly when every selected cell is
    completed. *)
Theorem sweep_writes_completed_cells stn_paths execution threads sim_count
    sim_options output live_updates random_seed mitparse start_index
    stop_index ordering_pairs w :
  let run := across_paths stn_paths execution threads sim_count sim_options
                          output live_updates random_seed mitparse start_index
                          stop_index ordering_pairs w in
  let cells := selected_cells (collect_stn_pairs stn_paths mitparse)
                              sim_options ordering_pairs start_index
                              stop_index in
  exists emitted records,
    log (snd run) = log w ++ emitted
    /\ Forall2 (record_of_cell execution threads sim_count random_seed)
               (firstn (List.length records) cells) records
    /\ csv_rows emitted = match output with Some _ => records | None => [] end
    /\ progress_shown emitted
       = (if live_updates
          then map (fun cr => (snd cr, cell_progress (fst cr), cell_total (fst cr)))
                   (combine cells records)
          else [])
    /\ match fst run with
       | Return _ => List.length records = List.length cells
       | _ => (List.length records < List.length cells)%nat
       end.
Proof.
  cbn zeta. rewrite across_paths_cells. apply run_cells_sinks.
Qed.

(** ** How many cells a sweep selects *)

Lemma selected_count (stn_pairs : list (string * STN.t)) sim_options
    ordering_pairs (start_index : Z) (stop_index : option Z) rest (i : nat) :
  let upper := Z.of_nat i + len rest in
  let bound := match stop_index with
               | Some stop => Z.min stop upper
               | None => upper
               end in
  List.length
    (flat_map (pick stn_pairs sim_options ordering_pairs start_index stop_index)
              (combine (seq i (List.length rest)) rest))
  = (grid_size ordering_pairs
     * Z.to_nat (bound - Z.max (Z.of_nat i) start_index))%nat.
Proof.
  revert i. induction rest as [|p rest IH]; intros i.
  - cbn. unfold len. cbn [List.length].
    replace (Z.to_nat _) with 0%nat by (destruct stop_index; lia). lia.
  - cbn zeta. cbn [List.length seq combine flat_map].
    rewrite length_app. specialize (IH (S i)). cbn zeta in IH. rewrite IH.
    assert (Hupper : Z.of_nat (S i) + len rest = Z.of_nat i + len (p :: rest))
      by (unfold len; cbn [List.length]; lia).
    rewrite Hupper.
    set (upper := Z.of_nat i + len (p :: rest)).
    assert (Hu : Z.of_nat i < upper)
      by (unfold upper, len; cbn [List.length]; lia).
    set (bound := match stop_index with
                  | Some stop => Z.min stop upper
                  | None => upper
                  end).
    unfold pick. cbn [fst snd].
    destruct ((start_index <=? Z.of_nat i)
              && match stop_index with
                 | Some stop => Z.of_nat i <? stop
                 | None => true
                 end) eqn:Hsel.
    + rewrite cells_of_pair_length.
      apply andb_true_iff in Hsel. destruct Hsel as [Hs Ht].
      apply Z.leb_le in Hs.
      assert (Hb : Z.of_nat i < bound).
      { subst bound. destruct stop_index as [stop|]; [|exact Hu].
        apply Z.ltb_lt in Ht. lia. }
      replace (Z.to_nat (bound - Z.max (Z.of_nat i) start_index))
        with (S (Z.to_nat (bound - Z.max (Z.of_nat (S i)) start_index))) by lia.
      rewrite Nat.mul_succ_r. lia.
    + cbn [List.length Nat.add]. f_equal.
      apply andb_false_iff in Hsel. destruct Hsel as [Hs|Ht].
      * apply Z.leb_gt in Hs. lia.
      * subst bound. destruct stop_index as [stop|]; [|discriminate].
        apply Z.ltb_ge in Ht. lia.
Qed.

(** X18.  With [n] networks and a grid of [G] settings ([G = 1] without a
    grid) a sweep selects [G] cells for every network index from
    [max 0 start_index] up to, and without, [min n stop_index] ([n] when
    there is no stop index). *)
Theorem sweep_size stn_paths execution threads sim_count sim_options output
    live_updates random_seed mitparse start_index stop_index ordering_pairs w :
  let stn_pairs := collect_stn_pairs stn_paths mitparse in
  let bound := match stop_index with
               | Some stop => Z.min stop (len stn_pairs)
               | None => len stn_pairs
               end in
  let cells := selected_cells stn_pairs sim_options ordering_pairs start_index
                              stop_index in
  List.length cells
  = (grid_size ordering_pairs * Z.to_nat (bound - Z.max 0 start_index))%nat
  /\ across_paths stn_paths execution threads sim_count sim_options output
                  live_updates random_seed mitparse start_index stop_index
                  ordering_pairs w
     = run_cells execution threads sim_count output live_updates random_seed
                 cells w.
Proof.
  cbn zeta. split; [|apply across_paths_cells].
  unfold selected_cells.
  rewrite (selected_count (collect_stn_pairs stn_paths mitparse) sim_options
             ordering_pairs start_index stop_index
             (collect_stn_pairs stn_paths mitparse) 0).
  reflexivity.
Qed.

End SweepController.

(** X15, witness: the demonstration sweep, resumed at its second network. *)
Lemma sweep_resumes_witness :
  demo_sweep 0 None
  = bind (across_paths (engine := stub_engine 79 2) (numpy := counting_numpy)
                       (loader := stub_loader small_stn)
                       ["a.json"; "b.json"] "early" 1 4 zero_options
                       (Some "out.csv") false (Some 42) false 0 (Some 1)
                       (Some demo_grid))
         (fun _ =>
            across_paths (engine := stub_engine 79 2) (numpy := counting_numpy)
                         (loader := stub_loader small_stn)
                         ["a.json"; "b.json"] "early" 1 4 zero_options
                         (Some "out.csv") false (Some 42) false 1 None
                         (Some demo_grid))
         (stub_world 0 0 [] []).
Proof.
  apply (sweep_resumes (engine := stub_engine 79 2) (numpy := counting_numpy)
           (loader := stub_loader small_stn)
           ["a.json"; "b.json"] "early" 1 4 zero_options (Some "out.csv") false
           (Some 42) false (Some demo_grid) 0 1 None (stub_world 0 0 [] [])).
  - lia.
  - exact I.
Defined.

(** X16, witness: the two networks of the demonstration swept over an empty
    grid. *)
Lemma sweep_of_nothing_witness :
  across_paths (engine := stub_engine 79 2) (numpy := counting_numpy)
               (loader := stub_loader small_stn)
               ["a.json"; "b.json"] "early" 1 4 zero_options (Some "out.csv")
               true (Some 42) false 0 None (Some []) (stub_world 0 0 [] [])
  = (Return tt, stub_world 0 0 [] []).
Proof.
  apply (sweep_of_nothing (engine := stub_engine 79 2) (numpy := counting_numpy)
           (loader := stub_loader small_stn)).
  left. reflexivity.
Defined.
